(** * Feetech serial-bus servo SDK: the packet protocol engine

    A shallow embedding of the TypeScript sources
    - [core/constants.ts]       (constants, 16-bit word helpers),
    - [core/packet-handler.ts]  (class [PacketHandler]),
    - [core/port-handler.ts]    (class [WebSerialPortHandler]),
    - [core/protocol-handler.ts](class [ProtocolHandler]),
    - [sync/group-sync-write.ts], [sync/group-sync-read.ts],
    - [types/control-table.ts], [types/models.ts], [utils/helpers.ts],
    - [index.ts]                (class [FeetechServo], the facade),
    followed by the properties of the wire format and of the transaction
    engine that are established about them.

    Conventions of the embedding.
    - A JavaScript [number] holding an integer is a [Z].  The bit operators
      [&], [|], [~], [<<], [>>] are [Z.land], [Z.lor], [Z.lnot], [Z.shiftl],
      [Z.shiftr]; the 32-bit truncation they perform first does not change
      the low bits that the code keeps ([& 0xFF]).
    - A [Uint8Array] is a [list Z] whose elements lie in [0, 256)
      ([isBytes]); storing a number into an element wraps it ([toUint8]).
    - [throw] is the [Throw] result; [try/catch] is a match on it. *)

From Stdlib Require Import ZArith List String Lia Bool Ascii Sorted.
From Stdlib Require DecimalString HexadecimalString.
Import ListNotations.
Open Scope string_scope.
Open Scope list_scope.
Open Scope Z_scope.

Set Implicit Arguments.

(* ================================================================== *)
(** * Part I: the embedding                                            *)
(* ================================================================== *)

(** ** Typed arrays *)

Definition Uint8Array := list Z.

Definition isBytes (a : Uint8Array) : Prop := Forall (fun b => 0 <= b < 256) a.

(** Conversion applied when a number is stored into a [Uint8Array]. *)
Definition toUint8 (x : Z) : Z := x mod 256.

(** [a.length]. *)
Definition len (A : Type) (a : list A) : Z := Z.of_nat (List.length a).

(** [a[i]].  Every indexed read in the modelled code is guarded by a length
    test, so the value for an index out of range ([undefined] in JavaScript)
    is never observed; it is 0 here. *)
Definition at_ (a : list Z) (i : Z) : Z := nth (Z.to_nat i) a 0.

(** The position an index argument of [slice] stands for in an array of [n]
    elements: a negative index counts from the end, and the result is
    clamped to [0 .. n]. *)
Definition relativeIndex (i n : Z) : Z :=
  if i <? 0 then Z.max (n + i) 0 else Z.min i n.

(** [a.slice(s, e)]: the elements from position [s] up to, not including,
    position [e], both taken relative to the array ([relativeIndex]); an end
    that is not beyond the start gives the empty array. *)
Definition slice (s e : Z) (a : Uint8Array) : Uint8Array :=
  let from := relativeIndex s (len a) in
  let final := relativeIndex e (len a) in
  firstn (Z.to_nat (final - from)) (skipn (Z.to_nat from) a).

(** [new Uint8Array(n)]: [n] zero bytes. *)
Definition newUint8Array (n : Z) : Uint8Array := repeat 0 (Z.to_nat n).

(** The array [a] with element [i] replaced by the byte [b]; an index past
    the end leaves it as it is (typed arrays do not grow). *)
Fixpoint putIndex (i : nat) (b : Z) (a : Uint8Array) : Uint8Array :=
  match a with
  | [] => []
  | x :: t => match i with
              | O => b :: t
              | S j => x :: putIndex j b t
              end
  end.

(** [a[i] = v] with [v] a number: the value wraps to a byte. *)
Definition setIndex (i : nat) (v : Z) (a : Uint8Array) : Uint8Array :=
  putIndex i (toUint8 v) a.

(** [a.set(src, offset)] with a [Uint8Array] source: its bytes are copied one
    by one.  (JavaScript raises a RangeError when the source does not fit;
    the code only calls it on arrays allocated with the exact size.) *)
Fixpoint setArray (src : Uint8Array) (offset : nat) (a : Uint8Array) : Uint8Array :=
  match src with
  | [] => a
  | b :: src' => setArray src' (S offset) (putIndex offset b a)
  end.

(** [a.set(src, offset)] with a [number[]] source: each number wraps. *)
Definition setNumbers (src : list Z) (offset : nat) (a : Uint8Array) : Uint8Array :=
  setArray (map toUint8 src) offset a.

(** Template-literal formatting of numbers. *)
Definition decimal (x : Z) : string :=
  DecimalString.NilZero.string_of_int (Z.to_int x).

(** [x.toString(16)] for [x >= 0]. *)
Definition hexadecimal (x : Z) : string :=
  HexadecimalString.NilZero.string_of_uint (N.to_hex_uint (Z.to_N x)).

(** ** [types/index.ts] *)

Inductive Instruction :=
| PING | READ | WRITE | REG_WRITE | ACTION | FACTORY_RESET | REBOOT
| SYNC_WRITE | SYNC_READ.

Definition instructionCode (i : Instruction) : Z :=
  match i with
  | PING => 0x01 | READ => 0x02 | WRITE => 0x03 | REG_WRITE => 0x04
  | ACTION => 0x05 | FACTORY_RESET => 0x06 | REBOOT => 0x08
  | SYNC_WRITE => 0x83 | SYNC_READ => 0x82
  end.

Module ErrorBit.
Definition VOLTAGE := 0x01.
Definition ANGLE := 0x02.
Definition OVERHEAT := 0x04.
Definition RANGE := 0x08.
Definition CHECKSUM := 0x10.
Definition OVERLOAD := 0x20.
Definition INSTRUCTION := 0x40.
End ErrorBit.

Inductive ErrorCode :=
| CONNECTION_FAILED | CONNECTION_LOST | PORT_NOT_FOUND | PERMISSION_DENIED
| TIMEOUT | CHECKSUM_ERROR | INVALID_RESPONSE | DEVICE_NOT_FOUND
| WRITE_ERROR | READ_ERROR | INVALID_PARAMETER | HARDWARE_ERROR.

(** [class ServoError extends Error]. *)
Record ServoError := mkServoError {
  message : string;
  code : ErrorCode;
  deviceId : option Z
}.

(** What a [throw] carries: a [ServoError], or a plain [Error] (raised by
    [getControlTableEntry] and the helpers). *)
Inductive Exception :=
| ServoErr (e : ServoError)
| PlainError (msg : string).

(** The completion of a call.  [Unfinished] is not a JavaScript completion:
    it marks a [while (true)] loop cut off by the iteration budget of the
    embedding.  On a line of the model, which delivers finitely many bytes,
    the budget is never used up ([awaitHeader_finishes]).  A line that keeps
    delivering bytes, on which such a loop of the code need not end, has no
    counterpart here. *)
Inductive Result (A : Type) :=
| Ok (a : A)
| Throw (e : Exception)
| Unfinished.
Arguments Ok {A} a.
Arguments Throw {A} e.
Arguments Unfinished {A}.

Definition throwServoError {A} (msg : string) (c : ErrorCode) (dev : option Z)
  : Result A :=
  Throw (ServoErr (mkServoError msg c dev)).

(** [interface ResponsePacket extends Packet]. *)
Module ResponsePacket.
Record t := mk {
  id : Z;
  instruction : Z;
  parameters : Uint8Array;
  length : Z;
  error : Z;
  checksum : Z
}.
End ResponsePacket.

(** ** [core/constants.ts] *)

Definition BROADCAST_ID := 0xFE.
Definition MAX_ID := 0xFD.

Definition HEADER : list Z := [0xFF; 0xFF].
Definition HEADER_LENGTH := 2.
Definition ID_LENGTH := 1.
Definition LENGTH_LENGTH := 1.
Definition INSTRUCTION_LENGTH := 1.
Definition ERROR_LENGTH := 1.
Definition CHECKSUM_LENGTH := 1.

Definition MIN_PACKET_LENGTH :=
  HEADER_LENGTH + ID_LENGTH + LENGTH_LENGTH + INSTRUCTION_LENGTH + CHECKSUM_LENGTH.

Definition DEFAULT_TIMEOUT := 1000.
Definition LATENCY_TIMER := 8.
Definition TORQUE_ENABLE := 1.
Definition TORQUE_DISABLE := 0.

Definition makeWord (lowByte highByte : Z) : Z :=
  Z.lor (Z.shiftl highByte 8) lowByte.

Definition getLowByte (word : Z) : Z := Z.land word 0xFF.

Definition getHighByte (word : Z) : Z := Z.land (Z.shiftr word 8) 0xFF.

(** ** [core/packet-handler.ts] *)

Module PacketHandler.

Definition calculateChecksum (data : Uint8Array) : Z :=
  let sum := fold_left (fun sum byte => sum + byte) data 0 in
  Z.land (Z.lnot sum) 0xFF.

Definition createPacket (id : Z) (instruction : Instruction)
           (parameters : option Uint8Array) : Uint8Array :=
  let paramLength := match parameters with Some p => len p | None => 0 end in
  let packetLength := MIN_PACKET_LENGTH + paramLength in
  let packet := newUint8Array packetLength in
  (* Header *)
  let packet := setIndex 0 (at_ HEADER 0) packet in
  let packet := setIndex 1 (at_ HEADER 1) packet in
  (* ID *)
  let packet := setIndex 2 id packet in
  (* Length (instruction + parameters + checksum) *)
  let packet := setIndex 3 (paramLength + 2) packet in
  (* Instruction *)
  let packet := setIndex 4 (instructionCode instruction) packet in
  (* Parameters *)
  let packet :=
    match parameters with
    | Some p => if 0 <? paramLength then setArray p 5 packet else packet
    | None => packet
    end in
  (* Checksum *)
  let checksum := calculateChecksum (slice 2 (packetLength - 1) packet) in
  setIndex (Z.to_nat (packetLength - 1)) checksum packet.

Definition parsePacket (data : Uint8Array) : Result ResponsePacket.t :=
  if len data <? MIN_PACKET_LENGTH then
    throwServoError ("Packet too short: " ++ decimal (len data) ++ " bytes")%string
                    INVALID_RESPONSE None
  else
  (* Verify header *)
  if negb (at_ data 0 =? at_ HEADER 0) || negb (at_ data 1 =? at_ HEADER 1) then
    throwServoError "Invalid packet header" INVALID_RESPONSE None
  else
  let id := at_ data 2 in
  let length := at_ data 3 in
  let error := at_ data 4 in
  let expectedPacketLength := HEADER_LENGTH + ID_LENGTH + LENGTH_LENGTH + length in
  if len data <? expectedPacketLength then
    throwServoError ("Incomplete packet: expected " ++ decimal expectedPacketLength
                       ++ " bytes, got " ++ decimal (len data))%string
                    INVALID_RESPONSE None
  else
  (* Extract parameters *)
  let paramLength := length - 2 in
  let parameters :=
    if 0 <? paramLength then slice 5 (5 + paramLength) data else newUint8Array 0 in
  (* Verify checksum *)
  let receivedChecksum := at_ data (expectedPacketLength - 1) in
  let calculatedChecksum :=
    calculateChecksum (slice 2 (expectedPacketLength - 1) data) in
  if negb (receivedChecksum =? calculatedChecksum) then
    throwServoError ("Checksum mismatch: expected " ++ decimal calculatedChecksum
                       ++ ", got " ++ decimal receivedChecksum)%string
                    CHECKSUM_ERROR (Some id)
  else
    Ok (ResponsePacket.mk id 0 parameters length error receivedChecksum).

Definition createPingPacket (id : Z) : Uint8Array :=
  createPacket id PING None.

Definition createReadPacket (id address length : Z) : Uint8Array :=
  let params := [toUint8 address; toUint8 length] in
  createPacket id READ (Some params).

Definition createWritePacket (id address : Z) (data : Uint8Array) : Uint8Array :=
  let params := newUint8Array (1 + len data) in
  let params := setIndex 0 address params in
  let params := setArray data 1 params in
  createPacket id WRITE (Some params).

(** One element of the [data] array of [createSyncWritePacket]. *)
Record SyncItem := mkItem { item_id : Z; item_values : Uint8Array }.

Definition createSyncWritePacket (address length : Z) (data : list SyncItem)
  : Uint8Array :=
  let totalDataLength :=
    fold_left (fun total item => total + (1 + len (item_values item))) data 0 in
  let params := newUint8Array (2 + totalDataLength) in
  let params := setIndex 0 address params in
  let params := setIndex 1 length params in
  let '(params, _) :=
    fold_left (fun '(params, offset) item =>
                 let params := setIndex (Z.to_nat offset) (item_id item) params in
                 let params := setArray (item_values item) (Z.to_nat (offset + 1)) params in
                 (params, offset + (1 + len (item_values item))))
              data (params, 2) in
  createPacket BROADCAST_ID SYNC_WRITE (Some params).

Definition createSyncReadPacket (address length : Z) (ids : list Z) : Uint8Array :=
  let params := newUint8Array (2 + len ids) in
  let params := setIndex 0 address params in
  let params := setIndex 1 length params in
  let params := setNumbers ids 2 params in
  createPacket BROADCAST_ID SYNC_READ (Some params).

(** The [errors] array built by [checkError]; a non-zero [x & bit] is truthy. *)
Definition errorMessages (error : Z) : list string :=
  let errors := [] in
  let errors := if negb (Z.land error ErrorBit.VOLTAGE =? 0)
                then errors ++ ["Input voltage error"] else errors in
  let errors := if negb (Z.land error ErrorBit.ANGLE =? 0)
                then errors ++ ["Angle limit error"] else errors in
  let errors := if negb (Z.land error ErrorBit.OVERHEAT =? 0)
                then errors ++ ["Overheat error"] else errors in
  let errors := if negb (Z.land error ErrorBit.RANGE =? 0)
                then errors ++ ["Out of range error"] else errors in
  let errors := if negb (Z.land error ErrorBit.CHECKSUM =? 0)
                then errors ++ ["Checksum error"] else errors in
  let errors := if negb (Z.land error ErrorBit.OVERLOAD =? 0)
                then errors ++ ["Overload error"] else errors in
  let errors := if negb (Z.land error ErrorBit.INSTRUCTION =? 0)
                then errors ++ ["Invalid instruction error"] else errors in
  errors.

Definition checkError (packet : ResponsePacket.t) : Result unit :=
  if ResponsePacket.error packet =? 0 then Ok tt
  else
    let errors := errorMessages (ResponsePacket.error packet) in
    if 0 <? len errors then
      throwServoError ("Servo error (0x" ++ hexadecimal (ResponsePacket.error packet)
                         ++ "): " ++ String.concat ", " errors)%string
                      HARDWARE_ERROR (Some (ResponsePacket.id packet))
    else Ok tt.

Definition isValidPacketStart (data : Uint8Array) : bool :=
  (2 <=? len data) && (at_ data 0 =? at_ HEADER 0) && (at_ data 1 =? at_ HEADER 1).

(** [number | null] is [option Z]. *)
Definition getPacketLength (data : Uint8Array) : option Z :=
  if len data <? 4 then None
  else Some (HEADER_LENGTH + ID_LENGTH + LENGTH_LENGTH + at_ data 3).

End PacketHandler.

(** ** [types/control-table.ts] and [utils/helpers.ts] *)

Record ControlTableEntry := mkEntry { address : Z; size : Z }.

Definition ControlTableDefinition := list (string * ControlTableEntry).

(** Property read [obj[key]] on an object literal: the own property with
    that key.  (Where the object has no own property of the name, a key that
    names a member of [Object.prototype], such as 'toString' or
    'constructor', finds that inherited member in JavaScript.  [lookup] is
    the property read for every other key; those names are listed in
    [inheritedNames], and a statement whose truth depends on what such a key
    finds excludes them.) *)
Fixpoint lookup (A : Type) (key : string) (obj : list (string * A)) : option A :=
  match obj with
  | [] => None
  | (k, v) :: rest => if String.eqb k key then Some v else lookup key rest
  end.

Definition SCS_SERIES_CONTROL_TABLE : ControlTableDefinition :=
  [ (* EEPROM Area *)
    ("Model", mkEntry 3 2); ("ID", mkEntry 5 1); ("Baud_Rate", mkEntry 6 1);
    ("Return_Delay", mkEntry 7 1); ("Response_Status_Level", mkEntry 8 1);
    ("Min_Angle_Limit", mkEntry 9 2); ("Max_Angle_Limit", mkEntry 11 2);
    ("Max_Temperature_Limit", mkEntry 13 1); ("Max_Voltage_Limit", mkEntry 14 1);
    ("Min_Voltage_Limit", mkEntry 15 1); ("Max_Torque_Limit", mkEntry 16 2);
    ("Phase", mkEntry 18 1); ("Unloading_Condition", mkEntry 19 1);
    ("LED_Alarm_Condition", mkEntry 20 1); ("P_Coefficient", mkEntry 21 1);
    ("D_Coefficient", mkEntry 22 1); ("I_Coefficient", mkEntry 23 1);
    ("Minimum_Startup_Force", mkEntry 24 2); ("CW_Dead_Zone", mkEntry 26 1);
    ("CCW_Dead_Zone", mkEntry 27 1); ("Protection_Current", mkEntry 28 2);
    ("Angular_Resolution", mkEntry 30 1); ("Offset", mkEntry 31 2);
    ("Mode", mkEntry 33 1); ("Protective_Torque", mkEntry 34 1);
    ("Protection_Time", mkEntry 35 1); ("Overload_Torque", mkEntry 36 1);
    ("Speed_closed_loop_P_proportional_coefficient", mkEntry 37 1);
    ("Over_Current_Protection_Time", mkEntry 38 1);
    ("Velocity_closed_loop_I_integral_coefficient", mkEntry 39 1);
    (* RAM Area *)
    ("Torque_Enable", mkEntry 40 1); ("Acceleration", mkEntry 41 1);
    ("Goal_Position", mkEntry 42 2); ("Goal_Time", mkEntry 44 2);
    ("Goal_Speed", mkEntry 46 2); ("Torque_Limit", mkEntry 48 2);
    ("Lock", mkEntry 55 1); ("Present_Position", mkEntry 56 2);
    ("Present_Speed", mkEntry 58 2); ("Present_Load", mkEntry 60 2);
    ("Present_Voltage", mkEntry 62 1); ("Present_Temperature", mkEntry 63 1);
    ("Status", mkEntry 65 1); ("Moving", mkEntry 66 1);
    ("Present_Current", mkEntry 69 2); ("Maximum_Acceleration", mkEntry 85 2) ].

Definition MODEL_CONTROL_TABLE : list (string * ControlTableDefinition) :=
  [ ("scs_series", SCS_SERIES_CONTROL_TABLE);
    ("sts3215", SCS_SERIES_CONTROL_TABLE);
    ("sms_series", SCS_SERIES_CONTROL_TABLE) ].

(** [ControlTableEntry | undefined], or a plain [Error] for an unknown model. *)
Definition getControlTableEntry (model dataName : string)
  : Result (option ControlTableEntry) :=
  match lookup model MODEL_CONTROL_TABLE with
  | None => Throw (PlainError ("Unknown model: " ++ model)%string)
  | Some controlTable => Ok (lookup dataName controlTable)
  end.

Definition SCS_SERIES_BAUD_TABLE : list (Z * Z) :=
  [ (0, 1000000); (1, 500000); (2, 250000); (3, 128000);
    (4, 115200); (5, 57600); (6, 38400); (7, 19200) ].

(** The [for ... of Object.entries(...)] loop of [getBaudRateValue]. *)
Fixpoint findBaud (baudRate : Z) (entries : list (Z * Z)) : option Z :=
  match entries with
  | [] => None
  | (reg, baud) :: rest => if baud =? baudRate then Some reg else findBaud baudRate rest
  end.

Definition getBaudRateValue (baudRate : Z) : Result Z :=
  match findBaud baudRate SCS_SERIES_BAUD_TABLE with
  | Some reg => Ok reg
  | None => Throw (PlainError ("Unsupported baud rate " ++ decimal baudRate)%string)
  end.

(** ** Calls with effects

    An [async] method of an object is a function from the state of the
    object to a completion and the new state.  [await] is sequencing: the bus
    has one master and the methods below never run interleaved.  The fixed
    settle delays ([setTimeout] with [LATENCY_TIMER] or 500 ms) change no
    state and are not represented. *)

Definition M (S A : Type) : Type := S -> Result A * S.

Definition ret {S A} (a : A) : M S A := fun s => (Ok a, s).

Definition bind {S A B} (m : M S A) (k : A -> M S B) : M S B :=
  fun s => match m s with
           | (Ok a, s') => k a s'
           | (Throw e, s') => (Throw e, s')
           | (Unfinished, s') => (Unfinished, s')
           end.

Definition throw {S A} (e : Exception) : M S A := fun s => (Throw e, s).

Definition throwNew {S A} (msg : string) (c : ErrorCode) (dev : option Z) : M S A :=
  throw (ServoErr (mkServoError msg c dev)).

(** A pure call that may throw. *)
Definition call {S A} (r : Result A) : M S A := fun s => (r, s).

(** [try { m } catch (e) { handler e }]. *)
Definition tryCatch {S A} (m : M S A) (handler : Exception -> M S A) : M S A :=
  fun s => match m s with
           | (Throw e, s') => handler e s'
           | r => r
           end.

Definition gets {S A} (f : S -> A) : M S A := fun s => (Ok (f s), s).

Definition modify {S} (f : S -> S) : M S unit := fun s => (Ok tt, f s).

Notation "x <- m ;; k" := (bind m (fun x => k))
  (at level 61, m at next level, right associativity).
Notation "m ;; k" := (bind m (fun _ => k))
  (at level 61, right associativity).

(** ** [core/port-handler.ts]

    The serial line.  While the foreground code is suspended in a wait, the
    background reader ([startReading]) appends to [readBuffer] whatever the
    line delivers.  What the line will deliver is the field [incoming]: a
    chunk of bytes ([Data]), or a pause that outlasts the deadline of the
    wait in progress ([Silence]); when the list is exhausted the line stays
    silent, so a line of the model delivers finitely many bytes.  A wait
    that has what it needs returns at once and takes nothing from
    [incoming].  [isOpen] stands for [this.isOpen] together with the presence
    of the reader and the writer (set and reset together by [connect] and
    [disconnect]); [written] records the arrays passed to the writer.  The
    writer is taken to accept them: a rejection by the writer, which the
    [catch] of [write] turns into WRITE_ERROR, is not represented. *)

Inductive Arrival :=
| Data (bytes : Uint8Array)
| Silence.

Record PortState := mkPort {
  readBuffer : Uint8Array;
  isOpen : bool;
  incoming : list Arrival;
  written : list Uint8Array
}.

Module WebSerialPortHandler.

Definition appendToBuffer (readBuffer data : Uint8Array) : Uint8Array :=
  let newBuffer := newUint8Array (len readBuffer + len data) in
  let newBuffer := setArray readBuffer 0 newBuffer in
  setArray data (Z.to_nat (len readBuffer)) newBuffer.

(** The polling loop shared by [read] and [waitForData]:
    [while (!predicate(this.readBuffer)) { if (deadline passed) throw ...;
    await 1 ms }].  The result tells whether the predicate came to hold. *)
Fixpoint poll (predicate : Uint8Array -> bool) (line : list Arrival)
         (buffer : Uint8Array) : bool * Uint8Array * list Arrival :=
  if predicate buffer then (true, buffer, line)
  else match line with
       | [] => (false, buffer, [])
       | Silence :: line' => (false, buffer, line')
       | Data bytes :: line' => poll predicate line' (appendToBuffer buffer bytes)
       end.

(** [write(data)] with a writer that accepts the array. *)
Definition write (data : Uint8Array) : M PortState unit :=
  fun st =>
    if negb (isOpen st) then
      (throwServoError "Port is not connected" CONNECTION_LOST None, st)
    else
      (Ok tt, mkPort (readBuffer st) (isOpen st) (incoming st) (written st ++ [data])).

(** [read(length, timeoutMs?)]: no caller passes [timeoutMs]; the deadline is
    the port's own. *)
Definition read (length : Z) : M PortState Uint8Array :=
  fun st =>
    if negb (isOpen st) then
      (throwServoError "Port is not connected" CONNECTION_LOST None, st)
    else
      let '(arrived, buffer, line) :=
        poll (fun buf => negb (len buf <? length)) (incoming st) (readBuffer st) in
      if arrived then
        let result := slice 0 length buffer in
        (Ok result, mkPort (slice length (len buffer) buffer) (isOpen st) line (written st))
      else
        (throwServoError ("Read timeout: expected " ++ decimal length
                            ++ " bytes, got " ++ decimal (len buffer))%string
                         TIMEOUT None,
         mkPort buffer (isOpen st) line (written st)).

Definition flush : M PortState unit :=
  fun st => (Ok tt, mkPort (newUint8Array 0) (isOpen st) (incoming st) (written st)).

Definition waitForData (predicate : Uint8Array -> bool) (timeoutMs : Z)
  : M PortState unit :=
  fun st =>
    let '(arrived, buffer, line) := poll predicate (incoming st) (readBuffer st) in
    let st' := mkPort buffer (isOpen st) line (written st) in
    if arrived then (Ok tt, st')
    else (throwServoError "Wait for data timeout" TIMEOUT None, st').

Definition getBufferLength : M PortState Z := gets (fun st => len (readBuffer st)).

Definition peekBuffer (length : Z) : M PortState Uint8Array :=
  gets (fun st => slice 0 (Z.min length (len (readBuffer st))) (readBuffer st)).

End WebSerialPortHandler.

(** The number of bytes the line can still hand to the foreground code. *)
Fixpoint lineBytes (line : list Arrival) : nat :=
  match line with
  | [] => 0
  | Data bytes :: line' => List.length bytes + lineBytes line'
  | Silence :: line' => lineBytes line'
  end.

(** Iteration budget of the header search on a line of the model: every
    iteration that does not leave the loop consumes one byte, so one more
    than the bytes at hand and to come is enough.  (The loop of the code has
    no bound of its own: each wait has a fresh deadline, and the search goes
    on for as long as bytes that are no header keep arriving in time.) *)
Definition headerBudget (st : PortState) : nat :=
  S (List.length (readBuffer st) + lineBytes (incoming st)).

(** The receive path that [ProtocolHandler.sendAndReceive] and
    [GroupSyncRead.readResponse] both spell out, statement for statement the
    same: search the header, read header and length, read the payload, parse,
    verify the id, check the error bits. *)
Module Receive.
Import WebSerialPortHandler.

(** [while (true) { await waitForData(buf => buf.length >= 2, timeout);
    const h = peekBuffer(2);
    if (h[0] === 0xFF && h[1] === 0xFF) break;
    await read(1); }] *)
Fixpoint awaitHeaderLoop (budget : nat) (timeout : Z) : M PortState unit :=
  match budget with
  | O => fun st => (Unfinished, st)
  | S budget' =>
      waitForData (fun buf => 2 <=? len buf) timeout ;;
      h <- peekBuffer 2 ;;
      if (at_ h 0 =? 0xFF) && (at_ h 1 =? 0xFF) then ret tt
      else _ <- read 1 ;; awaitHeaderLoop budget' timeout
  end.

Definition awaitHeader (timeout : Z) : M PortState unit :=
  fun st => awaitHeaderLoop (headerBudget st) timeout st.

Definition receive (timeout : Z) (expectedId : Z) : M PortState ResponsePacket.t :=
  awaitHeader timeout ;;
  headerAndLen <- read 4 ;;
  match PacketHandler.getPacketLength headerAndLen with
  | None => throwNew "Invalid packet length" INVALID_RESPONSE None
  | Some pktLen =>
      payload <- read (pktLen - 4) ;;
      let fullPacket := newUint8Array pktLen in
      let fullPacket := setArray headerAndLen 0 fullPacket in
      let fullPacket := setArray payload 4 fullPacket in
      (* Parse packet *)
      response <- call (PacketHandler.parsePacket fullPacket) ;;
      (* Verify ID *)
      if negb (ResponsePacket.id response =? expectedId) then
        throwNew ("ID mismatch: expected " ++ decimal expectedId ++ ", got "
                    ++ decimal (ResponsePacket.id response))%string
                 INVALID_RESPONSE None
      else
        (* Check for errors *)
        call (PacketHandler.checkError response) ;;
        ret response
  end.
End Receive.

(** ** [core/protocol-handler.ts] *)

Record PingResult := mkPing { ping_id : Z; modelNumber : Z; firmwareVersion : Z }.

Module ProtocolHandler.
Import WebSerialPortHandler.

Section Handler.
(** [this.model] and [this.timeout]; the port is the state. *)
Variable model : string.
Variable timeout : Z.

Definition sendAndReceive (packet : Uint8Array) (expectedId : Z)
  : M PortState ResponsePacket.t :=
  flush ;;
  write packet ;;
  Receive.receive timeout expectedId.

Definition readData (id address length : Z) : M PortState Uint8Array :=
  let packet := PacketHandler.createReadPacket id address length in
  response <- sendAndReceive packet id ;;
  if len (ResponsePacket.parameters response) <? length then
    throwNew ("Invalid read response: expected " ++ decimal length ++ " bytes, got "
                ++ decimal (len (ResponsePacket.parameters response)))%string
             INVALID_RESPONSE (Some id)
  else ret (slice 0 length (ResponsePacket.parameters response)).

(** The two assignments inside the one [try] block are kept by nesting:
    an exception after [modelNumber] was assigned leaves it assigned. *)
Definition ping (id : Z) : M PortState PingResult :=
  let pingPkt := PacketHandler.createPingPacket id in
  _ <- sendAndReceive pingPkt id ;;
  tryCatch
    (modelData <- readData id 3 2 ;;
     let modelNumber := makeWord (at_ modelData 0) (at_ modelData 1) in
     tryCatch
       (fwData <- readData id 2 1 ;;
        ret (mkPing id modelNumber (at_ fwData 0)))
       (fun _ => ret (mkPing id modelNumber 0)))
    (fun _ => ret (mkPing id 0 0)).

Definition writeData (id address : Z) (data : Uint8Array) : M PortState unit :=
  let packet := PacketHandler.createWritePacket id address data in
  _ <- sendAndReceive packet id ;;
  ret tt.

Definition readByte (id address : Z) : M PortState Z :=
  data <- readData id address 1 ;;
  ret (at_ data 0).

Definition writeByte (id address value : Z) : M PortState unit :=
  let data := [toUint8 (Z.land value 0xFF)] in
  writeData id address data.

Definition readWord (id address : Z) : M PortState Z :=
  data <- readData id address 2 ;;
  ret (makeWord (at_ data 0) (at_ data 1)).

Definition writeWord (id address value : Z) : M PortState unit :=
  let data := [toUint8 (getLowByte value); toUint8 (getHighByte value)] in
  writeData id address data.

(** [getControlTableEntry(this.model, name)] followed by
    [if (!entry) throw new ServoError(name + ' not found ...')]. *)
Definition entryOrThrow (dataName : string) : M PortState ControlTableEntry :=
  entry <- call (getControlTableEntry model dataName) ;;
  match entry with
  | None => throwNew (dataName ++ " not found in control table")%string
                     INVALID_PARAMETER None
  | Some entry => ret entry
  end.

Definition setTorque (id : Z) (enabled : bool) : M PortState unit :=
  entry <- entryOrThrow "Torque_Enable" ;;
  writeByte id (address entry) (if enabled then TORQUE_ENABLE else TORQUE_DISABLE).

Definition setID (id newId : Z) : M PortState unit :=
  if (newId <? 0) || (253 <? newId) then
    throwNew "Invalid ID: must be between 0 and 253" INVALID_PARAMETER None
  else
    entry <- entryOrThrow "ID" ;;
    writeByte id (address entry) newId.

Definition setBaudRate (id baudRate : Z) : M PortState unit :=
  value <- tryCatch (call (getBaudRateValue baudRate))
             (fun _ => throwNew ("Unsupported baud rate: " ++ decimal baudRate)%string
                                INVALID_PARAMETER None) ;;
  entry <- entryOrThrow "Baud_Rate" ;;
  writeByte id (address entry) value.

Definition factoryReset (id : Z) : M PortState unit :=
  let packet := PacketHandler.createPacket id FACTORY_RESET None in
  _ <- sendAndReceive packet id ;;
  ret tt.

Definition reboot (id : Z) : M PortState unit :=
  let packet := PacketHandler.createPacket id REBOOT None in
  _ <- sendAndReceive packet id ;;
  ret tt.

Definition readPosition (id : Z) : M PortState Z :=
  entry <- entryOrThrow "Present_Position" ;;
  readWord id (address entry).

(** [speed?: number] is [option Z]. *)
Definition writePosition (id position : Z) (speed : option Z) : M PortState unit :=
  (* Set speed if provided *)
  match speed with
  | Some speed =>
      speedEntry <- entryOrThrow "Goal_Speed" ;;
      writeWord id (address speedEntry) speed
  | None => ret tt
  end ;;
  (* Set position *)
  posEntry <- entryOrThrow "Goal_Position" ;;
  writeWord id (address posEntry) position.

End Handler.
End ProtocolHandler.

(** ** JavaScript [Map] and [Set] keyed by numbers

    Both iterate in insertion order; setting a key that is present replaces
    its value and keeps its place; a deleted key that is set again goes to
    the end. *)

Section Collections.
Variable A : Type.

Fixpoint mapSet (key : Z) (value : A) (m : list (Z * A)) : list (Z * A) :=
  match m with
  | [] => [(key, value)]
  | (k, v) :: rest =>
      if k =? key then (k, value) :: rest else (k, v) :: mapSet key value rest
  end.

Fixpoint mapGet (key : Z) (m : list (Z * A)) : option A :=
  match m with
  | [] => None
  | (k, v) :: rest => if k =? key then Some v else mapGet key rest
  end.

Definition mapDelete (key : Z) (m : list (Z * A)) : list (Z * A) :=
  filter (fun entry => negb (fst entry =? key)) m.

Definition mapHas (key : Z) (m : list (Z * A)) : bool :=
  match mapGet key m with Some _ => true | None => false end.
End Collections.

Fixpoint setAdd (value : Z) (s : list Z) : list Z :=
  match s with
  | [] => [value]
  | x :: rest => if x =? value then x :: rest else x :: setAdd value rest
  end.

Definition setDelete (value : Z) (s : list Z) : list Z :=
  filter (fun x => negb (x =? value)) s.

(** ** [sync/group-sync-write.ts] *)

Module GroupSyncWrite.
Import WebSerialPortHandler.

Record t := mk {
  portHandler : PortState;
  address : Z;
  dataLength : Z;
  dataMap : list (Z * Uint8Array)
}.

Definition withPort (g : t) (p : PortState) : t :=
  mk p (address g) (dataLength g) (dataMap g).

Definition withDataMap (g : t) (m : list (Z * Uint8Array)) : t :=
  mk (portHandler g) (address g) (dataLength g) m.

(** A call on [this.portHandler]. *)
Definition onPort {A} (m : M PortState A) : M t A :=
  fun g => let '(r, p) := m (portHandler g) in (r, withPort g p).

(** [new Uint8Array(data)] copies the bytes of [data]. *)
Definition addParam (id : Z) (data : Uint8Array) : M t unit :=
  expected <- gets dataLength ;;
  if negb (len data =? expected) then
    throwNew ("Data length mismatch: expected " ++ decimal expected ++ ", got "
                ++ decimal (len data))%string
             INVALID_PARAMETER (Some id)
  else
    modify (fun g => withDataMap g (mapSet id data (dataMap g))).

Definition removeParam (id : Z) : M t unit :=
  modify (fun g => withDataMap g (mapDelete id (dataMap g))).

Definition clearParam : M t unit :=
  modify (fun g => withDataMap g []).

Definition txPacket : M t unit :=
  size <- gets (fun g => len (dataMap g)) ;;
  if size =? 0 then
    throwNew "No parameters to send" INVALID_PARAMETER None
  else
    (* Convert map to array for packet creation *)
    items <- gets (fun g =>
               map (fun '(id, data) => PacketHandler.mkItem id data) (dataMap g)) ;;
    (* Create sync write packet *)
    packet <- gets (fun g =>
                PacketHandler.createSyncWritePacket (address g) (dataLength g) items) ;;
    (* Clear any pending data *)
    onPort flush ;;
    (* Send packet (no response expected for sync write) *)
    onPort (write packet).

Definition getAddress : M t Z := gets address.
Definition getDataLength : M t Z := gets dataLength.
Definition getParamCount : M t Z := gets (fun g => len (dataMap g)).
Definition hasParam (id : Z) : M t bool := gets (fun g => mapHas id (dataMap g)).
Definition getParam (id : Z) : M t (option Uint8Array) :=
  gets (fun g => mapGet id (dataMap g)).

End GroupSyncWrite.

(** ** [sync/group-sync-read.ts] *)

Module GroupSyncRead.
Import WebSerialPortHandler.

Record t := mk {
  portHandler : PortState;
  address : Z;
  dataLength : Z;
  timeout : Z;
  idList : list Z;
  dataMap : list (Z * Uint8Array)
}.

Definition withPort (g : t) (p : PortState) : t :=
  mk p (address g) (dataLength g) (timeout g) (idList g) (dataMap g).

Definition withIdList (g : t) (ids : list Z) : t :=
  mk (portHandler g) (address g) (dataLength g) (timeout g) ids (dataMap g).

Definition withDataMap (g : t) (m : list (Z * Uint8Array)) : t :=
  mk (portHandler g) (address g) (dataLength g) (timeout g) (idList g) m.

Definition onPort {A} (m : M PortState A) : M t A :=
  fun g => let '(r, p) := m (portHandler g) in (r, withPort g p).

Definition addParam (id : Z) : M t unit :=
  modify (fun g => withIdList g (setAdd id (idList g))).

Definition removeParam (id : Z) : M t unit :=
  modify (fun g => withIdList g (setDelete id (idList g))) ;;
  modify (fun g => withDataMap g (mapDelete id (dataMap g))).

Definition clearParam : M t unit :=
  modify (fun g => withIdList g []) ;;
  modify (fun g => withDataMap g []).

Definition readResponse (expectedId : Z) : M t ResponsePacket.t :=
  fun g => onPort (Receive.receive (timeout g) expectedId) g.

(** [for (const id of ids) { try { ... } catch (error) { console.error(...) } }] *)
Fixpoint readResponses (ids : list Z) : M t unit :=
  match ids with
  | [] => ret tt
  | id :: ids' =>
      tryCatch
        (response <- readResponse id ;;
         width <- gets dataLength ;;
         if negb (len (ResponsePacket.parameters response) <? width) then
           modify (fun g =>
             withDataMap g
               (mapSet id (slice 0 width (ResponsePacket.parameters response))
                       (dataMap g)))
         else ret tt)
        (fun error => (* Continue with other servos *) ret tt) ;;
      readResponses ids'
  end.

Definition txRxPacket : M t unit :=
  size <- gets (fun g => len (idList g)) ;;
  if size =? 0 then
    throwNew "No parameters to read" INVALID_PARAMETER None
  else
    (* Clear previous data *)
    modify (fun g => withDataMap g []) ;;
    (* Convert set to array *)
    ids <- gets idList ;;
    (* Create sync read packet *)
    packet <- gets (fun g =>
                PacketHandler.createSyncReadPacket (address g) (dataLength g) ids) ;;
    (* Clear any pending data *)
    onPort flush ;;
    (* Send packet *)
    onPort (write packet) ;;
    (* Read responses for each ID *)
    readResponses ids.

Definition isAvailable (id : Z) : M t bool :=
  gets (fun g => match mapGet id (dataMap g) with
                 | Some data => negb (len data <? dataLength g)
                 | None => false
                 end).

Definition getData (id : Z) : M t (option Uint8Array) :=
  gets (fun g => mapGet id (dataMap g)).

Definition getAddress : M t Z := gets address.
Definition getDataLength : M t Z := gets dataLength.
Definition getParamCount : M t Z := gets (fun g => len (idList g)).
Definition hasParam (id : Z) : M t bool :=
  gets (fun g => existsb (fun x => x =? id) (idList g)).

End GroupSyncRead.

(** ** [types/control-table.ts], continued *)

(** The loop of [assertSameAddress] over the models, collecting the
    addresses and the sizes in two [Set]s. *)
Fixpoint collectEntries (models : list string) (dataName : string)
         (addresses sizes : list Z) : Result (list Z * list Z) :=
  match models with
  | [] => Ok (addresses, sizes)
  | model :: rest =>
      match getControlTableEntry model dataName with
      | Ok (Some entry) =>
          collectEntries rest dataName (setAdd (address entry) addresses)
                         (setAdd (size entry) sizes)
      | Ok None =>
          Throw (PlainError ("Data name '" ++ dataName ++ "' not found for model '"
                               ++ model ++ "'")%string)
      | Throw e => Throw e
      | Unfinished => Unfinished
      end
  end.

Definition assertSameAddress (models : list string) (dataName : string) : Result unit :=
  match collectEntries models dataName [] [] with
  | Ok (addresses, sizes) =>
      if 1 <? len addresses then
        Throw (PlainError ("Different models use different addresses for '" ++ dataName
                             ++ "'. This is not supported.")%string)
      else if 1 <? len sizes then
        Throw (PlainError ("Different models use different byte sizes for '" ++ dataName
                             ++ "'. This is not supported.")%string)
      else Ok tt
  | Throw e => Throw e
  | Unfinished => Unfinished
  end.

(** ** [types/models.ts], [core/constants.ts] and [utils/helpers.ts], continued *)

Record ModelConfig := mkModelConfig {
  resolution : Z;
  maxPosition : Z;
  minPosition : Z;
  defaultBaudRate : Z
}.

Definition MODEL_CONFIGS : list (string * ModelConfig) :=
  [ ("scs_series", mkModelConfig 4096 4095 0 1000000);
    ("sts3215", mkModelConfig 4096 4095 0 1000000);
    ("sms_series", mkModelConfig 4096 4095 0 1000000) ].

Definition MIN_POSITION_VALUE := 0.
Definition MAX_POSITION_VALUE := 4095.
Definition MIN_SPEED_VALUE := 0.
Definition MAX_SPEED_VALUE := 1023.

(** [MODEL_CONFIGS[model]?.maxPosition ?? MAX_POSITION_VALUE]. *)
Definition getModelMaxPosition (model : string) : Z :=
  match lookup model MODEL_CONFIGS with
  | Some config => maxPosition config
  | None => MAX_POSITION_VALUE
  end.

Definition getModelMinPosition (model : string) : Z :=
  match lookup model MODEL_CONFIGS with
  | Some config => minPosition config
  | None => MIN_POSITION_VALUE
  end.

(** [Math.max] and [Math.min] on integers. *)
Definition clampPosition (position : Z) (model : string) : Z :=
  let min := getModelMinPosition model in
  let max := getModelMaxPosition model in
  Z.max min (Z.min max position).

Definition clampSpeed (speed : Z) : Z :=
  Z.max MIN_SPEED_VALUE (Z.min MAX_SPEED_VALUE speed).

Definition validateServoId (id : Z) : Result unit :=
  if (id <? 0) || (253 <? id) then
    Throw (PlainError ("Invalid servo ID: " ++ decimal id
                         ++ ". Must be between 0 and 253.")%string)
  else Ok tt.

(** [SCS_SERIES_BAUD_TABLE[registerValue] ?? 0]. *)
Definition getActualBaudRate (registerValue : Z) : Z :=
  match mapGet registerValue SCS_SERIES_BAUD_TABLE with
  | Some baud => baud
  | None => 0
  end.

(** ** [index.ts]: the facade [FeetechServo]

    The facade owns the port; the protocol handler and the group objects it
    creates work on that same port.  The model of the protocol handler is
    set together with [defaultModel] (constructor, [setDefaultModel]) and is
    that field here.  [motors] lists the entries of the configuration object
    in the order of its keys. *)

Module FeetechServo.

Record t := mk {
  portHandler : PortState;
  isConnected : bool;
  motors : list (string * (Z * string));
  defaultModel : string;
  timeout : Z
}.

Definition withPort (s : t) (p : PortState) : t :=
  mk p (isConnected s) (motors s) (defaultModel s) (timeout s).

(** A call on [this.portHandler] or, with the model and the timeout
    supplied, on [this.protocolHandler]. *)
Definition onPort {A} (m : M PortState A) : M t A :=
  fun s => let '(r, p) := m (portHandler s) in (r, withPort s p).

(** [for (const key in this.motors) { if (m.id === id) return m.model; }
    return this.defaultModel;] *)
Definition getModelByServoId (s : t) (id : Z) : string :=
  match find (fun motor => fst (snd motor) =? id) (motors s) with
  | Some motor => snd (snd motor)
  | None => defaultModel s
  end.

(** [this.isConnected && this.portHandler.isConnected()]. *)
Definition getConnectionStatus (s : t) : bool :=
  isConnected s && isOpen (portHandler s).

Definition ensureConnected : M t unit :=
  fun s =>
    if negb (getConnectionStatus s) then
      (throwServoError "Not connected to serial port" CONNECTION_LOST None, s)
    else (Ok tt, s).

Definition ping (id : Z) : M t PingResult :=
  ensureConnected ;;
  fun s => onPort (ProtocolHandler.ping (timeout s) id) s.

(** [for (let id = startId; id <= endId; id++) { try { found.push(await
    this.ping(id)) } catch (error) { } }]: with [count] ids still to go. *)
Fixpoint scanLoop (count : nat) (id : Z) (found : list PingResult)
  : M t (list PingResult) :=
  match count with
  | O => ret found
  | S count' =>
      found <- tryCatch (result <- ping id ;; ret (found ++ [result]))
                        (fun error => (* Skip non-responsive IDs *) ret found) ;;
      scanLoop count' (id + 1) found
  end.

Definition scan (startId endId : Z) : M t (list PingResult) :=
  ensureConnected ;;
  scanLoop (Z.to_nat (endId - startId + 1)) startId [].

Definition readPosition (id : Z) : M t Z :=
  ensureConnected ;;
  fun s => onPort (ProtocolHandler.readPosition (defaultModel s) (timeout s) id) s.

Definition writePosition (id position : Z) (speed : option Z) : M t unit :=
  ensureConnected ;;
  fun s =>
    let model := getModelByServoId s id in
    let clampedPosition := clampPosition position model in
    let clampedSpeed := match speed with
                        | Some speed => Some (clampSpeed speed)
                        | None => None
                        end in
    onPort (ProtocolHandler.writePosition (defaultModel s) (timeout s)
                                          id clampedPosition clampedSpeed) s.

Definition enableTorque (id : Z) : M t unit :=
  ensureConnected ;;
  fun s => onPort (ProtocolHandler.setTorque (defaultModel s) (timeout s) id true) s.

Definition disableTorque (id : Z) : M t unit :=
  ensureConnected ;;
  fun s => onPort (ProtocolHandler.setTorque (defaultModel s) (timeout s) id false) s.

Definition setID (id newId : Z) : M t unit :=
  ensureConnected ;;
  call (validateServoId newId) ;;
  fun s => onPort (ProtocolHandler.setID (defaultModel s) (timeout s) id newId) s.

Definition setBaudRate (id baudRate : Z) : M t unit :=
  ensureConnected ;;
  fun s => onPort (ProtocolHandler.setBaudRate (defaultModel s) (timeout s) id baudRate) s.

Definition factoryReset (id : Z) : M t unit :=
  ensureConnected ;;
  fun s => onPort (ProtocolHandler.factoryReset (timeout s) id) s.

Definition reboot (id : Z) : M t unit :=
  ensureConnected ;;
  fun s => onPort (ProtocolHandler.reboot (timeout s) id) s.

(** The low-level API of the facade. *)
Definition readByte (id address : Z) : M t Z :=
  ensureConnected ;;
  fun s => onPort (ProtocolHandler.readByte (timeout s) id address) s.

Definition writeByte (id address value : Z) : M t unit :=
  ensureConnected ;;
  fun s => onPort (ProtocolHandler.writeByte (timeout s) id address value) s.

Definition readWord (id address : Z) : M t Z :=
  ensureConnected ;;
  fun s => onPort (ProtocolHandler.readWord (timeout s) id address) s.

Definition writeWord (id address value : Z) : M t unit :=
  ensureConnected ;;
  fun s => onPort (ProtocolHandler.writeWord (timeout s) id address value) s.

Definition readData (id address length : Z) : M t Uint8Array :=
  ensureConnected ;;
  fun s => onPort (ProtocolHandler.readData (timeout s) id address length) s.

Definition writeData (id address : Z) (data : Uint8Array) : M t unit :=
  ensureConnected ;;
  fun s => onPort (ProtocolHandler.writeData (timeout s) id address data) s.

(** [new GroupSyncWrite(this.portHandler, address, dataLength)]. *)
Definition createSyncWrite (address dataLength : Z) : M t GroupSyncWrite.t :=
  ensureConnected ;;
  gets (fun s => GroupSyncWrite.mk (portHandler s) address dataLength []).

(** [new GroupSyncRead(this.portHandler, address, dataLength)]: the timeout
    is the default of the constructor. *)
Definition createSyncRead (address dataLength : Z) : M t GroupSyncRead.t :=
  ensureConnected ;;
  gets (fun s => GroupSyncRead.mk (portHandler s) address dataLength DEFAULT_TIMEOUT [] []).

(** Calls on a group object whose port is the port of the facade: they find
    the port as the facade has it and leave it changed for the facade. *)
Definition onSyncWrite {A} (syncWrite : GroupSyncWrite.t) (m : M GroupSyncWrite.t A)
  : M t A :=
  fun s =>
    let '(r, syncWrite') := m (GroupSyncWrite.withPort syncWrite (portHandler s)) in
    (r, withPort s (GroupSyncWrite.portHandler syncWrite')).

Definition onSyncRead {A} (syncRead : GroupSyncRead.t) (m : M GroupSyncRead.t A)
  : M t A :=
  fun s =>
    let '(r, syncRead') := m (GroupSyncRead.withPort syncRead (portHandler s)) in
    (r, withPort s (GroupSyncRead.portHandler syncRead')).

(** [if (!entry) throw new ServoError(name + ' not found in control table')]
    after [getControlTableEntry(this.defaultModel, name)]. *)
Definition entryOrThrow (dataName : string) : M t ControlTableEntry :=
  entry <- (fun s => call (getControlTableEntry (defaultModel s) dataName) s) ;;
  match entry with
  | None => throwNew (dataName ++ " not found in control table")%string
                     INVALID_PARAMETER None
  | Some entry => ret entry
  end.

(** The loop of [syncWritePosition] over the positions. *)
Fixpoint addPositions (s : t) (positions : list (Z * Z)) : M GroupSyncWrite.t unit :=
  match positions with
  | [] => ret tt
  | (id, position) :: rest =>
      let model := getModelByServoId s id in
      let clampedPosition := clampPosition position model in
      let data := [toUint8 (getLowByte clampedPosition);
                   toUint8 (getHighByte clampedPosition)] in
      GroupSyncWrite.addParam id data ;;
      addPositions s rest
  end.

Definition syncWritePosition (positions : list (Z * Z)) : M t unit :=
  ensureConnected ;;
  entry <- entryOrThrow "Goal_Position" ;;
  syncWrite <- createSyncWrite (address entry) (size entry) ;;
  fun s => onSyncWrite syncWrite (addPositions s positions ;; GroupSyncWrite.txPacket) s.

(** The two loops of [syncReadPosition]. *)
Fixpoint addIds (ids : list Z) : M GroupSyncRead.t unit :=
  match ids with
  | [] => ret tt
  | id :: rest => GroupSyncRead.addParam id ;; addIds rest
  end.

Fixpoint collectPositions (ids : list Z) (results : list (Z * Z))
  : M GroupSyncRead.t (list (Z * Z)) :=
  match ids with
  | [] => ret results
  | id :: rest =>
      data <- GroupSyncRead.getData id ;;
      match data with
      | Some data =>
          if negb (len data <? 2)
          then collectPositions rest (mapSet id (makeWord (at_ data 0) (at_ data 1)) results)
          else collectPositions rest results
      | None => collectPositions rest results
      end
  end.

Definition syncReadPosition (ids : list Z) : M t (list (Z * Z)) :=
  ensureConnected ;;
  entry <- entryOrThrow "Present_Position" ;;
  syncRead <- createSyncRead (address entry) (size entry) ;;
  onSyncRead syncRead
    (addIds ids ;;
     GroupSyncRead.txRxPacket ;;
     collectPositions ids []).

End FeetechServo.

(* ================================================================== *)
(** * Part II: vocabulary of the statements                            *)
(* ================================================================== *)

Unset Implicit Arguments.

(** The sum of the bytes, as the loop of [calculateChecksum] accumulates it. *)
Definition byteSum (data : Uint8Array) : Z := fold_left (fun sum byte => sum + byte) data 0.

(** The parameter bytes of a call of [createPacket]. *)
Definition paramBytes (parameters : option Uint8Array) : Uint8Array :=
  match parameters with Some p => p | None => [] end.

(** The conditions a servo reports, by bit of the error byte. *)
Definition errorConditions : list (Z * string) :=
  [ (0x01, "Input voltage error"); (0x02, "Angle limit error");
    (0x04, "Overheat error"); (0x08, "Out of range error");
    (0x10, "Checksum error"); (0x20, "Overload error");
    (0x40, "Invalid instruction error") ].

(** The names of the conditions whose bit is set in [error]. *)
Definition conditionsSet (error : Z) : list string :=
  map snd (filter (fun c => negb (Z.land error (fst c) =? 0)) errorConditions).

(** The bytes the line delivers before its first pause. *)
Fixpoint lineData (line : list Arrival) : Uint8Array :=
  match line with
  | Data bytes :: line' => bytes ++ lineData line'
  | _ => []
  end.

(** The bytes a sequence of waits can obtain without running into a pause:
    those buffered, then those arriving. *)
Definition pending (st : PortState) : Uint8Array :=
  readBuffer st ++ lineData (incoming st).

(** Two consecutive 0xFF start at position [i] of [bytes]. *)
Definition headerAt (bytes : Uint8Array) (i : nat) : bool :=
  (nth i bytes 0 =? 0xFF) && (nth (S i) bytes 0 =? 0xFF).

(** The steps of the receive path after the frame has been parsed: verify
    the id, check the error bits. *)
Definition verifyResponse (expectedId : Z) (parsed : Result ResponsePacket.t)
  : Result ResponsePacket.t :=
  match parsed with
  | Ok response =>
      if negb (ResponsePacket.id response =? expectedId) then
        throwServoError ("ID mismatch: expected " ++ decimal expectedId ++ ", got "
                           ++ decimal (ResponsePacket.id response))%string
                        INVALID_RESPONSE None
      else match PacketHandler.checkError response with
           | Ok _ => Ok response
           | Throw e => Throw e
           | Unfinished => Unfinished
           end
  | Throw e => Throw e
  | Unfinished => Unfinished
  end.

(** On the lines of the model the call returns or throws: the iteration
    budget never cuts it off. *)
Definition finishes {S A : Type} (m : M S A) : Prop :=
  forall s, fst (m s) <> Unfinished.

(** The call passes nothing to the writer and leaves the port open or closed
    as it was. *)
Definition silent {A : Type} (m : M PortState A) : Prop :=
  forall s, written (snd (m s)) = written s /\ isOpen (snd (m s)) = isOpen s.

(** The call hands [packets] to the writer, in this order, and leaves the
    port open. *)
Definition transmits {A : Type} (m : M PortState A) (st : PortState)
           (packets : list Uint8Array) : Prop :=
  written (snd (m st)) = written st ++ packets /\ isOpen (snd (m st)) = true.

(** On an open port the call only adds to what the writer got. *)
Definition appends {A : Type} (m : M PortState A) : Prop :=
  forall s, isOpen s = true -> exists more, transmits m s more.

(** The status frame a device sends: its id, the length byte, the error
    byte, the parameters, the checksum. *)
Definition statusFrame (id error : Z) (parameters : Uint8Array) : Uint8Array :=
  let covered := [id; len parameters + 2; error] ++ parameters in
  [0xFF; 0xFF] ++ covered ++ [PacketHandler.calculateChecksum covered].

(** The bytes of the entries of a sync write: for each entry its id, then
    its value bytes. *)
Definition entryBytes (entries : list (Z * Uint8Array)) : Uint8Array :=
  flat_map (fun entry => toUint8 (fst entry) :: snd entry) entries.

(** The same for the [data] array passed to [createSyncWritePacket]. *)
Definition itemBytes (items : list PacketHandler.SyncItem) : Uint8Array :=
  flat_map (fun item => toUint8 (PacketHandler.item_id item)
                          :: PacketHandler.item_values item) items.

(** A caller's sequence of [addParam] calls. *)
Fixpoint addParams (adds : list (Z * Uint8Array)) : M GroupSyncWrite.t unit :=
  match adds with
  | [] => ret tt
  | (id, data) :: rest => GroupSyncWrite.addParam id data ;; addParams rest
  end.

(** The ids of [ids] that are not in [seen], each once, in the order of
    their first occurrence. *)
Fixpoint firstOccurrences (seen ids : list Z) : list Z :=
  match ids with
  | [] => []
  | id :: rest =>
      if existsb (Z.eqb id) seen then firstOccurrences seen rest
      else id :: firstOccurrences (id :: seen) rest
  end.

(** The value added last for [id] in [adds]; [current] if there is none. *)
Fixpoint lastAdded (id : Z) (adds : list (Z * Uint8Array)) (current : Uint8Array)
  : Uint8Array :=
  match adds with
  | [] => current
  | (k, v) :: rest => lastAdded id rest (if k =? id then v else current)
  end.

(** The entry map [m] after [dataMap.set] for each element of [adds]. *)
Definition mapSetAll (adds : list (Z * Uint8Array)) (m : list (Z * Uint8Array)) :=
  fold_left (fun m add => mapSet (fst add) (snd add) m) adds m.

(** The replies of the devices 1 and 3 to a sync read of two bytes. *)
Definition reply1 : Uint8Array := statusFrame 1 0 [0x07; 0x08].
Definition reply3 : Uint8Array := statusFrame 3 0 [0x09; 0x0A].

(** A group read of the two-byte register 56 with the ids 1, 2 and 3 added
    in this order, on a port with stale bytes in its buffer and results
    cached by an earlier run. *)
Definition groupRead123 (line : list Arrival) : GroupSyncRead.t :=
  snd ((GroupSyncRead.addParam 1 ;; GroupSyncRead.addParam 2 ;; GroupSyncRead.addParam 3)
         (GroupSyncRead.mk (mkPort [0x55] true line []) 56 2 DEFAULT_TIMEOUT []
                           [(2, [0x05; 0x05]); (7, [0x01; 0x01])])).

(** What is left of the line once a wait has run into its first pause. *)
Fixpoint afterPause (line : list Arrival) : list Arrival :=
  match line with
  | [] => []
  | Silence :: line' => line'
  | Data _ :: line' => afterPause line'
  end.

(** A call of the facade refused for want of a connection: CONNECTION_LOST,
    the facade and its port as they were. *)
Definition notConnected {A : Type} (s : FeetechServo.t) : Result A * FeetechServo.t :=
  (throwServoError "Not connected to serial port" CONNECTION_LOST None, s).

(** [count] consecutive ids from [id] on, as the loop of [scan] visits
    them, and the ids from [startId] to [endId]. *)
Fixpoint idsFrom (id : Z) (count : nat) : list Z :=
  match count with
  | O => []
  | S count' => id :: idsFrom (id + 1) count'
  end.

Definition idRange (startId endId : Z) : list Z :=
  idsFrom startId (Z.to_nat (endId - startId + 1)).

(** A bus described by the devices on it: [present id] gives the two bytes of
    the model number and the firmware version of the device with that id, or
    [None] when there is none.  While [id] is pinged the line delivers the
    three replies of the device, each after its request, or pauses. *)
Definition pingReplies (present : Z -> option (Z * Z * Z)) (id : Z) : list Arrival :=
  match present id with
  | Some (lo, hi, fw) =>
      [Data (statusFrame id 0 []); Data (statusFrame id 0 [lo; hi]);
       Data (statusFrame id 0 [fw])]
  | None => [Silence]
  end.

(** The requests that go out while [id] is pinged on that bus, and what the
    ping finds. *)
Definition pingRequests (present : Z -> option (Z * Z * Z)) (id : Z) : list Uint8Array :=
  match present id with
  | Some _ => [PacketHandler.createPingPacket id;
               PacketHandler.createReadPacket id 3 2;
               PacketHandler.createReadPacket id 2 1]
  | None => [PacketHandler.createPingPacket id]
  end.

Definition pingFound (present : Z -> option (Z * Z * Z)) (id : Z) : list PingResult :=
  match present id with
  | Some (lo, hi, fw) => [mkPing id (makeWord lo hi) fw]
  | None => []
  end.

(** The replies to a sync read: for each answer the status frame of its
    device, one after the other. *)
Definition syncReplies (answers : list (Z * Uint8Array)) : Uint8Array :=
  flat_map (fun answer => statusFrame (fst answer) 0 (snd answer)) answers.

(** The first [width] bytes of each answer, as [readResponses] stores them. *)
Definition storedAnswers (width : Z) (answers : list (Z * Uint8Array))
  : list (Z * Uint8Array) :=
  map (fun answer => (fst answer, slice 0 width (snd answer))) answers.

(** Replies to a sync read that may report errors: for each device its id,
    its error byte and its data. *)
Definition syncRepliesWithErrors (answers : list (Z * (Z * Uint8Array))) : Uint8Array :=
  flat_map (fun answer => statusFrame (fst answer) (fst (snd answer)) (snd (snd answer)))
           answers.

(** The answers a sync read of [width] bytes can use: none of the error bits
    0..6 set and at least [width] bytes of data; and what it stores of them. *)
Definition usable (width : Z) (answer : Z * (Z * Uint8Array)) : bool :=
  (Z.land (fst (snd answer)) 0x7F =? 0) && negb (len (snd (snd answer)) <? width).

Definition usableAnswers (width : Z) (answers : list (Z * (Z * Uint8Array)))
  : list (Z * Uint8Array) :=
  map (fun answer => (fst answer, slice 0 width (snd (snd answer))))
      (filter (usable width) answers).

(** What [syncWritePosition] adds for each position: the id with the two
    bytes of the position clamped to 0..4095, low byte first. *)
Definition positionData (positions : list (Z * Z)) : list (Z * Uint8Array) :=
  map (fun item => let p := Z.max 0 (Z.min 4095 (snd item)) in
                   (fst item, [p mod 256; p / 256]))
      positions.

(** The positions [syncReadPosition] makes of the answers: for each id the
    word of the first two bytes of its reply. *)
Definition answeredPositions (answers : list (Z * Uint8Array)) : list (Z * Z) :=
  map (fun answer => (fst answer, makeWord (at_ (snd answer) 0) (at_ (snd answer) 1)))
      answers.

(** The names every object literal inherits from [Object.prototype].  A
    property read [obj[key]] with one of them finds the inherited member
    where the object has no own property of that name; with any other key it
    finds the own property or nothing, which is what [lookup] gives. *)
Definition inheritedNames : list string :=
  [ "constructor"; "hasOwnProperty"; "isPrototypeOf"; "propertyIsEnumerable";
    "toLocaleString"; "toString"; "valueOf"; "__proto__";
    "__defineGetter__"; "__defineSetter__"; "__lookupGetter__"; "__lookupSetter__" ].

Definition inherited (name : string) : bool :=
  existsb (String.eqb name) inheritedNames.

(** The completion of an operation that ends with its transaction: the
    failure of the transaction, or what [reply] makes of the response. *)
Definition afterTransaction {A : Type} (reply : ResponsePacket.t -> Result A)
           (transaction : Result ResponsePacket.t) : Result A :=
  match transaction with
  | Ok response => reply response
  | Throw e => Throw e
  | Unfinished => Unfinished
  end.

(** [op], run on [st], is one transaction and nothing else: [request] is sent
    to the device [id], and the completion of that transaction, passed
    through [reply], is the completion of [op]. *)
Definition oneTransaction {A : Type} (timeout id : Z) (op : M PortState A)
           (st : PortState) (request : Uint8Array)
           (reply : ResponsePacket.t -> Result A) : Prop :=
  op st
  = (afterTransaction reply
       (fst (ProtocolHandler.sendAndReceive timeout request id st)),
     snd (ProtocolHandler.sendAndReceive timeout request id st)).

(** What [readData] makes of the response to its request: the first [length]
    parameter bytes, or INVALID_RESPONSE when there are fewer. *)
Definition readReply (id length : Z) (response : ResponsePacket.t) : Result Uint8Array :=
  if len (ResponsePacket.parameters response) <? length then
    throwServoError ("Invalid read response: expected " ++ decimal length
                       ++ " bytes, got "
                       ++ decimal (len (ResponsePacket.parameters response)))%string
                    INVALID_RESPONSE (Some id)
  else Ok (slice 0 length (ResponsePacket.parameters response)).

(** A result passed through a function that cannot fail. *)
Definition mapResult {A B : Type} (f : A -> B) (r : Result A) : Result B :=
  match r with
  | Ok a => Ok (f a)
  | Throw e => Throw e
  | Unfinished => Unfinished
  end.

(* ================================================================== *)
(** * Part III: properties                                             *)
(* ================================================================== *)

(** ** Arrays *)

Lemma len_nonneg {A : Type} (a : list A) : 0 <= len a.
Proof. unfold len. lia. Qed.

Lemma len_app {A : Type} (a b : list A) : len (a ++ b) = len a + len b.
Proof. unfold len. rewrite length_app. lia. Qed.

Lemma len_cons {A : Type} (x : A) (a : list A) : len (x :: a) = 1 + len a.
Proof. unfold len. simpl List.length. lia. Qed.

Lemma putIndex_app (pre post : Uint8Array) (x b : Z) :
  putIndex (List.length pre) b (pre ++ x :: post) = pre ++ b :: post.
Proof. induction pre as [|p pre IH]; simpl; [reflexivity | now rewrite IH]. Qed.

Lemma setArray_app (src : Uint8Array) :
  forall pre mid post,
    List.length mid = List.length src ->
    setArray src (List.length pre) (pre ++ mid ++ post) = pre ++ src ++ post.
Proof.
  induction src as [|b src IH]; intros pre mid post Hlen.
  - destruct mid; [reflexivity | discriminate].
  - destruct mid as [|m mid]; [discriminate|]. simpl in Hlen.
    simpl setArray. simpl app at 2. rewrite putIndex_app.
    replace (S (List.length pre)) with (List.length (pre ++ [b]))
      by (rewrite length_app; simpl; lia).
    replace (pre ++ b :: mid ++ post) with ((pre ++ [b]) ++ mid ++ post)
      by (rewrite <- app_assoc; reflexivity).
    rewrite IH by lia. rewrite <- app_assoc. reflexivity.
Qed.

Lemma newUint8Array_len (n : Z) : 0 <= n -> len (newUint8Array n) = n.
Proof. intros H. unfold len, newUint8Array. rewrite repeat_length. lia. Qed.

Lemma newUint8Array_add (a : Uint8Array) (n : Z) :
  0 <= n -> newUint8Array (len a + n) = repeat 0 (List.length a) ++ newUint8Array n.
Proof.
  intros H. unfold newUint8Array, len.
  rewrite Z2Nat.inj_add, Nat2Z.id by lia. apply repeat_app.
Qed.

(** [slice] between two positions that are not negative. *)
Lemma slice_nonneg (s e : Z) (a : Uint8Array) :
  0 <= s -> 0 <= e ->
  slice s e a = firstn (Z.to_nat (e - s)) (skipn (Z.to_nat s) a).
Proof.
  intros Hs He. unfold slice, relativeIndex, len.
  replace (s <? 0) with false by (symmetry; apply Z.ltb_ge; lia).
  replace (e <? 0) with false by (symmetry; apply Z.ltb_ge; lia).
  cbv zeta.
  destruct (Z.le_gt_cases s (Z.of_nat (List.length a))) as [Hin | Hout].
  - rewrite (Z.min_l s) by assumption.
    destruct (Z.le_gt_cases e (Z.of_nat (List.length a))) as [Hein | Heout].
    + now rewrite (Z.min_l e) by assumption.
    + rewrite (Z.min_r e) by lia.
      rewrite !firstn_all2; [reflexivity | |]; rewrite length_skipn; lia.
  - rewrite (Z.min_r s) by lia. rewrite Nat2Z.id.
    rewrite !skipn_all2 by lia. now rewrite !firstn_nil.
Qed.

Lemma slice_0 (n : Z) (a : Uint8Array) :
  0 <= n -> slice 0 n a = firstn (Z.to_nat n) a.
Proof.
  intros Hn. rewrite slice_nonneg by lia. now rewrite Z.sub_0_r.
Qed.

(** [a.slice(n)]: what is left without the first [n] elements. *)
Lemma slice_from (n : Z) (a : Uint8Array) :
  0 <= n -> slice n (len a) a = skipn (Z.to_nat n) a.
Proof.
  intros Hn. rewrite slice_nonneg by (try assumption; apply Nat2Z.is_nonneg).
  apply firstn_all2. unfold len. rewrite length_skipn. lia.
Qed.

Lemma toUint8_range (x : Z) : 0 <= toUint8 x < 256.
Proof. unfold toUint8. apply Z.mod_pos_bound. lia. Qed.

Lemma toUint8_small (x : Z) : 0 <= x < 256 -> toUint8 x = x.
Proof. intros H. unfold toUint8. now apply Z.mod_small. Qed.

Lemma instructionCode_byte (i : Instruction) : toUint8 (instructionCode i) = instructionCode i.
Proof. destruct i; reflexivity. Qed.

(** ** Checksum *)

Lemma fold_sum_shift (data : Uint8Array) (acc : Z) :
  fold_left (fun sum byte => sum + byte) data acc = acc + byteSum data.
Proof.
  unfold byteSum. revert acc.
  induction data as [|b data IH]; intros acc; simpl.
  - lia.
  - rewrite IH. rewrite (IH b). lia.
Qed.

Lemma byteSum_cons (b : Z) (data : Uint8Array) : byteSum (b :: data) = b + byteSum data.
Proof. unfold byteSum at 1. simpl. apply fold_sum_shift. Qed.

(** Bitwise NOT truncated to eight bits, in arithmetic. *)
Lemma not_low_byte (s : Z) : Z.land (Z.lnot s) 0xFF = 255 - s mod 256.
Proof.
  change (Z.land (Z.lnot s) 0xFF) with (Z.land (Z.lnot s) (Z.ones 8)).
  rewrite Z.land_ones by lia.
  unfold Z.lnot. change (2 ^ 8) with 256.
  symmetry. apply Z.mod_unique_pos with (q := - (s / 256) - 1).
  - pose proof (Z.mod_pos_bound s 256 ltac:(lia)). lia.
  - pose proof (Z.div_mod s 256 ltac:(lia)). lia.
Qed.

Lemma calculateChecksum_arith (data : Uint8Array) :
  PacketHandler.calculateChecksum data = 255 - byteSum data mod 256.
Proof. unfold PacketHandler.calculateChecksum. apply not_low_byte. Qed.

Lemma calculateChecksum_byte (data : Uint8Array) :
  toUint8 (PacketHandler.calculateChecksum data) = PacketHandler.calculateChecksum data.
Proof.
  apply toUint8_small. rewrite calculateChecksum_arith.
  pose proof (Z.mod_pos_bound (byteSum data) 256 ltac:(lia)). lia.
Qed.

(** ** Layout of an encoded packet *)

Lemma createPacket_layout (id : Z) (instruction : Instruction)
      (parameters : option Uint8Array) :
  let p := paramBytes parameters in
  let covered := [toUint8 id; toUint8 (len p + 2); instructionCode instruction] ++ p in
  PacketHandler.createPacket id instruction parameters
  = [0xFF; 0xFF] ++ covered ++ [PacketHandler.calculateChecksum covered].
Proof.
  cbv zeta. unfold PacketHandler.createPacket.
  set (p := paramBytes parameters).
  replace (match parameters with Some p0 => len p0 | None => 0 end) with (len p)
    by (destruct parameters; reflexivity).
  set (head := [255; 255; toUint8 id; toUint8 (len p + 2); instructionCode instruction]).
  assert (Hnew : newUint8Array (MIN_PACKET_LENGTH + len p)
                 = [0; 0; 0; 0; 0] ++ repeat 0 (List.length p) ++ [0]).
  { unfold newUint8Array, len. change MIN_PACKET_LENGTH with 6.
    replace (Z.to_nat (6 + Z.of_nat (List.length p)))
      with (S (S (S (S (S (List.length p + 1)))))) by lia.
    simpl repeat. rewrite repeat_app. reflexivity. }
  rewrite Hnew. clear Hnew.
  change (setIndex 4 (instructionCode instruction)
            (setIndex 3 (len p + 2)
               (setIndex 2 id
                  (setIndex 1 (at_ HEADER 1)
                     (setIndex 0 (at_ HEADER 0)
                        ([0; 0; 0; 0; 0] ++ repeat 0 (List.length p) ++ [0]))))))
    with ([255; 255; toUint8 id; toUint8 (len p + 2);
           toUint8 (instructionCode instruction)] ++ repeat 0 (List.length p) ++ [0]).
  rewrite instructionCode_byte. fold head.
  assert (Hfill :
    match parameters with
    | Some p0 => if 0 <? len p
                 then setArray p0 5 (head ++ repeat 0 (List.length p) ++ [0])
                 else head ++ repeat 0 (List.length p) ++ [0]
    | None => head ++ repeat 0 (List.length p) ++ [0]
    end = head ++ p ++ [0]).
  { destruct parameters as [p0|]; simpl in p; subst p.
    - destruct (0 <? len p0) eqn:E.
      + apply (setArray_app p0 head (repeat 0 (List.length p0)) [0]).
        apply repeat_length.
      + apply Z.ltb_ge in E. unfold len in E. destruct p0; [reflexivity|].
        simpl List.length in E. lia.
    - reflexivity. }
  rewrite Hfill. clear Hfill.
  assert (Hslice : slice 2 (MIN_PACKET_LENGTH + len p - 1) (head ++ p ++ [0])
                   = [toUint8 id; toUint8 (len p + 2); instructionCode instruction] ++ p).
  { change MIN_PACKET_LENGTH with 6.
    rewrite slice_nonneg by (unfold len; lia). unfold len.
    replace (Z.to_nat (6 + Z.of_nat (List.length p) - 1 - 2))
      with (S (S (S (List.length p)))) by lia.
    change (Z.to_nat 2) with 2%nat. subst head. cbn [skipn firstn app]. f_equal. f_equal. f_equal.
    rewrite firstn_app, firstn_all, Nat.sub_diag. simpl. apply app_nil_r. }
  rewrite Hslice. clear Hslice.
  replace (Z.to_nat (MIN_PACKET_LENGTH + len p - 1)) with (List.length (head ++ p))
    by (rewrite length_app; change MIN_PACKET_LENGTH with 6; unfold len;
        simpl List.length; lia).
  unfold setIndex. rewrite app_assoc. rewrite putIndex_app.
  rewrite calculateChecksum_byte. subst head.
  rewrite <- app_assoc. reflexivity.
Qed.

(** ** Decoding *)

Lemma at_prefix (a b c d e : Z) (rest : Uint8Array) :
  let data := a :: b :: c :: d :: e :: rest in
  at_ data 0 = a /\ at_ data 1 = b /\ at_ data 2 = c /\ at_ data 3 = d /\ at_ data 4 = e.
Proof. cbv zeta. repeat split; reflexivity. Qed.

Lemma at_last (pre : Uint8Array) (x : Z) : at_ (pre ++ [x]) (len pre) = x.
Proof. unfold at_, len. rewrite Nat2Z.id. apply nth_middle. Qed.

Lemma slice_covered (h0 h1 cs : Z) (covered : Uint8Array) :
  slice 2 (2 + len covered) (h0 :: h1 :: covered ++ [cs]) = covered.
Proof.
  rewrite slice_nonneg by (unfold len; lia). unfold len.
  replace (Z.to_nat (2 + Z.of_nat (List.length covered) - 2)) with (List.length covered) by lia.
  change (Z.to_nat 2) with 2%nat. cbn [skipn].
  rewrite firstn_app, firstn_all, Nat.sub_diag. simpl. apply app_nil_r.
Qed.

Lemma slice_parameters (h0 h1 i l e cs : Z) (p : Uint8Array) :
  slice 5 (5 + len p) (h0 :: h1 :: i :: l :: e :: p ++ [cs]) = p.
Proof.
  rewrite slice_nonneg by (unfold len; lia). unfold len.
  replace (Z.to_nat (5 + Z.of_nat (List.length p) - 5)) with (List.length p) by lia.
  change (Z.to_nat 5) with 5%nat. cbn [skipn].
  rewrite firstn_app, firstn_all, Nat.sub_diag. simpl. apply app_nil_r.
Qed.

(** What [parsePacket] does with any byte sequence, case by case.  The
    length test is one-sided: bytes after the declared end of the frame are
    ignored.  With [L] the length byte, the checksum byte is the one at index
    [3 + L] and covers the bytes at indices [2 .. 2 + L]. *)
Lemma parsePacket_cases (data : Uint8Array) :
  let L := at_ data 3 in
  if (len data <? 6) || negb (at_ data 0 =? 0xFF) || negb (at_ data 1 =? 0xFF)
     || (len data <? 4 + L)
  then exists e, PacketHandler.parsePacket data = Throw (ServoErr e)
                 /\ code e = INVALID_RESPONSE
  else if negb (at_ data (3 + L) =? 255 - byteSum (slice 2 (3 + L) data) mod 256)
  then exists e, PacketHandler.parsePacket data = Throw (ServoErr e)
                 /\ code e = CHECKSUM_ERROR /\ deviceId e = Some (at_ data 2)
  else PacketHandler.parsePacket data
       = Ok (ResponsePacket.mk (at_ data 2) 0
               (if 2 <? L then slice 5 (3 + L) data else [])
               L (at_ data 4) (at_ data (3 + L))).
Proof.
  cbv zeta. unfold PacketHandler.parsePacket.
  change MIN_PACKET_LENGTH with 6. change (at_ HEADER 0) with 255.
  change (at_ HEADER 1) with 255.
  replace (HEADER_LENGTH + ID_LENGTH + LENGTH_LENGTH + at_ data 3)
    with (4 + at_ data 3) by (unfold HEADER_LENGTH, ID_LENGTH, LENGTH_LENGTH; lia).
  replace (4 + at_ data 3 - 1) with (3 + at_ data 3) by lia.
  replace (5 + (at_ data 3 - 2)) with (3 + at_ data 3) by lia.
  replace (0 <? at_ data 3 - 2) with (2 <? at_ data 3)
    by (destruct (2 <? at_ data 3) eqn:E; symmetry;
        [apply Z.ltb_lt in E; apply Z.ltb_lt | apply Z.ltb_ge in E; apply Z.ltb_ge]; lia).
  rewrite calculateChecksum_arith.
  destruct (len data <? 6); [simpl; eexists; split; reflexivity|].
  destruct (at_ data 0 =? 255); [|simpl; eexists; split; reflexivity].
  destruct (at_ data 1 =? 255); [|simpl; eexists; split; reflexivity].
  destruct (len data <? 4 + at_ data 3); [simpl; eexists; split; reflexivity|].
  simpl orb. cbv iota.
  destruct (at_ data (3 + at_ data 3) =? 255 - byteSum (slice 2 (3 + at_ data 3) data) mod 256).
  - reflexivity.
  - simpl. eexists. repeat split; reflexivity.
Qed.

(** A frame laid out as [createPacket] does, in the terms of [parsePacket]:
    header, id, length byte, one more byte, parameters, checksum. *)
Lemma parsePacket_wellformed (id e : Z) (p : Uint8Array) :
  0 <= id < 256 -> len p <= 253 ->
  let covered := [id; len p + 2; e] ++ p in
  let cs := PacketHandler.calculateChecksum covered in
  PacketHandler.parsePacket ([0xFF; 0xFF] ++ covered ++ [cs])
  = Ok (ResponsePacket.mk id 0 p (len p + 2) e cs).
Proof.
  intros Hid Hp. cbv zeta.
  set (covered := [id; len p + 2; e] ++ p).
  set (cs := PacketHandler.calculateChecksum covered).
  set (data := [255; 255] ++ covered ++ [cs]).
  pose proof (len_nonneg p) as Hp0.
  assert (Hlen : len data = 6 + len p).
  { subst data covered. rewrite !len_app. unfold len. simpl List.length. lia. }
  assert (Hat : at_ data 0 = 255 /\ at_ data 1 = 255 /\ at_ data 2 = id
                /\ at_ data 3 = len p + 2 /\ at_ data 4 = e).
  { subst data covered. apply at_prefix. }
  destruct Hat as (H0 & H1 & H2 & H3 & H4).
  assert (Hcs : at_ data (3 + (len p + 2)) = cs).
  { subst data. rewrite app_assoc.
    replace (3 + (len p + 2)) with (len ([255; 255] ++ covered)).
    - apply at_last.
    - subst covered. rewrite !len_app. unfold len. simpl List.length. lia. }
  assert (Hcov : slice 2 (3 + (len p + 2)) data = covered).
  { subst data. replace (3 + (len p + 2)) with (2 + len covered).
    - apply (slice_covered 255 255 cs covered).
    - subst covered. rewrite len_app. unfold len. simpl List.length. lia. }
  assert (Hpar : (if 2 <? len p + 2 then slice 5 (3 + (len p + 2)) data else []) = p).
  { destruct (2 <? len p + 2) eqn:E.
    - subst data covered. replace (3 + (len p + 2)) with (5 + len p) by lia.
      apply (slice_parameters 255 255 id (len p + 2) e cs p).
    - apply Z.ltb_ge in E. unfold len in *. destruct p; [reflexivity|].
      simpl List.length in E. lia. }
  pose proof (parsePacket_cases data) as Hcases. cbv zeta in Hcases.
  rewrite H0, H1, H2, H3, H4, Hlen, Hcs, Hcov, Hpar in Hcases.
  replace (6 + len p <? 6) with false in Hcases by (symmetry; apply Z.ltb_ge; lia).
  replace (6 + len p <? 4 + (len p + 2)) with false in Hcases
    by (symmetry; apply Z.ltb_ge; lia).
  simpl orb in Hcases. cbv iota in Hcases.
  unfold cs in Hcases at 1. rewrite calculateChecksum_arith, Z.eqb_refl in Hcases.
  exact Hcases.
Qed.

(** [C1], as amended.  Round trip of the codec: for every device id byte,
    instruction and parameter bytes of which there are at most 253 (so that
    the length byte does not wrap), [parsePacket] accepts what [createPacket]
    built and returns the id, the length field [parameterCount + 2] and the
    parameter bytes unchanged. *)
Theorem createPacket_parsePacket_roundtrip
        (id : Z) (instruction : Instruction) (parameters : option Uint8Array) :
  0 <= id < 256 ->
  len (paramBytes parameters) <= 253 ->
  exists response,
    PacketHandler.parsePacket (PacketHandler.createPacket id instruction parameters)
    = Ok response
    /\ ResponsePacket.id response = id
    /\ ResponsePacket.length response = len (paramBytes parameters) + 2
    /\ ResponsePacket.parameters response = paramBytes parameters.
Proof.
  intros Hid Hp. rewrite createPacket_layout. cbv zeta.
  pose proof (len_nonneg (paramBytes parameters)) as Hp0.
  rewrite (toUint8_small id Hid).
  rewrite (toUint8_small (len (paramBytes parameters) + 2)) by lia.
  rewrite (parsePacket_wellformed id (instructionCode instruction)
             (paramBytes parameters) Hid Hp).
  eexists. repeat split.
Qed.

Lemma createPacket_parsePacket_roundtrip_witness :
  exists response,
    PacketHandler.parsePacket (PacketHandler.createPacket 1 WRITE (Some [42; 0; 8]))
    = Ok response
    /\ ResponsePacket.id response = 1
    /\ ResponsePacket.length response = len (paramBytes (Some [42; 0; 8])) + 2
    /\ ResponsePacket.parameters response = paramBytes (Some [42; 0; 8]).
Proof.
  apply (createPacket_parsePacket_roundtrip 1 WRITE (Some [42; 0; 8])).
  - lia.
  - vm_compute. discriminate.
Defined.

(** [C1], as stated, fails once the length byte wraps: with 254 parameter
    bytes the length byte is 0 and the packet built for id 1 is rejected. *)
Lemma roundtrip_fails_at_254_parameters :
  let parameters := repeat 0 254%nat in
  isBytes parameters /\
  forall response,
    PacketHandler.parsePacket (PacketHandler.createPacket 1 WRITE (Some parameters))
    <> Ok response.
Proof.
  cbv zeta. split.
  - apply Forall_forall. intros x Hx. apply repeat_spec in Hx. subst x. lia.
  - intros response. vm_compute. discriminate.
Qed.

(** [C2], as amended.  For every byte sequence [parsePacket] fails with
    [INVALID_RESPONSE] if fewer than 6 bytes are present, if the two header
    bytes are not 0xFF 0xFF, or if fewer bytes are present than the length
    byte [L] declares ([4 + L]); otherwise it fails with [CHECKSUM_ERROR]
    carrying the frame's device id if the checksum byte (at index [3 + L])
    differs from the bitwise NOT, truncated to 8 bits, of the sum of the
    bytes from the id up to it; otherwise it succeeds.  Bytes beyond the
    declared length are not looked at. *)
Theorem parsePacket_failure_conditions (data : Uint8Array) :
  let L := at_ data 3 in
  if (len data <? 6) || negb (at_ data 0 =? 0xFF) || negb (at_ data 1 =? 0xFF)
     || (len data <? 4 + L)
  then exists e, PacketHandler.parsePacket data = Throw (ServoErr e)
                 /\ code e = INVALID_RESPONSE
  else if negb (at_ data (3 + L)
                =? Z.land (Z.lnot (byteSum (slice 2 (3 + L) data))) 0xFF)
  then exists e, PacketHandler.parsePacket data = Throw (ServoErr e)
                 /\ code e = CHECKSUM_ERROR /\ deviceId e = Some (at_ data 2)
  else exists response, PacketHandler.parsePacket data = Ok response
                 /\ ResponsePacket.id response = at_ data 2
                 /\ ResponsePacket.length response = L
                 /\ ResponsePacket.error response = at_ data 4
                 /\ ResponsePacket.parameters response
                    = (if 2 <? L then slice 5 (3 + L) data else []).
Proof.
  cbv zeta. rewrite not_low_byte.
  pose proof (parsePacket_cases data) as H. cbv zeta in H.
  destruct ((len data <? 6) || negb (at_ data 0 =? 255) || negb (at_ data 1 =? 255)
            || (len data <? 4 + at_ data 3)); [exact H|].
  destruct (negb (at_ data (3 + at_ data 3)
                  =? 255 - byteSum (slice 2 (3 + at_ data 3) data) mod 256)); [exact H|].
  eexists. split; [exact H|]. repeat split.
Qed.

(** [C2], as stated, fails where the byte count exceeds the declared length:
    a valid six-byte frame followed by one more byte is accepted. *)
Lemma parsePacket_accepts_trailing_bytes :
  let data := [0xFF; 0xFF; 0x05; 0x02; 0x00; 0xF8; 0x00] in
  isBytes data /\ len data <> 4 + at_ data 3 /\
  exists response, PacketHandler.parsePacket data = Ok response.
Proof.
  cbv zeta. split; [|split].
  - repeat constructor; lia.
  - vm_compute. discriminate.
  - eexists. vm_compute. reflexivity.
Qed.

(** [C7], as amended.  Encoding a PING to id 5 gives FF FF 05 02 01 F7.  The
    response with id 5, length 2, error 0 and no parameters is
    FF FF 05 02 00 F8 (the checksum is the NOT of 05 + 02 + 00); it decodes
    to that frame, and FF FF 05 02 00 F9 is rejected with [CHECKSUM_ERROR]
    for id 5. *)
Theorem ping_scenario :
  PacketHandler.createPingPacket 5 = [0xFF; 0xFF; 0x05; 0x02; 0x01; 0xF7]
  /\ PacketHandler.parsePacket [0xFF; 0xFF; 0x05; 0x02; 0x00; 0xF8]
     = Ok (ResponsePacket.mk 5 0 [] 2 0 0xF8)
  /\ PacketHandler.parsePacket [0xFF; 0xFF; 0x05; 0x02; 0x00; 0xF9]
     = Throw (ServoErr (mkServoError "Checksum mismatch: expected 248, got 249"
                                     CHECKSUM_ERROR (Some 5))).
Proof. repeat split; vm_compute; reflexivity. Qed.

(** [C7], as stated, fails: decoding FF FF 05 02 00 F9 does not succeed. *)
Lemma ping_response_F9_rejected :
  ~ exists response,
      PacketHandler.parsePacket [0xFF; 0xFF; 0x05; 0x02; 0x00; 0xF9] = Ok response.
Proof. intros [response H]. vm_compute in H. discriminate. Qed.

(** ** Error bits *)

Lemma errorMessages_conditions (error : Z) :
  PacketHandler.errorMessages error = conditionsSet error.
Proof.
  unfold PacketHandler.errorMessages, conditionsSet, errorConditions.
  unfold ErrorBit.VOLTAGE, ErrorBit.ANGLE, ErrorBit.OVERHEAT, ErrorBit.RANGE,
    ErrorBit.CHECKSUM, ErrorBit.OVERLOAD, ErrorBit.INSTRUCTION.
  cbn [filter fst snd].
  generalize "Input voltage error", "Angle limit error", "Overheat error",
    "Out of range error", "Checksum error", "Overload error",
    "Invalid instruction error".
  generalize (Z.land error 1 =? 0), (Z.land error 2 =? 0), (Z.land error 4 =? 0),
    (Z.land error 8 =? 0), (Z.land error 16 =? 0), (Z.land error 32 =? 0),
    (Z.land error 64 =? 0).
  intros b1 b2 b3 b4 b5 b6 b7 n1 n2 n3 n4 n5 n6 n7.
  destruct b1, b2, b3, b4, b5, b6, b7; reflexivity.
Qed.

Lemma land_low7_zero (error : Z) :
  Z.land error 0x7F = 0 <->
  Z.land error 1 = 0 /\ Z.land error 2 = 0 /\ Z.land error 4 = 0 /\ Z.land error 8 = 0
  /\ Z.land error 16 = 0 /\ Z.land error 32 = 0 /\ Z.land error 64 = 0.
Proof.
  change 0x7F with
    (Z.lor 1 (Z.lor 2 (Z.lor 4 (Z.lor 8 (Z.lor 16 (Z.lor 32 64)))))).
  rewrite !Z.land_lor_distr_r, !Z.lor_eq_0_iff. tauto.
Qed.

Lemma filter_nil_iff {A : Type} (f : A -> bool) (l : list A) :
  filter f l = [] <-> Forall (fun x => f x = false) l.
Proof.
  induction l as [|x l IH]; simpl.
  - split; [constructor | reflexivity].
  - destruct (f x) eqn:E; split; intros H.
    + discriminate.
    + inversion H; congruence.
    + constructor; [assumption | now apply IH].
    + inversion H; now apply IH.
Qed.

Lemma conditionsSet_nil (error : Z) :
  conditionsSet error = [] <-> Z.land error 0x7F = 0.
Proof.
  rewrite land_low7_zero. unfold conditionsSet.
  split.
  - intros H. apply map_eq_nil in H. apply filter_nil_iff in H.
    unfold errorConditions in H.
    repeat match goal with
           | H : Forall _ (_ :: _) |- _ => apply Forall_cons_iff in H; destruct H
           end.
    cbn [fst] in *.
    repeat match goal with
           | H : negb (_ =? _) = false |- _ =>
               apply negb_false_iff in H; apply Z.eqb_eq in H
           end.
    repeat split; assumption.
  - intros (H1 & H2 & H3 & H4 & H5 & H6 & H7).
    replace (filter (fun c => negb (Z.land error (fst c) =? 0)) errorConditions)
      with (@nil (Z * string)); [reflexivity|].
    symmetry. apply filter_nil_iff. unfold errorConditions.
    repeat constructor; cbn [fst]; apply negb_false_iff; apply Z.eqb_eq; assumption.
Qed.

Lemma conditionsSet_names (error bit : Z) (name : string) :
  In (bit, name) errorConditions ->
  (In name (conditionsSet error) <-> Z.land error bit <> 0).
Proof.
  intros Hin. unfold conditionsSet. rewrite in_map_iff.
  split.
  - intros [[bit' name'] [Hname Hf]]. cbn [snd] in Hname. subst name'.
    apply filter_In in Hf. destruct Hf as [Hin' Hf]. cbn [fst] in Hf.
    apply negb_true_iff in Hf. apply Z.eqb_neq in Hf.
    replace bit with bit'; [exact Hf|].
    unfold errorConditions in Hin, Hin'. simpl in Hin, Hin'.
    repeat (destruct Hin as [Hin|Hin]; [injection Hin as <- <-|]); try contradiction;
      repeat (destruct Hin' as [Hin'|Hin']; [injection Hin' as <- |]);
      try contradiction; try reflexivity; discriminate.
  - intros Hbit. exists (bit, name). split; [reflexivity|].
    apply filter_In. split; [exact Hin|]. cbn [fst].
    apply negb_true_iff. now apply Z.eqb_neq.
Qed.

(** [C3], as amended.  [checkError] returns without raising when none of the
    bits 0..6 of the error byte is set: for the error byte 0, and also for
    0x80.  When one of them is set it raises [HARDWARE_ERROR] carrying the id
    of the responding device, with a message that names every condition
    whose bit is set (voltage, angle, overheat, range, checksum, overload,
    invalid instruction), in that order. *)
Theorem checkError_outcome (packet : ResponsePacket.t) :
  let error := ResponsePacket.error packet in
  if Z.land error 0x7F =? 0
  then PacketHandler.checkError packet = Ok tt
  else PacketHandler.checkError packet
       = Throw (ServoErr (mkServoError
                  ("Servo error (0x" ++ hexadecimal error ++ "): "
                     ++ String.concat ", " (conditionsSet error))%string
                  HARDWARE_ERROR
                  (Some (ResponsePacket.id packet))))
       /\ conditionsSet error <> []
       /\ forall bit name, In (bit, name) errorConditions ->
            (In name (conditionsSet error) <-> Z.land error bit <> 0).
Proof.
  cbv zeta. unfold PacketHandler.checkError.
  rewrite errorMessages_conditions.
  set (error := ResponsePacket.error packet).
  destruct (Z.land error 127 =? 0) eqn:E.
  - apply Z.eqb_eq in E. apply conditionsSet_nil in E. rewrite E.
    destruct (error =? 0); reflexivity.
  - apply Z.eqb_neq in E.
    assert (Hne : conditionsSet error <> []) by (intros H; apply conditionsSet_nil in H; tauto).
    split; [|split].
    + destruct (error =? 0) eqn:E0.
      * apply Z.eqb_eq in E0. rewrite E0 in E. simpl in E. congruence.
      * destruct (conditionsSet error) eqn:Ec; [congruence|]. reflexivity.
    + exact Hne.
    + intros bit name Hin. now apply conditionsSet_names.
Qed.

(** [C3], as stated, fails for the error byte 0x80: it is not zero, and
    [checkError] returns without raising. *)
Lemma checkError_ignores_bit7 :
  let packet := ResponsePacket.mk 5 0 [] 2 0x80 0x78 in
  ResponsePacket.error packet <> 0
  /\ PacketHandler.parsePacket [0xFF; 0xFF; 0x05; 0x02; 0x80; 0x78] = Ok packet
  /\ PacketHandler.checkError packet = Ok tt.
Proof. cbv zeta. repeat split; vm_compute; try reflexivity; discriminate. Qed.

(** ** The serial line *)

Lemma lineData_length (line : list Arrival) :
  (List.length (lineData line) <= lineBytes line)%nat.
Proof.
  induction line as [|[bytes|] line IH]; simpl; try lia.
  rewrite length_app. lia.
Qed.

Lemma appendToBuffer_app (a b : Uint8Array) :
  WebSerialPortHandler.appendToBuffer a b = a ++ b.
Proof.
  unfold WebSerialPortHandler.appendToBuffer.
  rewrite newUint8Array_add by apply len_nonneg.
  replace (newUint8Array (len b)) with (repeat 0 (List.length b))
    by (unfold newUint8Array, len; now rewrite Nat2Z.id).
  pose proof (setArray_app a [] (repeat 0 (List.length a)) (repeat 0 (List.length b))
                (repeat_length 0 (List.length a))) as Ha.
  cbn [List.length app] in Ha. rewrite Ha.
  unfold len. rewrite Nat2Z.id.
  pose proof (setArray_app b a (repeat 0 (List.length b)) []
                (repeat_length 0 (List.length b))) as Hb.
  rewrite !app_nil_r in Hb. exact Hb.
Qed.

(** A wait for [n] bytes that the line can satisfy before it pauses. *)
Lemma poll_enough (predicate : Uint8Array -> bool) (n : Z) (line : list Arrival) :
  (forall buf, predicate buf = (n <=? len buf)) ->
  forall buffer,
    n <= len (buffer ++ lineData line) ->
    exists buffer' line',
      WebSerialPortHandler.poll predicate line buffer = (true, buffer', line')
      /\ buffer' ++ lineData line' = buffer ++ lineData line
      /\ n <= len buffer'.
Proof.
  intros Hpred. induction line as [|[bytes|] line IH]; intros buffer Hn; simpl.
  - rewrite Hpred. simpl in Hn. rewrite app_nil_r in Hn.
    replace (n <=? len buffer) with true by (symmetry; now apply Z.leb_le).
    exists buffer, []. repeat split. assumption.
  - rewrite Hpred. destruct (n <=? len buffer) eqn:E.
    + exists buffer, (Data bytes :: line). repeat split. now apply Z.leb_le.
    + rewrite appendToBuffer_app.
      destruct (IH (buffer ++ bytes)) as (buffer' & line' & Hpoll & Hdata & Hlen).
      * simpl in Hn. now rewrite <- app_assoc.
      * exists buffer', line'. rewrite Hpoll. repeat split; [|assumption].
        rewrite Hdata. simpl. now rewrite <- app_assoc.
  - rewrite Hpred. simpl in Hn. rewrite app_nil_r in Hn.
    replace (n <=? len buffer) with true by (symmetry; now apply Z.leb_le).
    exists buffer, (Silence :: line). repeat split. assumption.
Qed.

(** A wait never adds to what the line can still hand over, and when it
    succeeds the buffer satisfies the predicate. *)
Lemma poll_budget (predicate : Uint8Array -> bool) (line : list Arrival) :
  forall buffer arrived buffer' line',
    WebSerialPortHandler.poll predicate line buffer = (arrived, buffer', line') ->
    (List.length buffer' + lineBytes line' <= List.length buffer + lineBytes line)%nat
    /\ (arrived = true -> predicate buffer' = true).
Proof.
  induction line as [|[bytes|] line IH]; intros buffer arrived buffer' line' H;
    simpl in H; destruct (predicate buffer) eqn:E.
  - injection H as <- <- <-. split; [lia | now intros _].
  - injection H as <- <- <-. split; [lia | discriminate].
  - injection H as <- <- <-. split; [lia | now intros _].
  - rewrite appendToBuffer_app in H. apply IH in H. destruct H as [H1 H2].
    split; [|assumption]. rewrite length_app in H1. simpl. lia.
  - injection H as <- <- <-. split; [lia | now intros _].
  - injection H as <- <- <-. split; [simpl; lia | discriminate].
Qed.

Lemma firstn_prefix (n : nat) (a b : Uint8Array) :
  (n <= List.length a)%nat -> firstn n (a ++ b) = firstn n a.
Proof.
  intros H. rewrite firstn_app.
  replace (n - List.length a)%nat with 0%nat by lia. simpl. apply app_nil_r.
Qed.

Lemma skipn_prefix (n : nat) (a b : Uint8Array) :
  (n <= List.length a)%nat -> skipn n (a ++ b) = skipn n a ++ b.
Proof.
  intros H. rewrite skipn_app.
  replace (n - List.length a)%nat with 0%nat by lia. reflexivity.
Qed.

(** [read(n)] when the bytes are there or on their way. *)
Lemma read_pending (n : Z) (st : PortState) (a b : Uint8Array) :
  isOpen st = true -> pending st = a ++ b -> len a = n ->
  exists st',
    WebSerialPortHandler.read n st = (Ok a, st')
    /\ pending st' = b /\ isOpen st' = true /\ written st' = written st.
Proof.
  intros Hopen Hpend Hlen. unfold WebSerialPortHandler.read. rewrite Hopen. simpl negb.
  cbv iota.
  destruct (poll_enough (fun buf => negb (len buf <? n)) n (incoming st))
    with (buffer := readBuffer st) as (buffer' & line' & Hpoll & Hdata & Hn).
  - intros buf. destruct (len buf <? n) eqn:E; simpl; symmetry.
    + apply Z.leb_gt. now apply Z.ltb_lt.
    + apply Z.leb_le. now apply Z.ltb_ge.
  - fold (pending st). rewrite Hpend, len_app. pose proof (len_nonneg b). lia.
  - rewrite Hpoll. cbv iota zeta.
    assert (Hn0 : 0 <= n) by (rewrite <- Hlen; apply len_nonneg).
    rewrite slice_from, slice_0 by assumption.
    exists (mkPort (skipn (Z.to_nat n) buffer') true line' (written st)).
    split; [|split; [|split]]; try reflexivity.
    + f_equal. f_equal.
      fold (pending st) in Hdata. rewrite Hpend in Hdata.
      rewrite <- (firstn_prefix (Z.to_nat n) buffer' (lineData line'))
        by (unfold len in Hn; lia).
      rewrite Hdata. rewrite firstn_app.
      replace (Z.to_nat n) with (List.length a) by (unfold len in Hlen; lia).
      rewrite firstn_all, Nat.sub_diag. simpl. apply app_nil_r.
    + unfold pending. simpl.
      rewrite <- skipn_prefix by (unfold len in Hn; lia).
      rewrite Hdata. fold (pending st). rewrite Hpend.
      replace (Z.to_nat n) with (List.length a) by (unfold len in Hlen; lia).
      rewrite skipn_app, skipn_all, Nat.sub_diag. reflexivity.
Qed.

(** [waitForData(buf => buf.length >= 2)] followed by [peekBuffer(2)] when two
    bytes are there or on their way: the bytes peeked are the next two. *)
Lemma wait_peek_pending (timeout : Z) (st : PortState) (x y : Z) (rest : Uint8Array) :
  pending st = x :: y :: rest ->
  exists st',
    WebSerialPortHandler.waitForData (fun buf => 2 <=? len buf) timeout st = (Ok tt, st')
    /\ WebSerialPortHandler.peekBuffer 2 st' = (Ok [x; y], st')
    /\ pending st' = pending st /\ isOpen st' = isOpen st /\ written st' = written st.
Proof.
  intros Hpend. unfold WebSerialPortHandler.waitForData.
  destruct (poll_enough (fun buf => 2 <=? len buf) 2 (incoming st))
    with (buffer := readBuffer st) as (buffer' & line' & Hpoll & Hdata & Hn).
  - reflexivity.
  - fold (pending st). rewrite Hpend. unfold len. simpl List.length. lia.
  - rewrite Hpoll. exists (mkPort buffer' (isOpen st) line' (written st)).
    split; [reflexivity|]. split; [|split; [|split]];
      try reflexivity; [|exact Hdata].
    unfold WebSerialPortHandler.peekBuffer, gets. simpl readBuffer.
    f_equal. f_equal. rewrite Z.min_l by assumption. rewrite slice_0 by lia.
    change (Z.to_nat 2) with 2%nat.
    rewrite <- (firstn_prefix 2 buffer' (lineData line')) by (unfold len in Hn; lia).
    rewrite Hdata. fold (pending st). rewrite Hpend. reflexivity.
Qed.

(** ** Header search *)

Lemma headerAt_app (a b : Uint8Array) (i : nat) :
  (S i < List.length a)%nat -> headerAt (a ++ b) i = headerAt a i.
Proof. intros H. unfold headerAt. rewrite !app_nth1 by lia. reflexivity. Qed.

Lemma poll_now (predicate : Uint8Array -> bool) (line : list Arrival) (buffer : Uint8Array) :
  predicate buffer = true ->
  WebSerialPortHandler.poll predicate line buffer = (true, buffer, line).
Proof. intros H. destruct line as [|[bytes|] line]; simpl; now rewrite H. Qed.

(** The search discards bytes one at a time up to the first position where
    two consecutive 0xFF start. *)
Lemma awaitHeaderLoop_skips (timeout : Z) (garbage : Uint8Array) :
  forall budget st tail,
    isOpen st = true ->
    pending st = garbage ++ 0xFF :: 0xFF :: tail ->
    (forall i, (i < List.length garbage)%nat ->
               headerAt (garbage ++ 0xFF :: 0xFF :: tail) i = false) ->
    (List.length garbage < budget)%nat ->
    exists st',
      Receive.awaitHeaderLoop budget timeout st = (Ok tt, st')
      /\ pending st' = 0xFF :: 0xFF :: tail
      /\ isOpen st' = true /\ written st' = written st.
Proof.
  induction garbage as [|g gs IH]; intros budget st tail Hopen Hpend Hfree Hbudget;
    (destruct budget as [|budget]; [lia|]); simpl Receive.awaitHeaderLoop; unfold bind.
  - simpl app in Hpend.
    destruct (wait_peek_pending timeout st 255 255 tail Hpend)
      as (st1 & Hwait & Hpeek & Hpend1 & Hopen1 & Hwr1).
    rewrite Hwait, Hpeek.
    change ((at_ [255; 255] 0 =? 255) && (at_ [255; 255] 1 =? 255)) with true.
    cbv iota. unfold ret. exists st1. repeat split; congruence.
  - simpl app in Hpend.
    destruct (gs ++ 255 :: 255 :: tail) as [|y rest] eqn:Efollow.
    { apply app_eq_nil in Efollow. destruct Efollow; discriminate. }
    destruct (wait_peek_pending timeout st g y rest Hpend)
      as (st1 & Hwait & Hpeek & Hpend1 & Hopen1 & Hwr1).
    rewrite Hwait, Hpeek.
    assert (Hno : (at_ [g; y] 0 =? 255) && (at_ [g; y] 1 =? 255) = false).
    { specialize (Hfree 0%nat ltac:(simpl; lia)). simpl app in Hfree.
      rewrite Efollow in Hfree. exact Hfree. }
    rewrite Hno.
    destruct (read_pending 1 st1 [g] (y :: rest)) as (st2 & Hread & Hpend2 & Hopen2 & Hwr2);
      [congruence | now rewrite Hpend1, Hpend | reflexivity |].
    rewrite Hread.
    destruct (IH budget st2 tail) as (st' & Hloop & Hpend' & Hopen' & Hwr');
      [assumption | congruence | | simpl in Hbudget; lia |].
    + intros i Hi. specialize (Hfree (S i) ltac:(simpl; lia)). exact Hfree.
    + exists st'. repeat split; congruence.
Qed.

(** The header search ends within its budget whatever a line of the model
    delivers. *)
Lemma awaitHeaderLoop_finishes (timeout : Z) :
  forall budget st,
    (List.length (readBuffer st) + lineBytes (incoming st) < budget)%nat ->
    fst (Receive.awaitHeaderLoop budget timeout st) <> Unfinished.
Proof.
  induction budget as [|budget IH]; intros st Hbudget; [lia|].
  simpl Receive.awaitHeaderLoop. unfold bind.
  unfold WebSerialPortHandler.waitForData.
  destruct (WebSerialPortHandler.poll (fun buf => 2 <=? len buf) (incoming st) (readBuffer st))
    as [[arrived buffer'] line'] eqn:Hpoll.
  apply poll_budget in Hpoll. destruct Hpoll as [Hle Hpred].
  destruct arrived; [|simpl; discriminate].
  specialize (Hpred eq_refl). apply Z.leb_le in Hpred.
  unfold WebSerialPortHandler.peekBuffer, gets. cbn [readBuffer].
  match goal with |- context [if ?c then _ else _] => destruct c end;
    [simpl; discriminate|].
  unfold WebSerialPortHandler.read. cbn [isOpen readBuffer incoming written].
  destruct (isOpen st); [|simpl; discriminate]. cbn [negb].
  rewrite poll_now by (apply negb_true_iff; apply Z.ltb_ge; lia).
  apply IH. cbn [readBuffer incoming]. rewrite slice_from by lia.
  rewrite length_skipn.
  unfold len in Hpred. change (Z.to_nat 1) with 1%nat. lia.
Qed.

Lemma awaitHeader_finishes (timeout : Z) (st : PortState) :
  fst (Receive.awaitHeader timeout st) <> Unfinished.
Proof.
  unfold Receive.awaitHeader. apply awaitHeaderLoop_finishes.
  unfold headerBudget. lia.
Qed.

(** ** Receiving a frame *)

(** The receive path on a line that carries garbage, then a complete frame:
    the garbage is skipped, the frame is what [parsePacket] gets, and what
    follows the frame stays for the next read. *)
Lemma receive_extracts (timeout expectedId : Z) (st : PortState)
      (garbage frame rest : Uint8Array) :
  isOpen st = true ->
  pending st = garbage ++ frame ++ rest ->
  (forall i, (i < List.length garbage)%nat -> headerAt (garbage ++ frame) i = false) ->
  at_ frame 0 = 0xFF -> at_ frame 1 = 0xFF ->
  4 <= len frame -> len frame = 4 + at_ frame 3 ->
  exists st',
    Receive.receive timeout expectedId st
    = (verifyResponse expectedId (PacketHandler.parsePacket frame), st')
    /\ pending st' = rest /\ isOpen st' = true /\ written st' = written st.
Proof.
  intros Hopen Hpend Hfree H0 H1 H4 Hlen.
  destruct frame as [|h0 [|h1 [|id [|L payload]]]];
    try (unfold len in H4; simpl in H4; lia).
  change (at_ (h0 :: h1 :: id :: L :: payload) 0) with h0 in H0.
  change (at_ (h0 :: h1 :: id :: L :: payload) 1) with h1 in H1.
  change (at_ (h0 :: h1 :: id :: L :: payload) 3) with L in Hlen.
  subst h0 h1.
  assert (HL : len payload = L).
  { unfold len in *. simpl List.length in Hlen. lia. }
  unfold Receive.receive, bind.
  destruct (awaitHeaderLoop_skips timeout garbage (headerBudget st) st
              (id :: L :: payload ++ rest))
    as (st1 & Hloop & Hpend1 & Hopen1 & Hwr1).
  - assumption.
  - exact Hpend.
  - intros i Hi.
    change (255 :: 255 :: id :: L :: payload ++ rest)
      with ((255 :: 255 :: id :: L :: payload) ++ rest).
    rewrite app_assoc, headerAt_app; [now apply Hfree|].
    rewrite length_app. simpl. lia.
  - unfold headerBudget. pose proof (lineData_length (incoming st)) as Hline.
    assert (List.length (pending st)
            = (List.length (readBuffer st) + List.length (lineData (incoming st)))%nat)
      by (unfold pending; apply length_app).
    rewrite Hpend, length_app in H. lia.
  - unfold Receive.awaitHeader. rewrite Hloop.
    destruct (read_pending 4 st1 [255; 255; id; L] (payload ++ rest))
      as (st2 & Hread & Hpend2 & Hopen2 & Hwr2);
      [assumption | exact Hpend1 | reflexivity |].
    rewrite Hread.
    change (PacketHandler.getPacketLength [255; 255; id; L])
      with (Some (HEADER_LENGTH + ID_LENGTH + LENGTH_LENGTH + L)).
    cbv beta iota.
    replace (HEADER_LENGTH + ID_LENGTH + LENGTH_LENGTH + L - 4) with L
      by (unfold HEADER_LENGTH, ID_LENGTH, LENGTH_LENGTH; lia).
    destruct (read_pending L st2 payload rest) as (st3 & Hread3 & Hpend3 & Hopen3 & Hwr3);
      [assumption | exact Hpend2 | exact HL |].
    rewrite Hread3.
    assert (Hfull :
      setArray payload 4
        (setArray [255; 255; id; L] 0
           (newUint8Array (HEADER_LENGTH + ID_LENGTH + LENGTH_LENGTH + L)))
      = 255 :: 255 :: id :: L :: payload).
    { replace (HEADER_LENGTH + ID_LENGTH + LENGTH_LENGTH + L)
        with (len [255; 255; id; L] + len payload)
        by (rewrite HL; unfold HEADER_LENGTH, ID_LENGTH, LENGTH_LENGTH, len; simpl; lia).
      exact (appendToBuffer_app [255; 255; id; L] payload). }
    rewrite Hfull.
    exists st3. split; [|repeat split; congruence].
    unfold call, verifyResponse.
    destruct (PacketHandler.parsePacket (255 :: 255 :: id :: L :: payload))
      as [response| |]; try reflexivity.
    destruct (negb (ResponsePacket.id response =? expectedId)); [reflexivity|].
    destruct (PacketHandler.checkError response); reflexivity.
Qed.

Lemma parsePacket_ok_shape (frame : Uint8Array) (response : ResponsePacket.t) :
  PacketHandler.parsePacket frame = Ok response ->
  6 <= len frame /\ at_ frame 0 = 0xFF /\ at_ frame 1 = 0xFF
  /\ ResponsePacket.length response = at_ frame 3
  /\ ResponsePacket.id response = at_ frame 2.
Proof.
  intros Hok. pose proof (parsePacket_cases frame) as H. cbv zeta in H.
  destruct (len frame <? 6) eqn:E6.
  { simpl in H. destruct H as (e & H & _). congruence. }
  destruct (at_ frame 0 =? 255) eqn:E0; cycle 1.
  { simpl in H. destruct H as (e & H & _). congruence. }
  destruct (at_ frame 1 =? 255) eqn:E1; cycle 1.
  { simpl in H. destruct H as (e & H & _). congruence. }
  destruct (len frame <? 4 + at_ frame 3).
  { simpl in H. destruct H as (e & H & _). congruence. }
  simpl orb in H. cbv iota in H.
  destruct (negb (at_ frame (3 + at_ frame 3)
                  =? 255 - byteSum (slice 2 (3 + at_ frame 3) frame) mod 256)).
  { destruct H as (e & H & _). congruence. }
  rewrite H in Hok. injection Hok as <-.
  apply Z.ltb_ge in E6. apply Z.eqb_eq in E0. apply Z.eqb_eq in E1.
  repeat split; assumption.
Qed.

Lemma readResponse_extracts
      (expectedId : Z) (garbage frame rest : Uint8Array)
      (response : ResponsePacket.t) (g : GroupSyncRead.t) :
  (forall i, (i < List.length garbage)%nat -> headerAt (garbage ++ frame) i = false) ->
  PacketHandler.parsePacket frame = Ok response ->
  len frame = 4 + ResponsePacket.length response ->
  isOpen (GroupSyncRead.portHandler g) = true ->
  pending (GroupSyncRead.portHandler g) = garbage ++ frame ++ rest ->
  exists g',
    GroupSyncRead.readResponse expectedId g = (verifyResponse expectedId (Ok response), g')
    /\ pending (GroupSyncRead.portHandler g') = rest
    /\ GroupSyncRead.dataMap g' = GroupSyncRead.dataMap g.
Proof.
  intros Hfree Hparse Hlen Hopen Hpend.
  destruct (parsePacket_ok_shape frame response Hparse) as (H6 & H0 & H1 & HL & _).
  rewrite HL in Hlen.
  destruct (receive_extracts (GroupSyncRead.timeout g) expectedId
              (GroupSyncRead.portHandler g)
              garbage frame rest Hopen Hpend Hfree H0 H1 ltac:(lia) Hlen)
    as (st' & Hrecv & Hpend' & _ & _).
  exists (GroupSyncRead.withPort g st').
  unfold GroupSyncRead.readResponse, GroupSyncRead.onPort.
  rewrite Hrecv, Hparse. repeat split. exact Hpend'.
Qed.

Lemma sendAndReceive_extracts
      (timeout expectedId : Z) (garbage frame rest : Uint8Array)
      (response : ResponsePacket.t) (st : PortState) (packet : Uint8Array) :
  (forall i, (i < List.length garbage)%nat -> headerAt (garbage ++ frame) i = false) ->
  PacketHandler.parsePacket frame = Ok response ->
  len frame = 4 + ResponsePacket.length response ->
  isOpen st = true ->
  lineData (incoming st) = garbage ++ frame ++ rest ->
  exists st',
    ProtocolHandler.sendAndReceive timeout packet expectedId st
    = (verifyResponse expectedId (Ok response), st')
    /\ pending st' = rest
    /\ isOpen st' = true
    /\ written st' = written st ++ [packet].
Proof.
  intros Hfree Hparse Hlen Hopen Hline.
  destruct (parsePacket_ok_shape frame response Hparse) as (H6 & H0 & H1 & HL & _).
  rewrite HL in Hlen.
  unfold ProtocolHandler.sendAndReceive, bind.
  unfold WebSerialPortHandler.flush at 1. unfold WebSerialPortHandler.write at 1.
  cbn [isOpen readBuffer incoming written]. rewrite Hopen. cbn [negb].
  destruct (receive_extracts timeout expectedId
              (mkPort (newUint8Array 0) true (incoming st) (written st ++ [packet]))
              garbage frame rest eq_refl Hline Hfree H0 H1 ltac:(lia) Hlen)
    as (st' & Hrecv & Hpend' & Hopen' & Hwr').
  exists st'. rewrite Hrecv, Hparse. repeat split; assumption.
Qed.

(** [C8], as amended.  Stream resynchronization.  Let the inbound bytes
    (those buffered followed by those that arrive) be a prefix of garbage,
    then a complete valid frame, then anything; the garbage is arbitrary
    except that no two consecutive 0xFF start at a position before the frame
    start: it holds no pair 0xFF 0xFF and does not end in 0xFF.  Then the
    receive path of [GroupSyncRead.readResponse], and that of
    [ProtocolHandler.sendAndReceive] after it has flushed the buffer and
    written the request, discards the garbage, hands exactly that frame to
    the id and error checks, and leaves what follows the frame unread. *)
Theorem receive_resynchronizes
        (timeout expectedId : Z) (garbage frame rest : Uint8Array)
        (response : ResponsePacket.t) :
  (forall i, (i < List.length garbage)%nat -> headerAt (garbage ++ frame) i = false) ->
  PacketHandler.parsePacket frame = Ok response ->
  len frame = 4 + ResponsePacket.length response ->
  (forall g : GroupSyncRead.t,
      isOpen (GroupSyncRead.portHandler g) = true ->
      pending (GroupSyncRead.portHandler g) = garbage ++ frame ++ rest ->
      exists g',
        GroupSyncRead.readResponse expectedId g
        = (verifyResponse expectedId (Ok response), g')
        /\ pending (GroupSyncRead.portHandler g') = rest
        /\ GroupSyncRead.dataMap g' = GroupSyncRead.dataMap g)
  /\
  (forall (st : PortState) (packet : Uint8Array),
      isOpen st = true ->
      lineData (incoming st) = garbage ++ frame ++ rest ->
      exists st',
        ProtocolHandler.sendAndReceive timeout packet expectedId st
        = (verifyResponse expectedId (Ok response), st')
        /\ pending st' = rest
        /\ written st' = written st ++ [packet]).
Proof.
  intros Hfree Hparse Hlen. split.
  - intros g Hopen Hpend.
    exact (readResponse_extracts expectedId garbage frame rest response g
             Hfree Hparse Hlen Hopen Hpend).
  - intros st packet Hopen Hline.
    destruct (sendAndReceive_extracts timeout expectedId garbage frame rest response
                st packet Hfree Hparse Hlen Hopen Hline)
      as (st' & H1 & H2 & _ & H3).
    exists st'. repeat split; assumption.
Qed.

Lemma receive_resynchronizes_witness :
  let garbage := [0x01; 0xFF; 0x00; 0x42] in
  let frame := [0xFF; 0xFF; 0x05; 0x04; 0x00; 0x34; 0x12; 0xB0] in
  let response := ResponsePacket.mk 5 0 [0x34; 0x12] 4 0 0xB0 in
  let st := mkPort [0x07] true [Data (garbage ++ [0xFF]); Data (tl frame ++ [0x09])] [] in
  exists st',
    ProtocolHandler.sendAndReceive 1000 (PacketHandler.createReadPacket 5 56 2) 5 st
    = (verifyResponse 5 (Ok response), st')
    /\ pending st' = [0x09]
    /\ written st' = written st ++ [PacketHandler.createReadPacket 5 56 2].
Proof.
  cbv zeta.
  refine (proj2 (receive_resynchronizes 1000 5 [0x01; 0xFF; 0x00; 0x42]
                   [0xFF; 0xFF; 0x05; 0x04; 0x00; 0x34; 0x12; 0xB0] [0x09]
                   (ResponsePacket.mk 5 0 [0x34; 0x12] 4 0 0xB0) _ _ _) _ _ _ _).
  - intros i Hi. do 4 (destruct i as [|i]; [reflexivity|]). simpl in Hi. lia.
  - vm_compute. reflexivity.
  - reflexivity.
  - reflexivity.
  - reflexivity.
Defined.

(** [C8], as stated, fails.  The garbage 42 FF holds no two consecutive 0xFF
    and the frame that follows it is complete and valid.  But the header
    search takes the last garbage byte and the first header byte for the
    header, the receive path starts one byte early, and the bytes it hands
    to the parser, FF FF FF 05 04 00 34 12 B0, fail the checksum test under
    the id 0xFF: the frame is not extracted.  Both receive paths do this. *)
Lemma resynchronization_lost_after_trailing_ff :
  let garbage := [0x42; 0xFF] in
  let frame := [0xFF; 0xFF; 0x05; 0x04; 0x00; 0x34; 0x12; 0xB0] in
  let response := ResponsePacket.mk 5 0 [0x34; 0x12] 4 0 0xB0 in
  let st := mkPort [] true [Data (garbage ++ frame)] [] in
  let g := GroupSyncRead.mk (mkPort (garbage ++ frame) true [] []) 56 2 1000 [5] [] in
  (forall i, headerAt garbage i = false)
  /\ PacketHandler.parsePacket frame = Ok response
  /\ len frame = 4 + ResponsePacket.length response
  /\ lineData (incoming st) = garbage ++ frame ++ []
  /\ pending (GroupSyncRead.portHandler g) = garbage ++ frame ++ []
  /\ (exists e,
        fst (ProtocolHandler.sendAndReceive 1000 (PacketHandler.createReadPacket 5 56 2) 5 st)
        = Throw (ServoErr e)
        /\ code e = CHECKSUM_ERROR /\ deviceId e = Some 0xFF)
  /\ (exists e,
        fst (GroupSyncRead.readResponse 5 g) = Throw (ServoErr e)
        /\ code e = CHECKSUM_ERROR /\ deviceId e = Some 0xFF)
  /\ fst (ProtocolHandler.sendAndReceive 1000 (PacketHandler.createReadPacket 5 56 2) 5 st)
     <> verifyResponse 5 (Ok response)
  /\ fst (GroupSyncRead.readResponse 5 g) <> verifyResponse 5 (Ok response).
Proof.
  cbv zeta.
  split.
  { intros i. do 3 (destruct i as [|i]; [reflexivity|]). reflexivity. }
  split; [vm_compute; reflexivity|].
  split; [reflexivity|].
  split; [reflexivity|].
  split; [reflexivity|].
  split; [eexists; split; [vm_compute; reflexivity | split; reflexivity]|].
  split; [eexists; split; [vm_compute; reflexivity | split; reflexivity]|].
  split; vm_compute; discriminate.
Qed.

(** ** The iteration budget is enough on the lines of the model *)

Lemma finishes_ret {S A : Type} (a : A) : finishes (@ret S A a).
Proof. intros s. discriminate. Qed.

Lemma finishes_throwNew {S A : Type} msg c dev : finishes (@throwNew S A msg c dev).
Proof. intros s. discriminate. Qed.

Lemma finishes_gets {S A : Type} (f : S -> A) : finishes (gets f).
Proof. intros s. discriminate. Qed.

Lemma finishes_modify {S : Type} (f : S -> S) : finishes (modify f).
Proof. intros s. discriminate. Qed.

Lemma finishes_call {S A : Type} (r : Result A) : r <> Unfinished -> finishes (@call S A r).
Proof. intros H s. exact H. Qed.

Lemma finishes_bind {S A B : Type} (m : M S A) (k : A -> M S B) :
  finishes m -> (forall a, finishes (k a)) -> finishes (bind m k).
Proof.
  intros Hm Hk s. unfold bind. specialize (Hm s).
  destruct (m s) as [[a| |] s']; simpl in *; [apply Hk | discriminate | congruence].
Qed.

Lemma finishes_tryCatch {S A : Type} (m : M S A) (handler : Exception -> M S A) :
  finishes m -> (forall e, finishes (handler e)) -> finishes (tryCatch m handler).
Proof.
  intros Hm Hh s. unfold tryCatch. specialize (Hm s).
  destruct (m s) as [[a| |] s']; simpl in *; [discriminate | apply Hh | congruence].
Qed.

Lemma parsePacket_completes (data : Uint8Array) :
  PacketHandler.parsePacket data <> Unfinished.
Proof.
  unfold PacketHandler.parsePacket, throwServoError.
  repeat match goal with |- context [if ?c then _ else _] => destruct c end; discriminate.
Qed.

Lemma checkError_completes (packet : ResponsePacket.t) :
  PacketHandler.checkError packet <> Unfinished.
Proof.
  unfold PacketHandler.checkError, throwServoError.
  repeat match goal with |- context [if ?c then _ else _] => destruct c end; discriminate.
Qed.

Lemma read_finishes (n : Z) : finishes (WebSerialPortHandler.read n).
Proof.
  intros s. unfold WebSerialPortHandler.read.
  destruct (negb (isOpen s)); [discriminate|].
  destruct (WebSerialPortHandler.poll _ _ _) as [[[] ?] ?]; discriminate.
Qed.

Lemma write_finishes (data : Uint8Array) : finishes (WebSerialPortHandler.write data).
Proof.
  intros s. unfold WebSerialPortHandler.write. destruct (negb (isOpen s)); discriminate.
Qed.

Lemma flush_finishes : finishes WebSerialPortHandler.flush.
Proof. intros s. discriminate. Qed.

(** Completion of a call built from the steps above, step by step. *)
Ltac finishes_steps :=
  repeat first
    [ apply finishes_ret | apply finishes_throwNew
    | apply finishes_gets | apply finishes_modify
    | apply read_finishes | apply write_finishes | apply flush_finishes
    | apply finishes_call; first [apply parsePacket_completes | apply checkError_completes]
    | apply finishes_bind; [| intro]
    | match goal with
      | |- finishes (match ?x with _ => _ end) => destruct x
      end ].

Lemma receive_finishes (timeout expectedId : Z) :
  finishes (Receive.receive timeout expectedId).
Proof.
  unfold Receive.receive.
  apply finishes_bind; [exact (awaitHeader_finishes timeout) | intros _].
  finishes_steps.
Qed.

Lemma sendAndReceive_finishes (timeout : Z) (packet : Uint8Array) (expectedId : Z) :
  finishes (ProtocolHandler.sendAndReceive timeout packet expectedId).
Proof.
  unfold ProtocolHandler.sendAndReceive.
  apply finishes_bind; [apply flush_finishes | intros _].
  apply finishes_bind; [apply write_finishes | intros _].
  apply receive_finishes.
Qed.

Lemma readResponses_finishes (ids : list Z) : finishes (GroupSyncRead.readResponses ids).
Proof.
  induction ids as [|id ids IH]; simpl; [apply finishes_ret|].
  apply finishes_bind; [|intros _; exact IH].
  apply finishes_tryCatch; [|intros e; apply finishes_ret].
  apply finishes_bind.
  - intros g. unfold GroupSyncRead.readResponse, GroupSyncRead.onPort.
    pose proof (receive_finishes (GroupSyncRead.timeout g) id (GroupSyncRead.portHandler g)) as H.
    destruct (Receive.receive _ _ _) as [r p]. exact H.
  - intros response. apply finishes_bind; [apply finishes_gets|]. intros width.
    destruct (negb _); [apply finishes_modify | apply finishes_ret].
Qed.

Lemma txRxPacket_finishes : finishes GroupSyncRead.txRxPacket.
Proof.
  unfold GroupSyncRead.txRxPacket.
  apply finishes_bind; [apply finishes_gets|]. intros size.
  destruct (size =? 0); [apply finishes_throwNew|].
  apply finishes_bind; [apply finishes_modify|]. intros _.
  apply finishes_bind; [apply finishes_gets|]. intros ids.
  apply finishes_bind; [apply finishes_gets|]. intros packet.
  apply finishes_bind.
  { intros g. unfold GroupSyncRead.onPort. simpl. discriminate. }
  intros _. apply finishes_bind.
  { intros g. unfold GroupSyncRead.onPort.
    pose proof (write_finishes packet (GroupSyncRead.portHandler g)) as H.
    destruct (WebSerialPortHandler.write _ _) as [r p]. exact H. }
  intros _. apply readResponses_finishes.
Qed.

(** ** What reaches the writer *)

Lemma silent_ret {A : Type} (a : A) : silent (ret a).
Proof. intros s. split; reflexivity. Qed.

Lemma silent_throwNew {A : Type} msg c dev : silent (@throwNew PortState A msg c dev).
Proof. intros s. split; reflexivity. Qed.

Lemma silent_call {A : Type} (r : Result A) : silent (call r).
Proof. intros s. split; reflexivity. Qed.

Lemma silent_bind {A B : Type} (m : M PortState A) (k : A -> M PortState B) :
  silent m -> (forall a, silent (k a)) -> silent (bind m k).
Proof.
  intros Hm Hk s. unfold bind. specialize (Hm s).
  destruct (m s) as [[a| |] s']; simpl in *; try exact Hm.
  destruct (Hk a s') as [H1 H2]. destruct Hm as [H3 H4]. split; congruence.
Qed.

Lemma silent_read (n : Z) : silent (WebSerialPortHandler.read n).
Proof.
  intros s. unfold WebSerialPortHandler.read.
  destruct (isOpen s) eqn:E; simpl; [|split; [reflexivity | assumption]].
  destruct (WebSerialPortHandler.poll _ _ _) as [[[] ?] ?]; simpl; split; reflexivity.
Qed.

Lemma silent_waitForData predicate timeout :
  silent (WebSerialPortHandler.waitForData predicate timeout).
Proof.
  intros s. unfold WebSerialPortHandler.waitForData.
  destruct (WebSerialPortHandler.poll _ _ _) as [[[] ?] ?]; simpl; split; reflexivity.
Qed.

Lemma silent_peekBuffer (n : Z) : silent (WebSerialPortHandler.peekBuffer n).
Proof. intros s. split; reflexivity. Qed.

Lemma silent_awaitHeaderLoop (timeout : Z) (budget : nat) :
  silent (Receive.awaitHeaderLoop budget timeout).
Proof.
  induction budget as [|budget IH]; simpl.
  - intros s. split; reflexivity.
  - apply silent_bind; [apply silent_waitForData|]. intros _.
    apply silent_bind; [apply silent_peekBuffer|]. intros h.
    destruct (_ && _); [apply silent_ret|].
    apply silent_bind; [apply silent_read|]. intros _. exact IH.
Qed.

Lemma silent_receive (timeout expectedId : Z) : silent (Receive.receive timeout expectedId).
Proof.
  unfold Receive.receive.
  apply silent_bind.
  { intros s. apply silent_awaitHeaderLoop. }
  intros _. apply silent_bind; [apply silent_read|]. intros headerAndLen.
  destruct (PacketHandler.getPacketLength headerAndLen); [|apply silent_throwNew].
  apply silent_bind; [apply silent_read|]. intros payload.
  apply silent_bind; [apply silent_call|]. intros response.
  destruct (negb _); [apply silent_throwNew|].
  apply silent_bind; [apply silent_call|]. intros _. apply silent_ret.
Qed.

(** On an open port [sendAndReceive] passes its packet to the writer, and
    nothing else, whatever happens afterwards. *)
Lemma sendAndReceive_written (timeout : Z) (packet : Uint8Array) (expectedId : Z)
      (st : PortState) :
  isOpen st = true ->
  written (snd (ProtocolHandler.sendAndReceive timeout packet expectedId st))
  = written st ++ [packet]
  /\ isOpen (snd (ProtocolHandler.sendAndReceive timeout packet expectedId st)) = true.
Proof.
  intros Hopen. unfold ProtocolHandler.sendAndReceive, bind.
  unfold WebSerialPortHandler.flush, WebSerialPortHandler.write.
  cbn [isOpen readBuffer incoming written]. rewrite Hopen. cbn [negb].
  destruct (silent_receive timeout expectedId
              (mkPort (newUint8Array 0) true (incoming st) (written st ++ [packet])))
    as [H1 H2].
  cbn [written isOpen] in H1, H2. split; assumption.
Qed.

Lemma transmits_bind_one {A B : Type} (m : M PortState A) (k : A -> M PortState B)
      (st : PortState) (packet : Uint8Array) :
  transmits m st [packet] ->
  (forall a s, isOpen s = true -> exists more, transmits (k a) s more) ->
  exists more, transmits (bind m k) st (packet :: more).
Proof.
  intros [Hw Ho] Hk. unfold bind, transmits.
  destruct (m st) as [[a| |] s'] eqn:E; simpl in *.
  - destruct (Hk a s' Ho) as (more & Hw' & Ho'). exists more.
    rewrite Hw', Hw, <- app_assoc. split; [reflexivity | assumption].
  - exists []. split; assumption.
  - exists []. split; assumption.
Qed.

Lemma transmits_bind_silent {A B : Type} (m : M PortState A) (k : A -> M PortState B)
      (st : PortState) (packets : list Uint8Array) :
  transmits m st packets -> (forall a, silent (k a)) -> transmits (bind m k) st packets.
Proof.
  intros [Hw Ho] Hk. unfold bind, transmits.
  destruct (m st) as [[a| |] s'] eqn:E; simpl in *; try (split; assumption).
  destruct (Hk a s') as [H1 H2]. split; congruence.
Qed.

Lemma sendAndReceive_transmits (timeout : Z) (packet : Uint8Array) (expectedId : Z)
      (st : PortState) :
  isOpen st = true ->
  transmits (ProtocolHandler.sendAndReceive timeout packet expectedId) st [packet].
Proof. intros H. now apply sendAndReceive_written. Qed.

Lemma appends_silent {A : Type} (m : M PortState A) : silent m -> appends m.
Proof.
  intros H s Hs. exists []. destruct (H s) as [H1 H2]. unfold transmits.
  rewrite app_nil_r. split; congruence.
Qed.

Lemma appends_bind {A B : Type} (m : M PortState A) (k : A -> M PortState B) :
  appends m -> (forall a, appends (k a)) -> appends (bind m k).
Proof.
  intros Hm Hk s Hs. destruct (Hm s Hs) as (more & Hw & Ho). unfold bind, transmits.
  destruct (m s) as [[a| |] s'] eqn:E; simpl in *.
  - destruct (Hk a s' Ho) as (more' & Hw' & Ho'). exists (more ++ more').
    rewrite Hw', Hw, <- app_assoc. split; [reflexivity | assumption].
  - exists more. split; assumption.
  - exists more. split; assumption.
Qed.

Lemma appends_tryCatch {A : Type} (m : M PortState A) (handler : Exception -> M PortState A) :
  appends m -> (forall e, appends (handler e)) -> appends (tryCatch m handler).
Proof.
  intros Hm Hh s Hs. destruct (Hm s Hs) as (more & Hw & Ho). unfold tryCatch, transmits.
  destruct (m s) as [[a| |] s'] eqn:E; simpl in *.
  - exists more. split; assumption.
  - destruct (Hh e s' Ho) as (more' & Hw' & Ho'). exists (more ++ more').
    rewrite Hw', Hw, <- app_assoc. split; [reflexivity | assumption].
  - exists more. split; assumption.
Qed.

Lemma readData_transmits (timeout id address length : Z) (st : PortState) :
  isOpen st = true ->
  transmits (ProtocolHandler.readData timeout id address length) st
            [PacketHandler.createReadPacket id address length].
Proof.
  intros H. unfold ProtocolHandler.readData.
  apply transmits_bind_silent; [now apply sendAndReceive_transmits|].
  intros response. destruct (_ <? _); [apply silent_throwNew | apply silent_ret].
Qed.

Lemma writeData_transmits (timeout id address : Z) (data : Uint8Array) (st : PortState) :
  isOpen st = true ->
  transmits (ProtocolHandler.writeData timeout id address data) st
            [PacketHandler.createWritePacket id address data].
Proof.
  intros H. unfold ProtocolHandler.writeData.
  apply transmits_bind_silent; [now apply sendAndReceive_transmits|].
  intros _. apply silent_ret.
Qed.

Lemma createWritePacket_params (id address : Z) (data : Uint8Array) :
  PacketHandler.createWritePacket id address data
  = PacketHandler.createPacket id WRITE (Some (toUint8 address :: data)).
Proof.
  unfold PacketHandler.createWritePacket. f_equal. f_equal.
  replace (1 + len data) with (len [0] + len data) by reflexivity.
  rewrite newUint8Array_add by apply len_nonneg.
  replace (newUint8Array (len data)) with (repeat 0 (List.length data))
    by (unfold newUint8Array, len; now rewrite Nat2Z.id).
  cbn [List.length repeat app]. unfold setIndex. cbn [putIndex].
  pose proof (setArray_app data [toUint8 address] (repeat 0 (List.length data)) []
                (repeat_length 0 (List.length data))) as H.
  rewrite !app_nil_r in H. exact H.
Qed.

(** ** Replies *)

Lemma statusFrame_len (id error : Z) (parameters : Uint8Array) :
  len (statusFrame id error parameters) = 4 + (len parameters + 2).
Proof.
  unfold statusFrame. rewrite !len_app. unfold len. simpl List.length. lia.
Qed.

Lemma statusFrame_parse (id error : Z) (parameters : Uint8Array) :
  0 <= id < 256 -> len parameters <= 253 ->
  PacketHandler.parsePacket (statusFrame id error parameters)
  = Ok (ResponsePacket.mk id 0 parameters (len parameters + 2) error
          (PacketHandler.calculateChecksum ([id; len parameters + 2; error] ++ parameters))).
Proof. intros Hid Hp. exact (parsePacket_wellformed id error parameters Hid Hp). Qed.

(** [readData] when the device answers with a clean status frame carrying at
    least the bytes asked for. *)
Lemma readData_reply (timeout id address length : Z) (parameters rest : Uint8Array)
      (st : PortState) :
  0 <= id < 256 -> len parameters <= 253 -> length <= len parameters ->
  isOpen st = true ->
  lineData (incoming st) = statusFrame id 0 parameters ++ rest ->
  exists st',
    ProtocolHandler.readData timeout id address length st
    = (Ok (slice 0 length parameters), st')
    /\ pending st' = rest /\ isOpen st' = true.
Proof.
  intros Hid Hp Hlength Hopen Hline.
  unfold ProtocolHandler.readData, bind.
  destruct (sendAndReceive_extracts timeout id [] (statusFrame id 0 parameters) rest
              (ResponsePacket.mk id 0 parameters (len parameters + 2) 0
                 (PacketHandler.calculateChecksum ([id; len parameters + 2; 0] ++ parameters)))
              st (PacketHandler.createReadPacket id address length))
    as (st' & Hsr & Hpend & Hopen' & _).
  - intros i Hi. simpl in Hi. lia.
  - now apply statusFrame_parse.
  - apply statusFrame_len.
  - assumption.
  - exact Hline.
  - rewrite Hsr. unfold verifyResponse. cbn [ResponsePacket.id ResponsePacket.parameters].
    rewrite Z.eqb_refl. cbn [negb].
    change (PacketHandler.checkError _) with (@Ok unit tt). cbv iota.
    cbn [ResponsePacket.parameters].
    replace (len parameters <? length) with false by (symmetry; apply Z.ltb_ge; lia).
    exists st'. repeat split; assumption.
Qed.

(** ** 16-bit words *)

Lemma getLowByte_mod (v : Z) : getLowByte v = v mod 256.
Proof. unfold getLowByte. change 0xFF with (Z.ones 8). now rewrite Z.land_ones. Qed.

Lemma getHighByte_mod (v : Z) : getHighByte v = v / 256 mod 256.
Proof.
  unfold getHighByte. change 0xFF with (Z.ones 8).
  rewrite Z.land_ones, Z.shiftr_div_pow2 by lia. reflexivity.
Qed.

Lemma makeWord_bytes (v : Z) : makeWord (getLowByte v) (getHighByte v) = v mod 2 ^ 16.
Proof.
  unfold makeWord, getLowByte, getHighByte.
  rewrite <- (Z.land_ones v 16) by lia. change 0xFF with (Z.ones 8).
  apply Z.bits_inj'. intros n Hn.
  rewrite Z.lor_spec, Z.shiftl_spec, !Z.land_spec by lia.
  destruct (Z.lt_ge_cases n 8) as [H8|H8].
  - rewrite !(Z.testbit_neg_r _ (n - 8)) by lia.
    rewrite (Z.ones_spec_low 8 n), (Z.ones_spec_low 16 n) by lia. reflexivity.
  - rewrite Z.shiftr_spec by lia. replace (n - 8 + 8) with n by lia.
    rewrite (Z.ones_spec_high 8 n) by lia. rewrite andb_false_r, orb_false_r.
    destruct (Z.lt_ge_cases n 16) as [H16|H16].
    + rewrite (Z.ones_spec_low 8 (n - 8)), (Z.ones_spec_low 16 n) by lia. reflexivity.
    + rewrite (Z.ones_spec_high 16 n), (Z.ones_spec_high 8 (n - 8)) by lia.
      reflexivity.
Qed.

(** [C10].  The 16-bit word codec is little-endian and loses nothing below
    2^16: [makeWord (getLowByte v) (getHighByte v)] is [v mod 2^16], hence
    [v] itself for [0 <= v <= 65535]; [writeWord] puts the low byte first on
    the wire (parameters: address, low byte, high byte); and [readWord], on
    a reply carrying these two bytes, returns [v mod 2^16]. *)
Theorem word_codec_little_endian (v timeout id address : Z) :
  0 <= id < 256 ->
  makeWord (getLowByte v) (getHighByte v) = v mod 2 ^ 16
  /\ (0 <= v <= 65535 -> makeWord (getLowByte v) (getHighByte v) = v)
  /\ getLowByte v = v mod 256
  /\ getHighByte v = v / 256 mod 256
  /\ (forall st, isOpen st = true ->
        written (snd (ProtocolHandler.writeWord timeout id address v st))
        = written st
            ++ [PacketHandler.createPacket id WRITE
                  (Some [toUint8 address; v mod 256; v / 256 mod 256])])
  /\ (forall st rest, isOpen st = true ->
        lineData (incoming st)
        = statusFrame id 0 [v mod 256; v / 256 mod 256] ++ rest ->
        fst (ProtocolHandler.readWord timeout id address st) = Ok (v mod 2 ^ 16)).
Proof.
  intros Hid. split; [apply makeWord_bytes|]. split; [|split; [|split; [|split]]].
  - intros Hv. rewrite makeWord_bytes. apply Z.mod_small. change (2 ^ 16) with 65536. lia.
  - apply getLowByte_mod.
  - apply getHighByte_mod.
  - intros st Hopen. unfold ProtocolHandler.writeWord.
    destruct (writeData_transmits timeout id address
                [toUint8 (getLowByte v); toUint8 (getHighByte v)] st Hopen) as [Hw _].
    rewrite Hw, createWritePacket_params.
    rewrite getLowByte_mod, getHighByte_mod.
    rewrite (toUint8_small (v mod 256)), (toUint8_small (v / 256 mod 256))
      by (apply Z.mod_pos_bound; lia).
    reflexivity.
  - intros st rest Hopen Hline. unfold ProtocolHandler.readWord, bind.
    assert (Hcount : len [v mod 256; v / 256 mod 256] = 2) by reflexivity.
    destruct (readData_reply timeout id address 2 [v mod 256; v / 256 mod 256] rest st
                Hid ltac:(lia) ltac:(lia) Hopen Hline)
      as (st' & Hrd & _).
    rewrite Hrd. unfold ret. cbn [fst]. f_equal.
    change (slice 0 2 [v mod 256; v / 256 mod 256]) with [v mod 256; v / 256 mod 256].
    change (at_ [v mod 256; v / 256 mod 256] 0) with (v mod 256).
    change (at_ [v mod 256; v / 256 mod 256] 1) with (v / 256 mod 256).
    rewrite <- getLowByte_mod, <- getHighByte_mod. apply makeWord_bytes.
Qed.

Lemma word_codec_little_endian_witness :
  makeWord (getLowByte 0x1234) (getHighByte 0x1234) = 0x1234 mod 2 ^ 16
  /\ (0 <= 0x1234 <= 65535 -> makeWord (getLowByte 0x1234) (getHighByte 0x1234) = 0x1234)
  /\ getLowByte 0x1234 = 0x1234 mod 256
  /\ getHighByte 0x1234 = 0x1234 / 256 mod 256
  /\ (forall st, isOpen st = true ->
        written (snd (ProtocolHandler.writeWord 1000 5 42 0x1234 st))
        = written st
            ++ [PacketHandler.createPacket 5 WRITE
                  (Some [toUint8 42; 0x1234 mod 256; 0x1234 / 256 mod 256])])
  /\ (forall st rest, isOpen st = true ->
        lineData (incoming st)
        = statusFrame 5 0 [0x1234 mod 256; 0x1234 / 256 mod 256] ++ rest ->
        fst (ProtocolHandler.readWord 1000 5 42 st) = Ok (0x1234 mod 2 ^ 16)).
Proof. apply (word_codec_little_endian 0x1234 1000 5 42). lia. Defined.

(** ** The requests of the single-device operations *)

Lemma createPacket_id_byte (id : Z) (instruction : Instruction)
      (parameters : option Uint8Array) :
  at_ (PacketHandler.createPacket id instruction parameters) 2 = toUint8 id.
Proof. rewrite createPacket_layout. reflexivity. Qed.

Lemma appends_readData (timeout id address length : Z) :
  appends (ProtocolHandler.readData timeout id address length).
Proof.
  intros s Hs. eexists. now apply readData_transmits.
Qed.

Lemma ping_transmits (timeout id : Z) (st : PortState) :
  isOpen st = true ->
  exists more,
    transmits (ProtocolHandler.ping timeout id) st
              (PacketHandler.createPingPacket id :: more).
Proof.
  intros Hopen. unfold ProtocolHandler.ping.
  apply transmits_bind_one; [now apply sendAndReceive_transmits|].
  intros _ s Hs. revert s Hs.
  apply appends_tryCatch.
  - apply appends_bind; [apply appends_readData|]. intros modelData.
    apply appends_tryCatch.
    + apply appends_bind; [apply appends_readData|]. intros fwData.
      apply appends_silent, silent_ret.
    + intros e. apply appends_silent, silent_ret.
  - intros e. apply appends_silent, silent_ret.
Qed.

Lemma entryOrThrow_known (model dataName : string) (entry : ControlTableEntry)
      (st : PortState) :
  lookup model MODEL_CONTROL_TABLE = Some SCS_SERIES_CONTROL_TABLE ->
  lookup dataName SCS_SERIES_CONTROL_TABLE = Some entry ->
  ProtocolHandler.entryOrThrow model dataName st = (Ok entry, st).
Proof.
  intros Hmodel Hname.
  unfold ProtocolHandler.entryOrThrow, bind, call, getControlTableEntry.
  rewrite Hmodel, Hname. reflexivity.
Qed.

(** ** Group write *)

Lemma totalDataLength_itemBytes (items : list PacketHandler.SyncItem) (acc : Z) :
  fold_left (fun total item => total + (1 + len (PacketHandler.item_values item))) items acc
  = acc + len (itemBytes items).
Proof.
  revert acc. induction items as [|item items IH]; intros acc.
  - unfold len. simpl. lia.
  - cbn [fold_left]. rewrite IH. cbn [itemBytes flat_map]. fold (itemBytes items).
    cbn [app]. rewrite len_cons, len_app. lia.
Qed.

Lemma syncWrite_fill (items : list PacketHandler.SyncItem) :
  forall pre post,
    fold_left
      (fun '(params, offset) item =>
         let params := setIndex (Z.to_nat offset) (PacketHandler.item_id item) params in
         let params := setArray (PacketHandler.item_values item)
                                (Z.to_nat (offset + 1)) params in
         (params, offset + (1 + len (PacketHandler.item_values item))))
      items
      (pre ++ repeat 0 (List.length (itemBytes items)) ++ post, len pre)
    = (pre ++ itemBytes items ++ post, len pre + len (itemBytes items)).
Proof.
  induction items as [|item items IH]; intros pre post.
  - simpl. unfold len at 2. simpl. now rewrite Z.add_0_r.
  - cbn [fold_left itemBytes flat_map].
    fold (itemBytes items).
    set (id := toUint8 (PacketHandler.item_id item)).
    set (values := PacketHandler.item_values item).
    replace (List.length ((id :: values) ++ itemBytes items))
      with (S (List.length values + List.length (itemBytes items)))
      by (rewrite length_app; simpl; lia).
    cbn [repeat]. rewrite repeat_app.
    unfold setIndex. fold id.
    replace (Z.to_nat (len pre)) with (List.length pre) by (unfold len; lia).
    cbn [app]. rewrite putIndex_app.
    replace (Z.to_nat (len pre + 1)) with (List.length (pre ++ [id]))
      by (rewrite length_app; unfold len; simpl; lia).
    replace (pre ++ id :: (repeat 0 (List.length values)
                             ++ repeat 0 (List.length (itemBytes items))) ++ post)
      with ((pre ++ [id]) ++ repeat 0 (List.length values)
              ++ (repeat 0 (List.length (itemBytes items)) ++ post))
      by (rewrite <- !app_assoc; reflexivity).
    rewrite setArray_app by apply repeat_length.
    replace (len pre + (1 + len values)) with (len ((pre ++ [id]) ++ values))
      by (rewrite !len_app; change (len [id]) with 1; lia).
    replace ((pre ++ [id]) ++ values ++ repeat 0 (List.length (itemBytes items)) ++ post)
      with (((pre ++ [id]) ++ values) ++ repeat 0 (List.length (itemBytes items)) ++ post)
      by (rewrite <- !app_assoc; reflexivity).
    rewrite IH. f_equal.
    + rewrite <- !app_assoc. reflexivity.
    + rewrite len_cons, !len_app. change (len [id]) with 1. lia.
Qed.

Lemma createSyncWritePacket_params (address length : Z)
      (items : list PacketHandler.SyncItem) :
  PacketHandler.createSyncWritePacket address length items
  = PacketHandler.createPacket BROADCAST_ID SYNC_WRITE
      (Some ([toUint8 address; toUint8 length] ++ itemBytes items)).
Proof.
  unfold PacketHandler.createSyncWritePacket.
  rewrite totalDataLength_itemBytes. rewrite Z.add_0_l.
  replace (newUint8Array (2 + len (itemBytes items)))
    with ([0; 0] ++ repeat 0 (List.length (itemBytes items)) ++ []).
  2:{ unfold newUint8Array, len.
      replace (Z.to_nat (2 + Z.of_nat (List.length (itemBytes items))))
        with (S (S (List.length (itemBytes items)))) by lia.
      simpl. now rewrite app_nil_r. }
  change (setIndex 1 length
            (setIndex 0 address
               ([0; 0] ++ repeat 0 (List.length (itemBytes items)) ++ [])))
    with ([toUint8 address; toUint8 length]
            ++ repeat 0 (List.length (itemBytes items)) ++ []).
  pose proof (syncWrite_fill items [toUint8 address; toUint8 length] []) as H.
  match goal with
  | |- (let '(params, _) := ?e in _) = _ =>
      replace e with ([toUint8 address; toUint8 length] ++ itemBytes items ++ [],
                      len [toUint8 address; toUint8 length] + len (itemBytes items))
        by (symmetry; exact H)
  end.
  rewrite app_nil_r. reflexivity.
Qed.

Lemma itemBytes_entries (entries : list (Z * Uint8Array)) :
  itemBytes (map (fun '(id, data) => PacketHandler.mkItem id data) entries)
  = entryBytes entries.
Proof.
  induction entries as [|[id data] entries IH]; simpl; [reflexivity|].
  now rewrite IH.
Qed.

(** [txPacket] with at least one entry, on an open port: the buffer is
    flushed, one packet goes to the writer, nothing is read. *)
Lemma txPacket_sends (g : GroupSyncWrite.t) :
  GroupSyncWrite.dataMap g <> [] ->
  isOpen (GroupSyncWrite.portHandler g) = true ->
  GroupSyncWrite.txPacket g
  = (Ok tt,
     GroupSyncWrite.withPort g
       (mkPort [] true (incoming (GroupSyncWrite.portHandler g))
               (written (GroupSyncWrite.portHandler g)
                  ++ [PacketHandler.createPacket BROADCAST_ID SYNC_WRITE
                        (Some ([toUint8 (GroupSyncWrite.address g);
                                toUint8 (GroupSyncWrite.dataLength g)]
                                 ++ entryBytes (GroupSyncWrite.dataMap g)))]))).
Proof.
  intros Hne Hopen. unfold GroupSyncWrite.txPacket, bind, gets.
  replace (len (GroupSyncWrite.dataMap g) =? 0) with false.
  2:{ symmetry. apply Z.eqb_neq. unfold len.
      destruct (GroupSyncWrite.dataMap g); [congruence | simpl; lia]. }
  rewrite createSyncWritePacket_params, itemBytes_entries.
  unfold GroupSyncWrite.onPort, WebSerialPortHandler.flush, WebSerialPortHandler.write.
  cbn [GroupSyncWrite.portHandler GroupSyncWrite.withPort isOpen readBuffer incoming
       written GroupSyncWrite.address GroupSyncWrite.dataLength GroupSyncWrite.dataMap].
  rewrite Hopen. reflexivity.
Qed.

(** *** The entry map after a sequence of [addParam] calls *)

Lemma mapSet_absent (k : Z) (v : Uint8Array) (m : list (Z * Uint8Array)) :
  ~ In k (map fst m) -> mapSet k v m = m ++ [(k, v)].
Proof.
  induction m as [|[k' v'] m IH]; intros Hin; simpl; [reflexivity|].
  destruct (k' =? k) eqn:E.
  - apply Z.eqb_eq in E. subst k'. exfalso. apply Hin. now left.
  - rewrite IH; [reflexivity|]. intros H. apply Hin. now right.
Qed.

Lemma mapSet_present (k : Z) (v : Uint8Array) (m : list (Z * Uint8Array)) :
  In k (map fst m) -> NoDup (map fst m) ->
  mapSet k v m = map (fun e => (fst e, if fst e =? k then v else snd e)) m.
Proof.
  induction m as [|[k' v'] m IH]; intros Hin Hnd; simpl in *; [contradiction|].
  inversion Hnd as [|? ? Hnot Hnd']; subst.
  destruct (k' =? k) eqn:E.
  - apply Z.eqb_eq in E. subst k'. f_equal.
    rewrite <- (map_id m) at 1. apply map_ext_in. intros [k2 v2] H2. simpl.
    destruct (k2 =? k) eqn:E2; [|reflexivity].
    apply Z.eqb_eq in E2. subst k2. exfalso. apply Hnot.
    change k with (fst (k, v2)). now apply in_map.
  - f_equal. apply IH; [|assumption].
    destruct Hin as [Hin|Hin]; [|assumption]. apply Z.eqb_neq in E. congruence.
Qed.

Lemma mapSet_keys_NoDup (k : Z) (v : Uint8Array) (m : list (Z * Uint8Array)) :
  NoDup (map fst m) -> NoDup (map fst (mapSet k v m)).
Proof.
  intros Hnd. destruct (in_dec Z.eq_dec k (map fst m)) as [Hin|Hin].
  - rewrite mapSet_present by assumption. rewrite map_map. simpl. exact Hnd.
  - rewrite mapSet_absent by assumption. rewrite map_app. simpl.
    apply NoDup_app; [exact Hnd | repeat constructor; intros [] |].
    intros x Hx [Hk|[]]. subst x. contradiction.
Qed.

Lemma existsb_eqb_In (x : Z) (l : list Z) : existsb (Z.eqb x) l = true <-> In x l.
Proof.
  rewrite existsb_exists. split.
  - intros (y & Hy & Hxy). apply Z.eqb_eq in Hxy. now subst y.
  - intros H. exists x. split; [assumption | apply Z.eqb_refl].
Qed.

Lemma existsb_eqb_ext (x : Z) (l l' : list Z) :
  (forall y, In y l <-> In y l') -> existsb (Z.eqb x) l = existsb (Z.eqb x) l'.
Proof.
  intros H. apply eq_true_iff_eq. rewrite !existsb_eqb_In. apply H.
Qed.

Lemma firstOccurrences_seen (ids : list Z) :
  forall seen seen',
    (forall x, In x seen <-> In x seen') ->
    firstOccurrences seen ids = firstOccurrences seen' ids.
Proof.
  induction ids as [|id ids IH]; intros seen seen' Heq; simpl; [reflexivity|].
  assert (Hb : existsb (Z.eqb id) seen = existsb (Z.eqb id) seen')
    by now apply existsb_eqb_ext.
  rewrite Hb. destruct (existsb (Z.eqb id) seen').
  - now apply IH.
  - f_equal. apply IH. intros x. simpl. rewrite Heq. reflexivity.
Qed.

Lemma firstOccurrences_fresh (ids : list Z) :
  forall seen x, In x (firstOccurrences seen ids) -> ~ In x seen.
Proof.
  induction ids as [|id ids IH]; intros seen x Hin; simpl in Hin; [contradiction|].
  destruct (existsb (Z.eqb id) seen) eqn:E.
  - now apply IH.
  - destruct Hin as [Hin|Hin].
    + subst x. intros H. apply existsb_eqb_In in H. congruence.
    + apply IH in Hin. intros H. apply Hin. now right.
Qed.

(** The map built by the calls: the entries already there keep their place
    and get the value added last for their id; the new ids follow in the
    order of their first addition, each with the value added last for it. *)
Lemma mapSetAll_entries (adds : list (Z * Uint8Array)) :
  forall m,
    NoDup (map fst m) ->
    mapSetAll adds m
    = map (fun e => (fst e, lastAdded (fst e) adds (snd e))) m
      ++ map (fun id => (id, lastAdded id adds []))
             (firstOccurrences (map fst m) (map fst adds)).
Proof.
  induction adds as [|[k v] adds IH]; intros m Hnd.
  - simpl. rewrite app_nil_r. rewrite <- (map_id m) at 1.
    apply map_ext. now intros [k v].
  - unfold mapSetAll in *. cbn [fold_left fst snd]. rewrite IH by now apply mapSet_keys_NoDup.
    cbn [map fst firstOccurrences lastAdded].
    destruct (existsb (Z.eqb k) (map fst m)) eqn:E.
    + assert (Hin : In k (map fst m)) by now apply existsb_eqb_In.
      rewrite mapSet_present by assumption. rewrite !map_map. cbn [fst snd].
      f_equal.
      * apply map_ext. intros [k' v']. cbn [fst snd]. rewrite (Z.eqb_sym k k').
        reflexivity.
      * apply map_ext_in. intros id Hid. apply firstOccurrences_fresh in Hid.
        replace (k =? id) with false; [reflexivity|].
        symmetry. apply Z.eqb_neq. intros ->. contradiction.
    + assert (Hin : ~ In k (map fst m))
        by (intros H; apply existsb_eqb_In in H; congruence).
      rewrite mapSet_absent by assumption. rewrite !map_app. cbn [map fst snd].
      rewrite <- app_assoc. cbn [app]. rewrite Z.eqb_refl. f_equal.
      * apply map_ext_in. intros [k' v'] Hk'. cbn [fst snd].
        replace (k =? k') with false; [reflexivity|].
        symmetry. apply Z.eqb_neq. intros ->. apply Hin.
        change k' with (fst (k', v')). now apply in_map.
      * f_equal.
        rewrite (firstOccurrences_seen (map fst adds) (map fst m ++ [k]) (k :: map fst m)).
        2:{ intros x. rewrite in_app_iff. simpl. tauto. }
        apply map_ext_in. intros id Hid. apply firstOccurrences_fresh in Hid.
        replace (k =? id) with false; [reflexivity|].
        symmetry. apply Z.eqb_neq. intros ->. apply Hid. now left.
Qed.

Lemma addParam_ok (id : Z) (data : Uint8Array) (g : GroupSyncWrite.t) :
  len data = GroupSyncWrite.dataLength g ->
  GroupSyncWrite.addParam id data g
  = (Ok tt, GroupSyncWrite.withDataMap g (mapSet id data (GroupSyncWrite.dataMap g))).
Proof.
  intros H. unfold GroupSyncWrite.addParam, bind, gets, modify.
  rewrite H, Z.eqb_refl. reflexivity.
Qed.

Lemma addParams_run (adds : list (Z * Uint8Array)) :
  forall g,
    (forall id data, In (id, data) adds -> len data = GroupSyncWrite.dataLength g) ->
    addParams adds g
    = (Ok tt, GroupSyncWrite.withDataMap g (mapSetAll adds (GroupSyncWrite.dataMap g))).
Proof.
  induction adds as [|[id data] adds IH]; intros g Hw.
  - destruct g. reflexivity.
  - cbn [addParams]. unfold bind. rewrite addParam_ok by (apply (Hw id data); now left).
    rewrite IH by (intros id' data' Hin; apply (Hw id' data'); now right).
    reflexivity.
Qed.

(** [C6].  Layout of the group write.  After a non-empty sequence of
    [addParam] calls (each with data of the configured width) on an empty
    batch, [txPacket] on an open port flushes the buffer and hands exactly
    one packet to the writer: header, the broadcast id 0xFE, the length byte,
    the SYNC_WRITE instruction 0x83, the parameters, the checksum.  The
    parameters are the register address and the width, then for each id, in
    the order in which the ids were first added, the id and the value added
    last for it.  Nothing is read: what the line delivers stays untouched. *)
Theorem group_write_packet_layout
        (g : GroupSyncWrite.t) (adds : list (Z * Uint8Array)) :
  GroupSyncWrite.dataMap g = [] ->
  adds <> [] ->
  (forall id data, In (id, data) adds -> len data = GroupSyncWrite.dataLength g) ->
  isOpen (GroupSyncWrite.portHandler g) = true ->
  let entries := map (fun id => (id, lastAdded id adds []))
                     (firstOccurrences [] (map fst adds)) in
  let params := [toUint8 (GroupSyncWrite.address g); toUint8 (GroupSyncWrite.dataLength g)]
                  ++ entryBytes entries in
  let covered := [0xFE; toUint8 (len params + 2); 0x83] ++ params in
  exists g',
    (addParams adds ;; GroupSyncWrite.txPacket) g = (Ok tt, g')
    /\ GroupSyncWrite.dataMap g' = entries
    /\ written (GroupSyncWrite.portHandler g')
       = written (GroupSyncWrite.portHandler g)
           ++ [[0xFF; 0xFF] ++ covered ++ [PacketHandler.calculateChecksum covered]]
    /\ incoming (GroupSyncWrite.portHandler g') = incoming (GroupSyncWrite.portHandler g)
    /\ readBuffer (GroupSyncWrite.portHandler g') = [].
Proof.
  intros Hempty Hadds Hwidth Hopen. cbv zeta.
  unfold bind. rewrite addParams_run by assumption.
  rewrite Hempty, mapSetAll_entries by constructor. cbn [map app].
  set (entries := map (fun id => (id, lastAdded id adds []))
                      (firstOccurrences [] (map fst adds))).
  assert (Hne : entries <> []).
  { subst entries. destruct adds as [|[k v] adds]; [congruence|]. simpl. discriminate. }
  rewrite txPacket_sends by assumption.
  eexists. split; [reflexivity|].
  cbn [GroupSyncWrite.withPort GroupSyncWrite.withDataMap GroupSyncWrite.portHandler
       GroupSyncWrite.dataMap GroupSyncWrite.address GroupSyncWrite.dataLength
       written incoming readBuffer].
  split; [reflexivity|]. split; [|split; reflexivity].
  rewrite createPacket_layout. reflexivity.
Qed.

Lemma group_write_packet_layout_witness :
  let g := GroupSyncWrite.mk (mkPort [0x09] true [Data [0x01; 0x02]] []) 42 2 [] in
  let adds := [(1, [0x00; 0x02]); (2, [0x00; 0x03]); (3, [0x00; 0x01]);
               (1, [0xFF; 0x0F])] in
  exists g',
    (addParams adds ;; GroupSyncWrite.txPacket) g = (Ok tt, g')
    /\ written (GroupSyncWrite.portHandler g')
       = [[0xFF; 0xFF; 0xFE; 0x0D; 0x83; 42; 2;
           1; 0xFF; 0x0F; 2; 0x00; 0x03; 3; 0x00; 0x01; 0x2D]]
    /\ incoming (GroupSyncWrite.portHandler g') = [Data [0x01; 0x02]].
Proof.
  cbv zeta.
  destruct (group_write_packet_layout
              (GroupSyncWrite.mk (mkPort [0x09] true [Data [0x01; 0x02]] []) 42 2 [])
              [(1, [0x00; 0x02]); (2, [0x00; 0x03]); (3, [0x00; 0x01]); (1, [0xFF; 0x0F])])
    as (g' & Hrun & _ & Hwritten & Hincoming & _).
  - reflexivity.
  - discriminate.
  - intros id data Hin. simpl in Hin.
    repeat (destruct Hin as [Hin|Hin]; [injection Hin as <- <-; reflexivity|]).
    contradiction.
  - reflexivity.
  - exists g'. split; [exact Hrun|]. split; [|exact Hincoming].
    rewrite Hwritten. vm_compute. reflexivity.
Defined.

(** [C9].  Caller misuse of the group write.  [addParam] raises
    [INVALID_PARAMETER] (for that id) exactly when the length of the data
    differs from the configured width, and then leaves the batch as it was;
    otherwise it sets the entry.  [txPacket] raises [INVALID_PARAMETER]
    exactly when the entry map is empty, and then leaves the port as it was:
    nothing is flushed or written.  With entries it returns normally on an
    open port and raises [CONNECTION_LOST] on a closed one. *)
Theorem group_write_misuse (g : GroupSyncWrite.t) (id : Z) (data : Uint8Array) :
  (if len data =? GroupSyncWrite.dataLength g
   then GroupSyncWrite.addParam id data g
        = (Ok tt, GroupSyncWrite.withDataMap g (mapSet id data (GroupSyncWrite.dataMap g)))
   else exists e,
          GroupSyncWrite.addParam id data g = (Throw (ServoErr e), g)
          /\ code e = INVALID_PARAMETER /\ deviceId e = Some id)
  /\
  (match GroupSyncWrite.dataMap g with
   | [] => exists e,
             GroupSyncWrite.txPacket g = (Throw (ServoErr e), g)
             /\ code e = INVALID_PARAMETER
   | _ :: _ =>
       fst (GroupSyncWrite.txPacket g)
       = if isOpen (GroupSyncWrite.portHandler g) then Ok tt
         else throwServoError "Port is not connected" CONNECTION_LOST None
   end).
Proof.
  split.
  - destruct (len data =? GroupSyncWrite.dataLength g) eqn:E.
    + apply addParam_ok. now apply Z.eqb_eq.
    + unfold GroupSyncWrite.addParam, bind, gets, throwNew, throw. rewrite E.
      eexists. repeat split.
  - destruct (GroupSyncWrite.dataMap g) as [|entry entries] eqn:Emap.
    + unfold GroupSyncWrite.txPacket, bind, gets, throwNew, throw. rewrite Emap.
      eexists. repeat split.
    + destruct (isOpen (GroupSyncWrite.portHandler g)) eqn:Eopen.
      * rewrite txPacket_sends; [reflexivity | congruence | assumption].
      * unfold GroupSyncWrite.txPacket, bind, gets. rewrite Emap.
        change (len (entry :: entries) =? 0) with (Z.pos (Pos.of_succ_nat (List.length entries)) =? 0).
        cbn [Z.eqb].
        unfold GroupSyncWrite.onPort, WebSerialPortHandler.flush, WebSerialPortHandler.write.
        cbn [GroupSyncWrite.portHandler GroupSyncWrite.withPort isOpen].
        rewrite Eopen. reflexivity.
Qed.

(** ** Group read *)

(** Device 2 never answers and the line stays silent until the read for id 2
    has timed out; the reply of device 3 comes after that.  The stale results
    are gone and the result map holds exactly the ids 1 and 3. *)
Lemma txRxPacket_timeout_tolerated :
  let g := groupRead123 [Data reply1; Silence; Data reply3] in
  exists g',
    GroupSyncRead.txRxPacket g = (Ok tt, g')
    /\ GroupSyncRead.dataMap g' = [(1, [0x07; 0x08]); (3, [0x09; 0x0A])]
    /\ fst (GroupSyncRead.getData 2 g') = Ok None
    /\ written (GroupSyncRead.portHandler g')
       = [PacketHandler.createPacket BROADCAST_ID SYNC_READ (Some [56; 2; 1; 2; 3])].
Proof.
  cbv zeta.
  exists (snd (GroupSyncRead.txRxPacket (groupRead123 [Data reply1; Silence; Data reply3]))).
  split; [|split; [|split]]; vm_compute; reflexivity.
Qed.

(** The results cached by an earlier run play no part in a run. *)
Lemma txRxPacket_discards_cache (g : GroupSyncRead.t) (stale : list (Z * Uint8Array)) :
  GroupSyncRead.idList g <> [] ->
  GroupSyncRead.txRxPacket (GroupSyncRead.withDataMap g stale)
  = GroupSyncRead.txRxPacket (GroupSyncRead.withDataMap g []).
Proof.
  intros Hids. unfold GroupSyncRead.txRxPacket, bind, gets, modify.
  cbn [GroupSyncRead.withDataMap GroupSyncRead.idList GroupSyncRead.portHandler
       GroupSyncRead.address GroupSyncRead.dataLength GroupSyncRead.timeout].
  destruct (len (GroupSyncRead.idList g) =? 0) eqn:E; [|reflexivity].
  apply Z.eqb_eq in E. unfold len in E.
  destruct (GroupSyncRead.idList g); [congruence | simpl in E; lia].
Qed.

(** A read that fails for one id leaves the result map as it is and the loop
    goes on with the ids that follow. *)
Lemma readResponses_failure_skipped (id : Z) (ids : list Z) (g g1 : GroupSyncRead.t)
      (e : Exception) :
  GroupSyncRead.readResponse id g = (Throw e, g1) ->
  GroupSyncRead.readResponses (id :: ids) g = GroupSyncRead.readResponses ids g1
  /\ GroupSyncRead.dataMap g1 = GroupSyncRead.dataMap g.
Proof.
  intros H. split.
  - cbn [GroupSyncRead.readResponses]. unfold bind at 1. unfold tryCatch, bind.
    rewrite H. reflexivity.
  - unfold GroupSyncRead.readResponse, GroupSyncRead.onPort in H.
    destruct (Receive.receive _ _ _) as [r p]. injection H as _ <-. reflexivity.
Qed.

(** [C5], where the code departs from it.  Device 2 never answers and the
    reply of device 3 follows that of device 1 on the line.  The read for
    id 2 takes the reply of device 3 and drops it for its id; the read for
    id 3 then finds the line silent.  The result map holds id 1 only: the
    data of device 3, which answered, is lost. *)
Theorem txRxPacket_loses_reply_after_missing_id :
  let g := groupRead123 [Data (reply1 ++ reply3)] in
  GroupSyncRead.idList g = [1; 2; 3]
  /\ PacketHandler.parsePacket reply1 = Ok (ResponsePacket.mk 1 0 [0x07; 0x08] 4 0 0xEB)
  /\ PacketHandler.parsePacket reply3 = Ok (ResponsePacket.mk 3 0 [0x09; 0x0A] 4 0 0xE5)
  /\ exists g',
       GroupSyncRead.txRxPacket g = (Ok tt, g')
       /\ GroupSyncRead.dataMap g' = [(1, [0x07; 0x08])]
       /\ fst (GroupSyncRead.getData 3 g') = Ok None.
Proof.
  cbv zeta. split; [reflexivity|]. split; [vm_compute; reflexivity|].
  split; [vm_compute; reflexivity|].
  exists (snd (GroupSyncRead.txRxPacket (groupRead123 [Data (reply1 ++ reply3)]))).
  split; [|split]; vm_compute; reflexivity.
Qed.

(* ------------------------------------------------------------------ *)
(** ** Framing of the packets the code builds *)

(** The framing tests of [PacketHandler] on the packets [createPacket]
    builds with at most 253 parameter bytes: the packet starts like a packet
    and the length announced by its fourth byte is its length. *)
Theorem createPacket_framing (id : Z) (instruction : Instruction)
        (parameters : option Uint8Array) :
  len (paramBytes parameters) <= 253 ->
  let packet := PacketHandler.createPacket id instruction parameters in
  PacketHandler.isValidPacketStart packet = true
  /\ PacketHandler.getPacketLength packet = Some (len packet)
  /\ len packet = 6 + len (paramBytes parameters).
Proof.
  intros Hp packet. subst packet. rewrite createPacket_layout. cbv zeta.
  set (p := paramBytes parameters) in *.
  pose proof (len_nonneg p) as Hp0.
  assert (Hlen : len ([255; 255] ++ ([toUint8 id; toUint8 (len p + 2);
                                       instructionCode instruction] ++ p)
                        ++ [PacketHandler.calculateChecksum
                              ([toUint8 id; toUint8 (len p + 2);
                                instructionCode instruction] ++ p)])
                 = 6 + len p).
  { unfold len. rewrite !length_app. simpl List.length. lia. }
  split; [|split].
  - unfold PacketHandler.isValidPacketStart. rewrite Hlen.
    replace (2 <=? 6 + len p) with true by (symmetry; apply Z.leb_le; lia).
    reflexivity.
  - unfold PacketHandler.getPacketLength. rewrite Hlen.
    replace (6 + len p <? 4) with false by (symmetry; apply Z.ltb_ge; lia).
    f_equal.
    change (at_ _ 3) with (toUint8 (len p + 2)).
    rewrite toUint8_small by lia.
    unfold HEADER_LENGTH, ID_LENGTH, LENGTH_LENGTH. lia.
  - exact Hlen.
Qed.

Lemma createPacket_framing_witness :
  let packet := PacketHandler.createPacket 1 WRITE (Some [42; 0; 8]) in
  PacketHandler.isValidPacketStart packet = true
  /\ PacketHandler.getPacketLength packet = Some (len packet)
  /\ len packet = 6 + len (paramBytes (Some [42; 0; 8])).
Proof. apply (createPacket_framing 1 WRITE (Some [42; 0; 8])). vm_compute. discriminate. Defined.

(* ------------------------------------------------------------------ *)
(** ** Corrupted frames *)

Lemma byteSum_app (a b : Uint8Array) : byteSum (a ++ b) = byteSum a + byteSum b.
Proof.
  induction a as [|x a IH]; [reflexivity|].
  simpl app. rewrite !byteSum_cons, IH. lia.
Qed.

Lemma putIndex_length (i : nat) (b : Z) (a : Uint8Array) :
  List.length (putIndex i b a) = List.length a.
Proof.
  revert i. induction a as [|x a IH]; intros [|i]; simpl; try reflexivity.
  now rewrite IH.
Qed.

Lemma putIndex_split (i : nat) (b : Z) (a : Uint8Array) :
  (i < List.length a)%nat ->
  exists pre post,
    a = pre ++ nth i a 0 :: post /\ List.length pre = i
    /\ putIndex i b a = pre ++ b :: post.
Proof.
  revert i. induction a as [|x a IH]; intros [|i] Hi; simpl in Hi; try lia.
  - exists [], a. repeat split.
  - destruct (IH i ltac:(lia)) as (pre & post & Ha & Hlen & Hput).
    exists (x :: pre), post. simpl. repeat split; [congruence | congruence | ].
    now rewrite Hput.
Qed.

Lemma putIndex_app_l (i : nat) (b : Z) (a c : Uint8Array) :
  (i < List.length a)%nat -> putIndex i b (a ++ c) = putIndex i b a ++ c.
Proof.
  revert i. induction a as [|x a IH]; intros [|i] Hi; simpl in Hi; try lia.
  - reflexivity.
  - simpl. now rewrite IH by lia.
Qed.

Lemma nth_putIndex_other (i k : nat) (b : Z) (a : Uint8Array) :
  i <> k -> nth k (putIndex i b a) 0 = nth k a 0.
Proof.
  revert i k. induction a as [|x a IH]; intros [|i] [|k] H; simpl; try reflexivity;
    try congruence.
  apply IH. congruence.
Qed.

(** A frame whose length byte agrees with its size is accepted exactly when
    its last byte is the checksum of the bytes between header and checksum. *)
Lemma parsePacket_framed (covered : Uint8Array) (cs : Z) :
  3 <= len covered -> at_ covered 1 = len covered - 1 ->
  if cs =? 255 - byteSum covered mod 256
  then exists response, PacketHandler.parsePacket (0xFF :: 0xFF :: covered ++ [cs]) = Ok response
  else exists e, PacketHandler.parsePacket (0xFF :: 0xFF :: covered ++ [cs]) = Throw (ServoErr e)
                 /\ code e = CHECKSUM_ERROR /\ deviceId e = Some (at_ covered 0).
Proof.
  intros H3 HL.
  pose proof (parsePacket_cases (0xFF :: 0xFF :: covered ++ [cs])) as H. cbv zeta in H.
  assert (Hlen : len (0xFF :: 0xFF :: covered ++ [cs]) = len covered + 3).
  { unfold len. simpl List.length. rewrite length_app. simpl List.length. lia. }
  assert (HL' : at_ (0xFF :: 0xFF :: covered ++ [cs]) 3 = len covered - 1).
  { rewrite <- HL. unfold at_. change (Z.to_nat 3) with 3%nat. change (Z.to_nat 1) with 1%nat.
    simpl nth. apply app_nth1. unfold len in H3. lia. }
  assert (Hid : at_ (0xFF :: 0xFF :: covered ++ [cs]) 2 = at_ covered 0).
  { unfold at_. change (Z.to_nat 2) with 2%nat. change (Z.to_nat 0) with 0%nat.
    simpl nth. apply app_nth1. unfold len in H3. lia. }
  rewrite HL', Hlen, Hid in H.
  change (at_ (255 :: 255 :: covered ++ [cs]) 0) with 255 in H.
  change (at_ (255 :: 255 :: covered ++ [cs]) 1) with 255 in H.
  replace (len covered + 3 <? 6) with false in H by (symmetry; apply Z.ltb_ge; lia).
  replace (len covered + 3 <? 4 + (len covered - 1)) with false in H
    by (symmetry; apply Z.ltb_ge; lia).
  change (255 =? 255) with true in H. cbn [negb orb] in H.
  replace (3 + (len covered - 1)) with (2 + len covered) in H by lia.
  rewrite slice_covered in H.
  replace (at_ (255 :: 255 :: covered ++ [cs]) (2 + len covered)) with cs in H.
  - destruct (cs =? 255 - byteSum covered mod 256); cbn [negb] in H.
    + eexists. exact H.
    + exact H.
  - unfold at_, len. replace (Z.to_nat (2 + Z.of_nat (List.length covered)))
      with (S (S (List.length covered))) by lia.
    simpl nth. symmetry. apply nth_middle.
Qed.

Lemma nth_isBytes (a : Uint8Array) (i : nat) :
  isBytes a -> (i < List.length a)%nat -> 0 <= nth i a 0 < 256.
Proof.
  intros Ha Hi. unfold isBytes in Ha. rewrite Forall_forall in Ha.
  apply Ha. now apply nth_In.
Qed.

Lemma byte_change_detected (s x b : Z) :
  0 <= x < 256 -> 0 <= b < 256 -> b <> x ->
  (s + b) mod 256 <> (s + x) mod 256.
Proof.
  intros Hx Hb Hne Heq.
  pose proof (Z.div_mod (s + b) 256 ltac:(lia)) as H1.
  pose proof (Z.div_mod (s + x) 256 ltac:(lia)) as H2.
  rewrite Heq in H1. lia.
Qed.

(** Single-byte corruption.  In a status frame received from a device, let
    one byte other than the header and the length byte (the id, the error
    byte, a parameter byte or the checksum) be replaced by a different
    byte.  [parsePacket] rejects the frame with CHECKSUM_ERROR. *)
Theorem parsePacket_detects_corruption
        (id error : Z) (parameters : Uint8Array) (i : nat) (b : Z) :
  0 <= id < 256 -> 0 <= error < 256 -> isBytes parameters -> len parameters <= 253 ->
  (2 <= i < List.length (statusFrame id error parameters))%nat -> i <> 3%nat ->
  0 <= b < 256 -> b <> nth i (statusFrame id error parameters) 0 ->
  exists e,
    PacketHandler.parsePacket (putIndex i b (statusFrame id error parameters))
    = Throw (ServoErr e)
    /\ code e = CHECKSUM_ERROR.
Proof.
  intros Hid Herr Hbytes Hlen Hi Hi3 Hb Hne.
  unfold statusFrame in *. cbv zeta in *.
  set (covered := [id; len parameters + 2; error] ++ parameters) in *.
  set (cs := PacketHandler.calculateChecksum covered) in *.
  pose proof (len_nonneg parameters) as Hp0.
  assert (Hcov : List.length covered = (3 + List.length parameters)%nat) by reflexivity.
  assert (HcovB : isBytes covered).
  { unfold covered. simpl app. repeat constructor; try lia. exact Hbytes. }
  assert (HL0 : at_ covered 1 = len covered - 1).
  { change (at_ covered 1) with (len parameters + 2). unfold len. rewrite Hcov. lia. }
  destruct i as [|[|j]]; try lia.
  change (putIndex (S (S j)) b ([255; 255] ++ covered ++ [cs]))
    with (255 :: 255 :: putIndex j b (covered ++ [cs])).
  change (nth (S (S j)) ([255; 255] ++ covered ++ [cs]) 0)
    with (nth j (covered ++ [cs]) 0) in Hne.
  assert (Hj : (j <= List.length covered)%nat).
  { simpl List.length in Hi. rewrite length_app in Hi. simpl List.length in Hi. lia. }
  destruct (Nat.eq_dec j (List.length covered)) as [->|Hj'].
  - (* the checksum byte *)
    rewrite putIndex_app. rewrite nth_middle in Hne.
    pose proof (parsePacket_framed covered b) as H.
    specialize (H ltac:(unfold len; lia) HL0).
    replace (b =? 255 - byteSum covered mod 256) with false in H.
    + destruct H as (e & H & Hc & _). exists e. now split.
    + symmetry. apply Z.eqb_neq. intros ->. apply Hne.
      unfold cs. now rewrite calculateChecksum_arith.
  - (* a byte covered by the checksum *)
    assert (Hjlt : (j < List.length covered)%nat) by lia.
    rewrite putIndex_app_l by exact Hjlt.
    rewrite app_nth1 in Hne by exact Hjlt.
    destruct (putIndex_split j b covered Hjlt) as (pre & post & Hsplit & Hpre & Hput).
    pose proof (nth_isBytes covered j HcovB Hjlt) as Hx.
    pose proof (parsePacket_framed (putIndex j b covered) cs) as H.
    assert (Hlen' : len (putIndex j b covered) = len covered).
    { unfold len. now rewrite putIndex_length. }
    rewrite Hlen' in H.
    assert (HL : at_ (putIndex j b covered) 1 = len covered - 1).
    { unfold at_. change (Z.to_nat 1) with 1%nat.
      rewrite nth_putIndex_other by lia. exact HL0. }
    specialize (H ltac:(unfold len; lia) HL).
    replace (cs =? 255 - byteSum (putIndex j b covered) mod 256) with false in H.
    + destruct H as (e & H & Hc & _). exists e. now split.
    + symmetry. apply Z.eqb_neq. unfold cs. rewrite calculateChecksum_arith.
      rewrite Hput. rewrite Hsplit at 1.
      rewrite !byteSum_app, !byteSum_cons.
      pose proof (byte_change_detected (byteSum pre + byteSum post) (nth j covered 0) b
                    Hx Hb Hne) as Hd.
      replace (byteSum pre + (nth j covered 0 + byteSum post))
        with (byteSum pre + byteSum post + nth j covered 0) by lia.
      replace (byteSum pre + (b + byteSum post))
        with (byteSum pre + byteSum post + b) by lia.
      lia.
Qed.

Lemma parsePacket_detects_corruption_witness :
  exists e,
    PacketHandler.parsePacket (putIndex 5 0x35 (statusFrame 5 0 [0x34; 0x12]))
    = Throw (ServoErr e)
    /\ code e = CHECKSUM_ERROR.
Proof.
  apply (parsePacket_detects_corruption 5 0 [0x34; 0x12] 5 0x35);
    try lia; try (vm_compute; lia); try (vm_compute; discriminate).
  repeat constructor; lia.
Defined.

(* ------------------------------------------------------------------ *)
(** ** The port: waits that time out, reads in sequence *)

(** A wait for [n] bytes on a line that pauses before it has delivered them:
    the wait fails and the bytes that did arrive are in the buffer. *)
Lemma poll_short (predicate : Uint8Array -> bool) (n : Z) (line : list Arrival) :
  (forall buf, predicate buf = (n <=? len buf)) ->
  forall buffer,
    len (buffer ++ lineData line) < n ->
    WebSerialPortHandler.poll predicate line buffer
    = (false, buffer ++ lineData line, afterPause line).
Proof.
  intros Hpred. induction line as [|[bytes|] line IH]; intros buffer Hn; simpl.
  - rewrite Hpred. simpl in Hn. rewrite app_nil_r in *.
    replace (n <=? len buffer) with false by (symmetry; now apply Z.leb_gt).
    reflexivity.
  - rewrite Hpred. simpl in Hn.
    replace (n <=? len buffer) with false.
    + rewrite appendToBuffer_app, IH by now rewrite <- app_assoc.
      now rewrite <- app_assoc.
    + symmetry. apply Z.leb_gt. rewrite len_app in Hn.
      pose proof (len_nonneg (bytes ++ lineData line)). lia.
  - rewrite Hpred. simpl in Hn. rewrite app_nil_r in *.
    replace (n <=? len buffer) with false by (symmetry; now apply Z.leb_gt).
    reflexivity.
Qed.

Lemma read_predicate (n : Z) (buf : Uint8Array) :
  negb (len buf <? n) = (n <=? len buf).
Proof.
  destruct (len buf <? n) eqn:E; simpl; symmetry.
  - apply Z.leb_gt. now apply Z.ltb_lt.
  - apply Z.leb_le. now apply Z.ltb_ge.
Qed.

Lemma read_short (n : Z) (st : PortState) :
  isOpen st = true -> len (pending st) < n ->
  WebSerialPortHandler.read n st
  = (throwServoError ("Read timeout: expected " ++ decimal n ++ " bytes, got "
                        ++ decimal (len (pending st)))%string TIMEOUT None,
     mkPort (pending st) true (afterPause (incoming st)) (written st)).
Proof.
  intros Hopen Hn. unfold WebSerialPortHandler.read. rewrite Hopen. cbn [negb].
  rewrite (poll_short _ n) by (try apply read_predicate; exact Hn).
  reflexivity.
Qed.

(** A read that times out takes nothing: the bytes that arrived before the
    pause are all in the buffer, and a later read of at most that many bytes
    returns the first of them. *)
Theorem read_timeout_keeps_bytes (n m : Z) (st : PortState) :
  isOpen st = true -> len (pending st) < n -> 0 <= m <= len (pending st) ->
  exists e st',
    WebSerialPortHandler.read n st = (Throw (ServoErr e), st')
    /\ code e = TIMEOUT
    /\ readBuffer st' = pending st
    /\ written st' = written st
    /\ fst (WebSerialPortHandler.read m st') = Ok (slice 0 m (pending st)).
Proof.
  intros Hopen Hn Hm. rewrite (read_short n st Hopen Hn).
  eexists. eexists. split; [reflexivity|]. split; [reflexivity|].
  split; [reflexivity|]. split; [reflexivity|].
  set (st' := mkPort _ _ _ _).
  destruct (read_pending m st' (firstn (Z.to_nat m) (pending st))
                         (skipn (Z.to_nat m) (pending st) ++ lineData (afterPause (incoming st))))
    as (st2 & Hread & _).
  - reflexivity.
  - unfold pending at 1. subst st'. cbn [readBuffer incoming].
    rewrite app_assoc. now rewrite firstn_skipn.
  - unfold len in *. rewrite length_firstn. lia.
  - rewrite Hread. cbn [fst]. now rewrite slice_0.
Qed.

Lemma read_timeout_keeps_bytes_witness :
  let st := mkPort [0xFF] true [Data [0xFF; 0x05]; Silence; Data [0x02; 0x00; 0xF8]] [] in
  exists e st',
    WebSerialPortHandler.read 4 st = (Throw (ServoErr e), st')
    /\ code e = TIMEOUT
    /\ readBuffer st' = pending st
    /\ written st' = written st
    /\ fst (WebSerialPortHandler.read 2 st') = Ok (slice 0 2 (pending st)).
Proof.
  apply (read_timeout_keeps_bytes 4 2
           (mkPort [0xFF] true [Data [0xFF; 0x05]; Silence; Data [0x02; 0x00; 0xF8]] []));
    [reflexivity | vm_compute; reflexivity | vm_compute; split; discriminate].
Defined.

(** Reads in sequence return consecutive segments of what the line delivers:
    when [n + m] bytes are buffered or arrive without a pause, a read of [n]
    followed by a read of [m] returns the bytes a single read of [n + m]
    returns, and both leave the same bytes unread. *)
Theorem read_fifo (n m : Z) (st : PortState) :
  isOpen st = true -> 0 <= n -> 0 <= m -> n + m <= len (pending st) ->
  exists a b st1 st2 st12,
    WebSerialPortHandler.read n st = (Ok a, st1)
    /\ WebSerialPortHandler.read m st1 = (Ok b, st2)
    /\ WebSerialPortHandler.read (n + m) st = (Ok (a ++ b), st12)
    /\ len a = n /\ len b = m
    /\ pending st = a ++ b ++ pending st2
    /\ pending st12 = pending st2.
Proof.
  intros Hopen Hn Hm Hlen.
  set (a := firstn (Z.to_nat n) (pending st)).
  set (r := skipn (Z.to_nat n) (pending st)).
  set (b := firstn (Z.to_nat m) r).
  set (c := skipn (Z.to_nat m) r).
  assert (Hsplit : pending st = a ++ b ++ c).
  { unfold a, b, c, r. now rewrite !firstn_skipn. }
  assert (Ha : len a = n).
  { unfold a, len in *. rewrite length_firstn. lia. }
  assert (Hb : len b = m).
  { unfold b, r, len in *. rewrite length_firstn, length_skipn. lia. }
  destruct (read_pending n st a (b ++ c) Hopen Hsplit Ha) as (st1 & H1 & Hp1 & Ho1 & _).
  destruct (read_pending m st1 b c Ho1 Hp1 Hb) as (st2 & H2 & Hp2 & _).
  destruct (read_pending (n + m) st (a ++ b) c Hopen) as (st12 & H12 & Hp12 & _).
  - now rewrite <- app_assoc.
  - rewrite len_app. lia.
  - exists a, b, st1, st2, st12. rewrite Hp2, Hp12. repeat split; assumption.
Qed.

Lemma read_fifo_witness :
  let st := mkPort [0xFF] true [Data [0xFF; 0x05]; Data [0x02; 0x00; 0xF8]] [] in
  exists a b st1 st2 st12,
    WebSerialPortHandler.read 4 st = (Ok a, st1)
    /\ WebSerialPortHandler.read 2 st1 = (Ok b, st2)
    /\ WebSerialPortHandler.read (4 + 2) st = (Ok (a ++ b), st12)
    /\ len a = 4 /\ len b = 2
    /\ pending st = a ++ b ++ pending st2
    /\ pending st12 = pending st2.
Proof.
  apply (read_fifo 4 2 (mkPort [0xFF] true [Data [0xFF; 0x05]; Data [0x02; 0x00; 0xF8]] []));
    [reflexivity | lia | lia | vm_compute; discriminate].
Defined.

(* ------------------------------------------------------------------ *)
(** ** One transaction *)

Lemma checkError_cases (packet : ResponsePacket.t) :
  if Z.land (ResponsePacket.error packet) 0x7F =? 0
  then PacketHandler.checkError packet = Ok tt
  else exists e, PacketHandler.checkError packet = Throw (ServoErr e)
                 /\ code e = HARDWARE_ERROR
                 /\ deviceId e = Some (ResponsePacket.id packet).
Proof.
  unfold PacketHandler.checkError. rewrite errorMessages_conditions.
  set (error := ResponsePacket.error packet).
  destruct (Z.land error 127 =? 0) eqn:E.
  - apply Z.eqb_eq in E. apply conditionsSet_nil in E. rewrite E.
    destruct (error =? 0); reflexivity.
  - apply Z.eqb_neq in E.
    destruct (error =? 0) eqn:E0.
    + apply Z.eqb_eq in E0. rewrite E0 in E. simpl in E. congruence.
    + destruct (conditionsSet error) eqn:Ec.
      * apply conditionsSet_nil in Ec. contradiction.
      * eexists. split; [reflexivity|]. split; reflexivity.
Qed.

(** The receive path when the reply arrives as one chunk, on an empty
    buffer: the chunk is consumed, nothing else is. *)
Lemma receive_chunk (timeout expectedId : Z) (frame : Uint8Array)
      (line : list Arrival) (w : list Uint8Array) :
  at_ frame 0 = 0xFF -> at_ frame 1 = 0xFF ->
  4 <= len frame -> len frame = 4 + at_ frame 3 ->
  Receive.receive timeout expectedId (mkPort [] true (Data frame :: line) w)
  = (verifyResponse expectedId (PacketHandler.parsePacket frame), mkPort [] true line w).
Proof.
  intros H0 H1 H4 Hlen.
  destruct frame as [|h0 [|h1 [|id [|L payload]]]];
    try (unfold len in H4; simpl in H4; lia).
  change (at_ (h0 :: h1 :: id :: L :: payload) 0) with h0 in H0.
  change (at_ (h0 :: h1 :: id :: L :: payload) 1) with h1 in H1.
  change (at_ (h0 :: h1 :: id :: L :: payload) 3) with L in Hlen.
  subst h0 h1.
  assert (HL : len payload = L).
  { unfold len in *. simpl List.length in Hlen. lia. }
  set (frame := 255 :: 255 :: id :: L :: payload) in *.
  assert (Hwait : WebSerialPortHandler.waitForData (fun buf => 2 <=? len buf) timeout
                    (mkPort [] true (Data frame :: line) w)
                  = (Ok tt, mkPort frame true line w)).
  { unfold WebSerialPortHandler.waitForData. cbn [incoming readBuffer isOpen written].
    cbn [WebSerialPortHandler.poll]. change (2 <=? len []) with false. cbv iota.
    rewrite appendToBuffer_app. cbn [app].
    rewrite poll_now; [reflexivity|].
    apply Z.leb_le. lia. }
  assert (Hpeek : WebSerialPortHandler.peekBuffer 2 (mkPort frame true line w)
                  = (Ok [255; 255], mkPort frame true line w)).
  { unfold WebSerialPortHandler.peekBuffer, gets. cbn [readBuffer].
    rewrite Z.min_l by lia. rewrite slice_0 by lia. reflexivity. }
  assert (HL0 : 0 <= L) by (rewrite <- HL; apply len_nonneg).
  assert (Hread4 : WebSerialPortHandler.read 4 (mkPort frame true line w)
                   = (Ok [255; 255; id; L], mkPort payload true line w)).
  { unfold WebSerialPortHandler.read. cbn [incoming readBuffer isOpen written negb].
    rewrite poll_now by (rewrite read_predicate; apply Z.leb_le; lia).
    rewrite slice_0, slice_from by lia.
    reflexivity. }
  assert (HreadL : WebSerialPortHandler.read L (mkPort payload true line w)
                   = (Ok payload, mkPort [] true line w)).
  { unfold WebSerialPortHandler.read. cbn [incoming readBuffer isOpen written negb].
    rewrite poll_now by (rewrite read_predicate; apply Z.leb_le; lia).
    rewrite slice_0, slice_from by assumption.
    replace (Z.to_nat L) with (List.length payload) by (unfold len in HL; lia).
    now rewrite firstn_all, skipn_all. }
  unfold Receive.receive, Receive.awaitHeader, headerBudget.
  cbn [Receive.awaitHeaderLoop]. unfold bind at 1 2 3.
  rewrite Hwait. rewrite Hpeek.
  change ((at_ [255; 255] 0 =? 255) && (at_ [255; 255] 1 =? 255)) with true.
  cbv iota. unfold ret at 1. unfold bind at 1. rewrite Hread4.
  change (PacketHandler.getPacketLength [255; 255; id; L])
    with (Some (HEADER_LENGTH + ID_LENGTH + LENGTH_LENGTH + L)).
  cbv beta iota.
  replace (HEADER_LENGTH + ID_LENGTH + LENGTH_LENGTH + L - 4) with L
    by (unfold HEADER_LENGTH, ID_LENGTH, LENGTH_LENGTH; lia).
  unfold bind at 1. rewrite HreadL.
  assert (Hfull :
    setArray payload 4
      (setArray [255; 255; id; L] 0
         (newUint8Array (HEADER_LENGTH + ID_LENGTH + LENGTH_LENGTH + L)))
    = frame).
  { replace (HEADER_LENGTH + ID_LENGTH + LENGTH_LENGTH + L)
      with (len [255; 255; id; L] + len payload)
      by (rewrite HL; unfold HEADER_LENGTH, ID_LENGTH, LENGTH_LENGTH, len; simpl; lia).
    exact (appendToBuffer_app [255; 255; id; L] payload). }
  rewrite Hfull.
  unfold bind, call, verifyResponse.
  destruct (PacketHandler.parsePacket frame) as [response| |]; try reflexivity.
  destruct (negb (ResponsePacket.id response =? expectedId)); [reflexivity|].
  destruct (PacketHandler.checkError response); reflexivity.
Qed.

(** One transaction whose reply arrives as one chunk. *)
Lemma sendAndReceive_chunk (timeout expectedId : Z) (frame : Uint8Array)
      (response : ResponsePacket.t) (st : PortState) (line : list Arrival)
      (packet : Uint8Array) :
  PacketHandler.parsePacket frame = Ok response ->
  len frame = 4 + ResponsePacket.length response ->
  isOpen st = true ->
  incoming st = Data frame :: line ->
  ProtocolHandler.sendAndReceive timeout packet expectedId st
  = (verifyResponse expectedId (Ok response),
     mkPort [] true line (written st ++ [packet])).
Proof.
  intros Hparse Hlen Hopen Hline.
  destruct (parsePacket_ok_shape frame response Hparse) as (H6 & H0 & H1 & HL & _).
  rewrite HL in Hlen.
  unfold ProtocolHandler.sendAndReceive, bind.
  unfold WebSerialPortHandler.flush at 1. unfold WebSerialPortHandler.write at 1.
  cbn [isOpen readBuffer incoming written]. rewrite Hopen, Hline. cbn [negb].
  change (newUint8Array 0) with (@nil Z).
  rewrite (receive_chunk timeout expectedId frame line _ H0 H1 ltac:(lia) Hlen).
  now rewrite Hparse.
Qed.

Lemma sendAndReceive_closed (timeout expectedId : Z) (packet : Uint8Array) (st : PortState) :
  isOpen st = false ->
  ProtocolHandler.sendAndReceive timeout packet expectedId st
  = (throwServoError "Port is not connected" CONNECTION_LOST None,
     mkPort [] false (incoming st) (written st)).
Proof.
  intros Hopen. unfold ProtocolHandler.sendAndReceive, bind.
  unfold WebSerialPortHandler.flush at 1. unfold WebSerialPortHandler.write at 1.
  cbn [isOpen readBuffer incoming written]. rewrite Hopen. reflexivity.
Qed.

Lemma sendAndReceive_silent (timeout expectedId : Z) (packet : Uint8Array) (st : PortState) :
  isOpen st = true -> len (lineData (incoming st)) < 2 ->
  ProtocolHandler.sendAndReceive timeout packet expectedId st
  = (throwServoError "Wait for data timeout" TIMEOUT None,
     mkPort (lineData (incoming st)) true (afterPause (incoming st))
            (written st ++ [packet])).
Proof.
  intros Hopen Hline. unfold ProtocolHandler.sendAndReceive, bind.
  unfold WebSerialPortHandler.flush at 1. unfold WebSerialPortHandler.write at 1.
  cbn [isOpen readBuffer incoming written]. rewrite Hopen. cbn [negb].
  unfold Receive.receive, Receive.awaitHeader, headerBudget.
  cbn [Receive.awaitHeaderLoop]. unfold bind at 1 2.
  unfold WebSerialPortHandler.waitForData. cbn [isOpen readBuffer incoming written].
  change (newUint8Array 0) with (@nil Z).
  rewrite (poll_short _ 2) by (try reflexivity; exact Hline).
  reflexivity.
Qed.

(** A transaction on a closed port fails with CONNECTION_LOST: the buffer is
    emptied, nothing reaches the writer and nothing is taken from the line. *)
Theorem sendAndReceive_closed_port
        (timeout expectedId : Z) (packet : Uint8Array) (st : PortState) :
  isOpen st = false ->
  exists e st',
    ProtocolHandler.sendAndReceive timeout packet expectedId st = (Throw (ServoErr e), st')
    /\ code e = CONNECTION_LOST
    /\ written st' = written st /\ incoming st' = incoming st /\ readBuffer st' = [].
Proof.
  intros Hopen. rewrite sendAndReceive_closed by exact Hopen.
  eexists. eexists. split; [reflexivity|]. repeat split.
Qed.

Lemma sendAndReceive_closed_port_witness :
  let st := mkPort [0x01] false [Data [0x02]] [] in
  exists e st',
    ProtocolHandler.sendAndReceive 1000 (PacketHandler.createPingPacket 5) 5 st
    = (Throw (ServoErr e), st')
    /\ code e = CONNECTION_LOST
    /\ written st' = written st /\ incoming st' = incoming st /\ readBuffer st' = [].
Proof.
  apply (sendAndReceive_closed_port 1000 5 (PacketHandler.createPingPacket 5)
           (mkPort [0x01] false [Data [0x02]] [])).
  reflexivity.
Defined.

(** A transaction nobody answers: when the line delivers fewer than two bytes
    before it pauses, the request is written, exactly once, and the
    transaction fails with TIMEOUT whatever was in the buffer before. *)
Theorem sendAndReceive_no_reply
        (timeout expectedId : Z) (packet : Uint8Array) (st : PortState) :
  isOpen st = true -> len (lineData (incoming st)) < 2 ->
  exists e st',
    ProtocolHandler.sendAndReceive timeout packet expectedId st = (Throw (ServoErr e), st')
    /\ code e = TIMEOUT /\ deviceId e = None
    /\ written st' = written st ++ [packet]
    /\ isOpen st' = true
    /\ incoming st' = afterPause (incoming st).
Proof.
  intros Hopen Hline. rewrite sendAndReceive_silent by assumption.
  eexists. eexists. split; [reflexivity|]. repeat split.
Qed.

Lemma sendAndReceive_no_reply_witness :
  let st := mkPort [0xFF; 0xFF; 0x05] true [Data [0xFF]; Silence; Data [0xFF]] [] in
  exists e st',
    ProtocolHandler.sendAndReceive 1000 (PacketHandler.createPingPacket 5) 5 st
    = (Throw (ServoErr e), st')
    /\ code e = TIMEOUT /\ deviceId e = None
    /\ written st' = written st ++ [PacketHandler.createPingPacket 5]
    /\ isOpen st' = true
    /\ incoming st' = afterPause (incoming st).
Proof.
  apply (sendAndReceive_no_reply 1000 5 (PacketHandler.createPingPacket 5)
           (mkPort [0xFF; 0xFF; 0x05] true [Data [0xFF]; Silence; Data [0xFF]] []));
    [reflexivity | vm_compute; reflexivity].
Defined.

(** A reply that breaks off.  When the line pauses after it has delivered
    only a beginning of the status frame, the transaction fails with TIMEOUT,
    wherever the frame broke off; the request was written once. *)
Theorem sendAndReceive_truncated_reply
        (timeout expectedId id error : Z) (parameters : Uint8Array) (k : nat)
        (packet : Uint8Array) (st : PortState) :
  isOpen st = true ->
  (k < List.length (statusFrame id error parameters))%nat ->
  lineData (incoming st) = firstn k (statusFrame id error parameters) ->
  exists e st',
    ProtocolHandler.sendAndReceive timeout packet expectedId st = (Throw (ServoErr e), st')
    /\ code e = TIMEOUT
    /\ written st' = written st ++ [packet].
Proof.
  intros Hopen Hk Hline.
  destruct (Nat.lt_ge_cases k 2) as [Hk2|Hk2].
  { rewrite sendAndReceive_silent; [| exact Hopen |].
    - eexists. eexists. split; [reflexivity|]. split; reflexivity.
    - rewrite Hline. unfold len. rewrite length_firstn. lia. }
  unfold statusFrame in *. cbv zeta in *.
  set (L := len parameters + 2) in *.
  set (payload := error :: parameters
                    ++ [PacketHandler.calculateChecksum ([id; L; error] ++ parameters)]).
  change ([255; 255] ++ ([id; L; error] ++ parameters)
            ++ [PacketHandler.calculateChecksum ([id; L; error] ++ parameters)])
    with (255 :: 255 :: id :: L :: payload) in *.
  assert (Hpayload : len payload = L).
  { unfold payload, L, len. simpl List.length. rewrite length_app. simpl List.length. lia. }
  clearbody payload.
  assert (Hk' : (k < 4 + List.length payload)%nat) by (cbn [List.length] in Hk; lia).
  unfold ProtocolHandler.sendAndReceive, bind.
  unfold WebSerialPortHandler.flush at 1. unfold WebSerialPortHandler.write at 1.
  cbn [isOpen readBuffer incoming written]. rewrite Hopen. cbn [negb].
  set (st0 := mkPort (newUint8Array 0) true (incoming st) (written st ++ [packet])).
  assert (Hpend0 : pending st0 = firstn k (255 :: 255 :: id :: L :: payload)).
  { unfold pending, st0. cbn [readBuffer incoming]. exact Hline. }
  destruct k as [|[|k]]; try lia. cbn [firstn] in Hpend0.
  unfold Receive.receive, bind. unfold Receive.awaitHeader.
  destruct (awaitHeaderLoop_skips timeout [] (headerBudget st0) st0
              (firstn k (id :: L :: payload)) eq_refl Hpend0)
    as (st1 & Hloop & Hpend1 & Hopen1 & Hwr1).
  { intros i Hi. simpl in Hi. lia. }
  { unfold headerBudget. simpl List.length. lia. }
  rewrite Hloop.
  destruct k as [|[|k]].
  - (* the frame breaks off after the header *)
    rewrite (read_short 4 st1 Hopen1) by (rewrite Hpend1; vm_compute; reflexivity).
    eexists. eexists. split; [reflexivity|]. split; [reflexivity|]. exact Hwr1.
  - rewrite (read_short 4 st1 Hopen1) by (rewrite Hpend1; vm_compute; reflexivity).
    eexists. eexists. split; [reflexivity|]. split; [reflexivity|]. exact Hwr1.
  - (* the frame breaks off after the length byte *)
    cbn [firstn] in Hpend1.
    destruct (read_pending 4 st1 [255; 255; id; L] (firstn k payload) Hopen1 Hpend1 eq_refl)
      as (st2 & Hread & Hpend2 & Hopen2 & Hwr2).
    rewrite Hread.
    change (PacketHandler.getPacketLength [255; 255; id; L])
      with (Some (HEADER_LENGTH + ID_LENGTH + LENGTH_LENGTH + L)).
    cbv beta iota.
    replace (HEADER_LENGTH + ID_LENGTH + LENGTH_LENGTH + L - 4) with L
      by (unfold HEADER_LENGTH, ID_LENGTH, LENGTH_LENGTH; lia).
    rewrite (read_short L st2 Hopen2).
    + eexists. eexists. split; [reflexivity|]. split; [reflexivity|].
      cbn [written]. rewrite Hwr2, Hwr1. reflexivity.
    + rewrite Hpend2. unfold len in *. rewrite length_firstn. lia.
Qed.

Lemma sendAndReceive_truncated_reply_witness :
  exists e st',
    ProtocolHandler.sendAndReceive 1000 (PacketHandler.createReadPacket 5 56 2) 5
      (mkPort [] true [Data [0xFF; 0xFF; 0x05]; Data [0x04; 0x00; 0x34]; Silence;
                       Data [0x12; 0xB0]] [])
    = (Throw (ServoErr e), st')
    /\ code e = TIMEOUT
    /\ written st' = [] ++ [PacketHandler.createReadPacket 5 56 2].
Proof.
  apply (sendAndReceive_truncated_reply 1000 5 5 0 [0x34; 0x12] 6
           (PacketHandler.createReadPacket 5 56 2)
           (mkPort [] true [Data [0xFF; 0xFF; 0x05]; Data [0x04; 0x00; 0x34]; Silence;
                            Data [0x12; 0xB0]] []));
    [reflexivity | vm_compute; lia | reflexivity].
Defined.

(** What a transaction makes of a well-formed status frame that follows the
    request on the line: a frame of another device is rejected with
    INVALID_RESPONSE; a frame of the addressed device with one of the error
    bits 0..6 set raises HARDWARE_ERROR carrying the device id; any other
    frame of the addressed device is returned.  In each case the frame is
    consumed and what follows it is left unread. *)
Theorem sendAndReceive_reply_checks
        (timeout expectedId id error : Z) (parameters rest : Uint8Array)
        (packet : Uint8Array) (st : PortState) :
  0 <= id < 256 -> len parameters <= 253 ->
  isOpen st = true ->
  lineData (incoming st) = statusFrame id error parameters ++ rest ->
  let run := ProtocolHandler.sendAndReceive timeout packet expectedId st in
  pending (snd run) = rest
  /\ written (snd run) = written st ++ [packet]
  /\ if negb (id =? expectedId)
     then exists e, fst run = Throw (ServoErr e)
                    /\ code e = INVALID_RESPONSE /\ deviceId e = None
     else if Z.land error 0x7F =? 0
     then exists response, fst run = Ok response
                    /\ ResponsePacket.id response = expectedId
                    /\ ResponsePacket.error response = error
                    /\ ResponsePacket.parameters response = parameters
     else exists e, fst run = Throw (ServoErr e)
                    /\ code e = HARDWARE_ERROR /\ deviceId e = Some expectedId.
Proof.
  intros Hid Hp Hopen Hline run. subst run.
  pose proof (statusFrame_parse id error parameters Hid Hp) as Hparse.
  set (response := ResponsePacket.mk id 0 parameters (len parameters + 2) error _) in Hparse.
  destruct (sendAndReceive_extracts timeout expectedId [] (statusFrame id error parameters)
              rest response st packet) as (st' & Hrun & Hpend & _ & Hwr).
  - intros i Hi. simpl in Hi. lia.
  - exact Hparse.
  - rewrite statusFrame_len. reflexivity.
  - exact Hopen.
  - exact Hline.
  - rewrite Hrun. cbn [fst snd].
    split; [exact Hpend|]. split; [exact Hwr|].
    unfold verifyResponse. cbn [ResponsePacket.id response].
    destruct (negb (id =? expectedId)) eqn:Eid.
    + eexists. split; [reflexivity|]. split; reflexivity.
    + apply negb_false_iff, Z.eqb_eq in Eid. subst expectedId.
      pose proof (checkError_cases response) as Hc.
      cbn [ResponsePacket.error ResponsePacket.id response] in Hc.
      destruct (Z.land error 127 =? 0).
      * rewrite Hc. exists response. repeat split.
      * destruct Hc as (e & -> & Hcode & Hdev). exists e. repeat split; assumption.
Qed.

Lemma sendAndReceive_reply_checks_witness :
  let st := mkPort [0x00] true [Data (statusFrame 5 0x24 [0x01] ++ [0x09])] [] in
  let run := ProtocolHandler.sendAndReceive 1000 (PacketHandler.createPingPacket 5) 5 st in
  pending (snd run) = [0x09]
  /\ written (snd run) = written st ++ [PacketHandler.createPingPacket 5]
  /\ if negb (5 =? 5)
     then exists e, fst run = Throw (ServoErr e)
                    /\ code e = INVALID_RESPONSE /\ deviceId e = None
     else if Z.land 0x24 0x7F =? 0
     then exists response, fst run = Ok response
                    /\ ResponsePacket.id response = 5
                    /\ ResponsePacket.error response = 0x24
                    /\ ResponsePacket.parameters response = [0x01]
     else exists e, fst run = Throw (ServoErr e)
                    /\ code e = HARDWARE_ERROR /\ deviceId e = Some 5.
Proof.
  apply (sendAndReceive_reply_checks 1000 5 5 0x24 [0x01] [0x09]
           (PacketHandler.createPingPacket 5)
           (mkPort [0x00] true [Data (statusFrame 5 0x24 [0x01] ++ [0x09])] []));
    [lia | vm_compute; discriminate | reflexivity | ].
  cbn [incoming lineData]. now rewrite app_nil_r.
Defined.

(* ------------------------------------------------------------------ *)
(** ** Reading a register *)

Lemma verifyResponse_clean (id : Z) (parameters : Uint8Array) (cs : Z) :
  verifyResponse id (Ok (ResponsePacket.mk id 0 parameters (len parameters + 2) 0 cs))
  = Ok (ResponsePacket.mk id 0 parameters (len parameters + 2) 0 cs).
Proof.
  unfold verifyResponse. cbn [ResponsePacket.id]. rewrite Z.eqb_refl. reflexivity.
Qed.

(** [readData] when the reply arrives as one chunk. *)
Lemma readData_chunk (timeout id address length : Z) (parameters : Uint8Array)
      (line : list Arrival) (st : PortState) :
  0 <= id < 256 -> len parameters <= 253 -> length <= len parameters ->
  isOpen st = true ->
  incoming st = Data (statusFrame id 0 parameters) :: line ->
  ProtocolHandler.readData timeout id address length st
  = (Ok (slice 0 length parameters),
     mkPort [] true line
            (written st ++ [PacketHandler.createReadPacket id address length])).
Proof.
  intros Hid Hp Hlength Hopen Hline.
  unfold ProtocolHandler.readData, bind.
  rewrite (sendAndReceive_chunk timeout id (statusFrame id 0 parameters)
             (ResponsePacket.mk id 0 parameters (len parameters + 2) 0
                (PacketHandler.calculateChecksum ([id; len parameters + 2; 0] ++ parameters)))
             st line);
    [| now apply statusFrame_parse | apply statusFrame_len | assumption | assumption].
  rewrite verifyResponse_clean. cbn [ResponsePacket.parameters].
  replace (len parameters <? length) with false by (symmetry; apply Z.ltb_ge; lia).
  reflexivity.
Qed.

Lemma readData_silent (timeout id address length : Z) (st : PortState) :
  isOpen st = true -> len (lineData (incoming st)) < 2 ->
  ProtocolHandler.readData timeout id address length st
  = (throwServoError "Wait for data timeout" TIMEOUT None,
     mkPort (lineData (incoming st)) true (afterPause (incoming st))
            (written st ++ [PacketHandler.createReadPacket id address length])).
Proof.
  intros Hopen Hline. unfold ProtocolHandler.readData, bind.
  now rewrite sendAndReceive_silent.
Qed.

(** The length test of [readData], for a requested [length] that is not
    negative.  The addressed device answers without error bits: with fewer
    parameter bytes than were asked for the call fails with INVALID_RESPONSE
    carrying the device id; otherwise it returns the first [length]
    parameter bytes and drops the others.  Either way the request went out
    and the reply is consumed. *)
Theorem readData_reply_length
        (timeout id address length : Z) (parameters rest : Uint8Array) (st : PortState) :
  0 <= id < 256 -> len parameters <= 253 -> 0 <= length ->
  isOpen st = true ->
  lineData (incoming st) = statusFrame id 0 parameters ++ rest ->
  let run := ProtocolHandler.readData timeout id address length st in
  pending (snd run) = rest
  /\ written (snd run) = written st ++ [PacketHandler.createReadPacket id address length]
  /\ if len parameters <? length
     then exists e, fst run = Throw (ServoErr e)
                    /\ code e = INVALID_RESPONSE /\ deviceId e = Some id
     else fst run = Ok (firstn (Z.to_nat length) parameters).
Proof.
  intros Hid Hp Hlength Hopen Hline run. subst run.
  unfold ProtocolHandler.readData, bind.
  destruct (sendAndReceive_extracts timeout id [] (statusFrame id 0 parameters) rest
              (ResponsePacket.mk id 0 parameters (len parameters + 2) 0
                 (PacketHandler.calculateChecksum ([id; len parameters + 2; 0] ++ parameters)))
              st (PacketHandler.createReadPacket id address length))
    as (st' & Hsr & Hpend & Hopen' & Hwr).
  - intros i Hi. simpl in Hi. lia.
  - now apply statusFrame_parse.
  - apply statusFrame_len.
  - assumption.
  - exact Hline.
  - rewrite Hsr, verifyResponse_clean. cbn [ResponsePacket.parameters].
    destruct (len parameters <? length).
    + cbn [fst snd throwNew throw]. split; [exact Hpend|]. split; [exact Hwr|].
      eexists. split; [reflexivity|]. split; reflexivity.
    + cbn [fst snd ret]. split; [exact Hpend|]. split; [exact Hwr|].
      now rewrite slice_0.
Qed.

Lemma readData_reply_length_witness :
  let st := mkPort [] true [Data (statusFrame 5 0 [0x34])] [] in
  let run := ProtocolHandler.readData 1000 5 56 2 st in
  pending (snd run) = []
  /\ written (snd run) = written st ++ [PacketHandler.createReadPacket 5 56 2]
  /\ if len [0x34] <? 2
     then exists e, fst run = Throw (ServoErr e)
                    /\ code e = INVALID_RESPONSE /\ deviceId e = Some 5
     else fst run = Ok (firstn (Z.to_nat 2) [0x34]).
Proof.
  apply (readData_reply_length 1000 5 56 2 [0x34] []
           (mkPort [] true [Data (statusFrame 5 0 [0x34])] []));
    [lia | vm_compute; discriminate | lia | reflexivity | reflexivity].
Defined.

(* ------------------------------------------------------------------ *)
(** ** Ping *)

Lemma readData_finishes (timeout id address length : Z) :
  finishes (ProtocolHandler.readData timeout id address length).
Proof.
  unfold ProtocolHandler.readData.
  apply finishes_bind; [apply sendAndReceive_finishes|]. intros response.
  destruct (len (ResponsePacket.parameters response) <? length);
    [apply finishes_throwNew | apply finishes_ret].
Qed.

(** After the answer to the ping, the reads of the model number and the
    firmware version never make [ping] throw. *)
Lemma ping_after_ack (timeout id : Z) (st st1 : PortState) (response : ResponsePacket.t) :
  ProtocolHandler.sendAndReceive timeout (PacketHandler.createPingPacket id) id st
  = (Ok response, st1) ->
  exists result st',
    ProtocolHandler.ping timeout id st = (Ok result, st') /\ ping_id result = id.
Proof.
  intros Hack. unfold ProtocolHandler.ping. unfold bind at 1. rewrite Hack.
  unfold tryCatch at 1. unfold bind at 1.
  pose proof (readData_finishes timeout id 3 2 st1) as Hf1.
  destruct (ProtocolHandler.readData timeout id 3 2 st1) as [[modelData|e|] st2];
    [| eexists; eexists; split; reflexivity | now elim Hf1].
  unfold tryCatch, bind.
  pose proof (readData_finishes timeout id 2 1 st2) as Hf2.
  destruct (ProtocolHandler.readData timeout id 2 1 st2) as [[fwData|e|] st3];
    [eexists; eexists; split; reflexivity
    | eexists; eexists; split; reflexivity | now elim Hf2].
Qed.

(** What the [try] blocks of [ping] do, whatever the two reads come to:
    once the first transaction has returned, [ping] throws nothing, and a
    result it returns is for the id that was pinged. *)
Lemma ping_after_first (timeout id : Z) (st st1 : PortState) (response : ResponsePacket.t) :
  ProtocolHandler.sendAndReceive timeout (PacketHandler.createPingPacket id) id st
  = (Ok response, st1) ->
  (forall e, fst (ProtocolHandler.ping timeout id st) <> Throw e)
  /\ (forall result, fst (ProtocolHandler.ping timeout id st) = Ok result ->
                     ping_id result = id).
Proof.
  intros Hack. unfold ProtocolHandler.ping, bind, tryCatch, ret. rewrite Hack.
  destruct (ProtocolHandler.readData timeout id 3 2 st1) as [[modelData|e1|] st2];
    [destruct (ProtocolHandler.readData timeout id 2 1 st2) as [[fwData|e2|] st3] | |];
    cbn [fst]; (split; [intros e; discriminate|]);
    intros result Hres; try discriminate; injection Hres as Hres; now subst result.
Qed.

Lemma ping_first_fails (timeout id : Z) (st st1 : PortState) (e : Exception) :
  ProtocolHandler.sendAndReceive timeout (PacketHandler.createPingPacket id) id st
  = (Throw e, st1) ->
  ProtocolHandler.ping timeout id st = (Throw e, st1).
Proof.
  intros Hack. unfold ProtocolHandler.ping. unfold bind at 1. now rewrite Hack.
Qed.

Lemma ping_first_unfinished (timeout id : Z) (st st1 : PortState) :
  ProtocolHandler.sendAndReceive timeout (PacketHandler.createPingPacket id) id st
  = (Unfinished, st1) ->
  ProtocolHandler.ping timeout id st = (Unfinished, st1).
Proof.
  intros Hack. unfold ProtocolHandler.ping. unfold bind at 1. now rewrite Hack.
Qed.

(** [ping] fails exactly as its first transaction fails.  Once the device
    has answered the ping, no failure of the reads of the model number and
    the firmware version leaves the call: it throws nothing, and a result it
    returns is for that id.  (Whether it returns is then up to the two
    reads.) *)
Theorem ping_best_effort (timeout id : Z) (st : PortState) :
  let first :=
    ProtocolHandler.sendAndReceive timeout (PacketHandler.createPingPacket id) id st in
  match fst first with
  | Ok _ => (forall e, fst (ProtocolHandler.ping timeout id st) <> Throw e)
            /\ (forall result, fst (ProtocolHandler.ping timeout id st) = Ok result ->
                               ping_id result = id)
  | Throw e => ProtocolHandler.ping timeout id st = (Throw e, snd first)
  | Unfinished => ProtocolHandler.ping timeout id st = (Unfinished, snd first)
  end.
Proof.
  cbv zeta.
  destruct (ProtocolHandler.sendAndReceive timeout (PacketHandler.createPingPacket id) id st)
    as [[response|e|] st1] eqn:Hack; cbn [fst snd].
  - exact (ping_after_first timeout id st st1 response Hack).
  - exact (ping_first_fails timeout id st st1 e Hack).
  - exact (ping_first_unfinished timeout id st st1 Hack).
Qed.

(** [ping] when the three replies arrive, each as one chunk. *)
Lemma ping_present (timeout id lo hi fw : Z) (line : list Arrival) (st : PortState) :
  0 <= id < 256 -> isOpen st = true ->
  incoming st = Data (statusFrame id 0 []) :: Data (statusFrame id 0 [lo; hi])
                  :: Data (statusFrame id 0 [fw]) :: line ->
  ProtocolHandler.ping timeout id st
  = (Ok (mkPing id (makeWord lo hi) fw),
     mkPort [] true line
            (written st ++ [PacketHandler.createPingPacket id;
                            PacketHandler.createReadPacket id 3 2;
                            PacketHandler.createReadPacket id 2 1])).
Proof.
  intros Hid Hopen Hline. unfold ProtocolHandler.ping. unfold bind at 1.
  rewrite (sendAndReceive_chunk timeout id (statusFrame id 0 []) _ st _ _
             (statusFrame_parse id 0 [] Hid ltac:(vm_compute; discriminate))
             (statusFrame_len id 0 []) Hopen Hline).
  rewrite verifyResponse_clean.
  unfold tryCatch at 1. unfold bind at 1.
  rewrite (readData_chunk timeout id 3 2 [lo; hi] (Data (statusFrame id 0 [fw]) :: line));
    [| exact Hid | vm_compute; discriminate | vm_compute; discriminate
     | reflexivity | reflexivity].
  unfold tryCatch, bind.
  rewrite (readData_chunk timeout id 2 1 [fw] line);
    [| exact Hid | vm_compute; discriminate | vm_compute; discriminate
     | reflexivity | reflexivity].
  cbn [written]. rewrite <- !app_assoc. reflexivity.
Qed.

(** [ping] when the device answers the ping but not the read that follows. *)
Lemma ping_model_missing (timeout id : Z) (line : list Arrival) (st : PortState) :
  0 <= id < 256 -> isOpen st = true ->
  incoming st = Data (statusFrame id 0 []) :: Silence :: line ->
  ProtocolHandler.ping timeout id st
  = (Ok (mkPing id 0 0),
     mkPort [] true line
            (written st ++ [PacketHandler.createPingPacket id;
                            PacketHandler.createReadPacket id 3 2])).
Proof.
  intros Hid Hopen Hline. unfold ProtocolHandler.ping. unfold bind at 1.
  rewrite (sendAndReceive_chunk timeout id (statusFrame id 0 []) _ st _ _
             (statusFrame_parse id 0 [] Hid ltac:(vm_compute; discriminate))
             (statusFrame_len id 0 []) Hopen Hline).
  rewrite verifyResponse_clean.
  unfold tryCatch at 1. unfold bind at 1.
  rewrite readData_silent by (try reflexivity; vm_compute; reflexivity).
  unfold throwServoError, ret. cbn [written incoming lineData afterPause].
  rewrite <- !app_assoc. reflexivity.
Qed.

Lemma ping_firmware_missing (timeout id lo hi : Z) (line : list Arrival) (st : PortState) :
  0 <= id < 256 -> isOpen st = true ->
  incoming st = Data (statusFrame id 0 []) :: Data (statusFrame id 0 [lo; hi])
                  :: Silence :: line ->
  ProtocolHandler.ping timeout id st
  = (Ok (mkPing id (makeWord lo hi) 0),
     mkPort [] true line
            (written st ++ [PacketHandler.createPingPacket id;
                            PacketHandler.createReadPacket id 3 2;
                            PacketHandler.createReadPacket id 2 1])).
Proof.
  intros Hid Hopen Hline. unfold ProtocolHandler.ping. unfold bind at 1.
  rewrite (sendAndReceive_chunk timeout id (statusFrame id 0 []) _ st _ _
             (statusFrame_parse id 0 [] Hid ltac:(vm_compute; discriminate))
             (statusFrame_len id 0 []) Hopen Hline).
  rewrite verifyResponse_clean.
  unfold tryCatch at 1. unfold bind at 1.
  rewrite (readData_chunk timeout id 3 2 [lo; hi] (Silence :: line));
    [| exact Hid | vm_compute; discriminate | vm_compute; discriminate
     | reflexivity | reflexivity].
  unfold tryCatch, bind.
  rewrite readData_silent by (try reflexivity; vm_compute; reflexivity).
  unfold throwServoError, ret. cbn [written incoming lineData afterPause].
  rewrite <- !app_assoc. reflexivity.
Qed.

(** [ping] when nothing answers. *)
Lemma ping_absent (timeout id : Z) (st : PortState) :
  isOpen st = true -> len (lineData (incoming st)) < 2 ->
  ProtocolHandler.ping timeout id st
  = (throwServoError "Wait for data timeout" TIMEOUT None,
     mkPort (lineData (incoming st)) true (afterPause (incoming st))
            (written st ++ [PacketHandler.createPingPacket id])).
Proof.
  intros Hopen Hline. unfold ProtocolHandler.ping. unfold bind at 1.
  now rewrite sendAndReceive_silent.
Qed.

(** [ping] on a bus where the device answers, each reply arriving after its
    request.  With all three replies the result carries the model number
    (low byte first) and the firmware version.  When the model read times out
    the firmware is not asked for and both are reported as 0.  When only the
    firmware read times out the model number is kept. *)
Theorem ping_outcomes (timeout id lo hi fw : Z) (line : list Arrival) (st : PortState) :
  0 <= id < 256 -> isOpen st = true ->
  let pingPkt := PacketHandler.createPingPacket id in
  let modelPkt := PacketHandler.createReadPacket id 3 2 in
  let fwPkt := PacketHandler.createReadPacket id 2 1 in
  let ack := Data (statusFrame id 0 []) in
  let model := Data (statusFrame id 0 [lo; hi]) in
  (incoming st = ack :: model :: Data (statusFrame id 0 [fw]) :: line ->
   ProtocolHandler.ping timeout id st
   = (Ok (mkPing id (makeWord lo hi) fw),
      mkPort [] true line (written st ++ [pingPkt; modelPkt; fwPkt])))
  /\ (incoming st = ack :: Silence :: line ->
      ProtocolHandler.ping timeout id st
      = (Ok (mkPing id 0 0), mkPort [] true line (written st ++ [pingPkt; modelPkt])))
  /\ (incoming st = ack :: model :: Silence :: line ->
      ProtocolHandler.ping timeout id st
      = (Ok (mkPing id (makeWord lo hi) 0),
         mkPort [] true line (written st ++ [pingPkt; modelPkt; fwPkt]))).
Proof.
  intros Hid Hopen. cbv zeta. split; [|split]; intros Hline.
  - now apply ping_present.
  - now apply ping_model_missing.
  - now apply ping_firmware_missing.
Qed.

Lemma ping_outcomes_witness :
  ProtocolHandler.ping 1000 5
    (mkPort [0x01] true [Data (statusFrame 5 0 []); Data (statusFrame 5 0 [0x09; 0x03]);
                         Data (statusFrame 5 0 [0x0A])] [])
  = (Ok (mkPing 5 0x0309 0x0A),
     mkPort [] true [] [PacketHandler.createPingPacket 5;
                        PacketHandler.createReadPacket 5 3 2;
                        PacketHandler.createReadPacket 5 2 1]).
Proof.
  destruct (ping_outcomes 1000 5 0x09 0x03 0x0A []
              (mkPort [0x01] true [Data (statusFrame 5 0 []);
                                   Data (statusFrame 5 0 [0x09; 0x03]);
                                   Data (statusFrame 5 0 [0x0A])] [])
              ltac:(lia) eq_refl) as (H & _).
  apply H. reflexivity.
Defined.

(* ------------------------------------------------------------------ *)
(** ** Control table and helpers *)

Lemma known_model_table (model : string) (table : ControlTableDefinition) :
  lookup model MODEL_CONTROL_TABLE = Some table -> table = SCS_SERIES_CONTROL_TABLE.
Proof.
  unfold MODEL_CONTROL_TABLE. cbn [lookup].
  repeat match goal with
         | |- context [String.eqb ?a ?b] => destruct (String.eqb a b)
         end; congruence.
Qed.

Lemma setAdd_single (a : Z) (s : list Z) :
  s = [] \/ s = [a] -> setAdd a s = [a].
Proof.
  intros [->| ->]; [reflexivity|]. cbn [setAdd]. now rewrite Z.eqb_refl.
Qed.

Lemma collectEntries_known (dataName : string) (entry : ControlTableEntry)
      (models : list string) :
  lookup dataName SCS_SERIES_CONTROL_TABLE = Some entry ->
  Forall (fun model => lookup model MODEL_CONTROL_TABLE <> None) models ->
  forall addresses sizes,
    addresses = [] \/ addresses = [address entry] ->
    sizes = [] \/ sizes = [size entry] ->
    exists addresses' sizes',
      collectEntries models dataName addresses sizes = Ok (addresses', sizes')
      /\ (addresses' = [] \/ addresses' = [address entry])
      /\ (sizes' = [] \/ sizes' = [size entry]).
Proof.
  intros Hname Hknown. induction Hknown as [|model models Hmodel _ IH];
    intros addresses sizes Ha Hs.
  - exists addresses, sizes. repeat split; assumption.
  - cbn [collectEntries]. unfold getControlTableEntry.
    destruct (lookup model MODEL_CONTROL_TABLE) as [table|] eqn:Et; [|congruence].
    apply known_model_table in Et. subst table. rewrite Hname.
    rewrite (setAdd_single _ _ Ha), (setAdd_single _ _ Hs).
    apply IH; now right.
Qed.

(** Every model of the library has the same control table, so for models it
    knows [assertSameAddress] never finds two addresses or two sizes: it
    fails only for a data name that is not in the table, naming the first
    model of the list.  The data name is any string that is not the name of
    a member of [Object.prototype] (for those the table has an inherited
    member to offer, and [lookup] does not apply). *)
Theorem assertSameAddress_outcome (models : list string) (dataName : string) :
  inherited dataName = false ->
  Forall (fun model => lookup model MODEL_CONTROL_TABLE <> None) models ->
  assertSameAddress models dataName
  = match models, lookup dataName SCS_SERIES_CONTROL_TABLE with
    | model :: _, None =>
        Throw (PlainError ("Data name '" ++ dataName ++ "' not found for model '"
                             ++ model ++ "'")%string)
    | _, _ => Ok tt
    end.
Proof.
  intros _ Hknown. unfold assertSameAddress.
  destruct (lookup dataName SCS_SERIES_CONTROL_TABLE) as [entry|] eqn:Hname.
  - destruct (collectEntries_known dataName entry models Hname Hknown [] []
                (or_introl eq_refl) (or_introl eq_refl))
      as (addresses & sizes & -> & Ha & Hs).
    destruct Ha as [-> | ->], Hs as [-> | ->]; destruct models; reflexivity.
  - destruct Hknown as [|model models Hmodel _]; [reflexivity|].
    cbn [collectEntries]. unfold getControlTableEntry.
    destruct (lookup model MODEL_CONTROL_TABLE) as [table|] eqn:Et; [|congruence].
    apply known_model_table in Et. subst table. now rewrite Hname.
Qed.

Lemma assertSameAddress_outcome_witness :
  assertSameAddress ["scs_series"; "sts3215"; "sms_series"] "Goal_Position" = Ok tt.
Proof.
  apply (assertSameAddress_outcome ["scs_series"; "sts3215"; "sms_series"] "Goal_Position").
  - reflexivity.
  - repeat constructor; vm_compute; discriminate.
Defined.

Lemma clampPosition_bounds (position : Z) (model : string) :
  clampPosition position model = Z.max 0 (Z.min 4095 position).
Proof.
  unfold clampPosition, getModelMinPosition, getModelMaxPosition, MODEL_CONFIGS.
  cbn [lookup].
  repeat match goal with
         | |- context [String.eqb ?a ?b] => destruct (String.eqb a b)
         end; reflexivity.
Qed.

(** Positions are clamped to 0..4095 for every model, also one the library
    does not know, and speeds to 0..1023; a value within the bounds is left
    as it is, and clamping twice changes nothing. *)
Theorem clamp_bounds (position speed : Z) (model : string) :
  0 <= clampPosition position model <= 4095
  /\ (0 <= position <= 4095 -> clampPosition position model = position)
  /\ clampPosition (clampPosition position model) model = clampPosition position model
  /\ 0 <= clampSpeed speed <= 1023
  /\ (0 <= speed <= 1023 -> clampSpeed speed = speed)
  /\ clampSpeed (clampSpeed speed) = clampSpeed speed.
Proof.
  rewrite !clampPosition_bounds.
  unfold clampSpeed, MIN_SPEED_VALUE, MAX_SPEED_VALUE. lia.
Qed.

Lemma getBaudRateValue_register (baudRate reg : Z) :
  getBaudRateValue baudRate = Ok reg -> 0 <= reg <= 7 /\ getActualBaudRate reg = baudRate.
Proof.
  unfold getBaudRateValue, SCS_SERIES_BAUD_TABLE. cbn [findBaud].
  repeat match goal with
         | |- context [?b =? baudRate] =>
             destruct (Z.eqb_spec b baudRate);
             [intros H; injection H as <-; subst baudRate; split; [lia | reflexivity]|]
         end.
  discriminate.
Qed.

(** The baud rate table read both ways: [getBaudRateValue] finds the
    register value of a rate exactly when [getActualBaudRate] maps one of
    the register values 0..7 to that rate, and every other rate is refused. *)
Theorem baud_rate_table_both_ways (baudRate reg : Z) :
  (getBaudRateValue baudRate = Ok reg
   <-> 0 <= reg <= 7 /\ getActualBaudRate reg = baudRate)
  /\ ((forall r, 0 <= r <= 7 -> getActualBaudRate r <> baudRate)
      -> getBaudRateValue baudRate
         = Throw (PlainError ("Unsupported baud rate " ++ decimal baudRate)%string)).
Proof.
  split; [split|].
  - apply getBaudRateValue_register.
  - intros [Hreg <-].
    assert (Hcases : reg = 0 \/ reg = 1 \/ reg = 2 \/ reg = 3 \/ reg = 4 \/ reg = 5
                     \/ reg = 6 \/ reg = 7) by lia.
    repeat (destruct Hcases as [->|Hcases]; [reflexivity|]). subst reg. reflexivity.
  - intros Hnone. unfold getBaudRateValue.
    destruct (findBaud baudRate SCS_SERIES_BAUD_TABLE) as [r|] eqn:E; [|reflexivity].
    destruct (getBaudRateValue_register baudRate r) as [Hr Hact];
      [unfold getBaudRateValue; now rewrite E|].
    now elim (Hnone r Hr).
Qed.

(* ------------------------------------------------------------------ *)
(** ** The facade: connection *)

Lemma ensureConnected_ok (s : FeetechServo.t) :
  FeetechServo.getConnectionStatus s = true ->
  FeetechServo.ensureConnected s = (Ok tt, s).
Proof. intros H. unfold FeetechServo.ensureConnected. now rewrite H. Qed.

(** Every operation of the facade that uses the port first checks the
    connection: when the facade is not connected, or the port is not open,
    it throws CONNECTION_LOST and nothing is flushed, written or read. *)
Theorem facade_requires_connection
        (s : FeetechServo.t)
        (id newId baudRate position startId endId register width value : Z)
        (speed : option Z) (positions : list (Z * Z)) (ids : list Z) (data : Uint8Array) :
  FeetechServo.getConnectionStatus s = false ->
  FeetechServo.ping id s = notConnected s
  /\ FeetechServo.scan startId endId s = notConnected s
  /\ FeetechServo.readPosition id s = notConnected s
  /\ FeetechServo.writePosition id position speed s = notConnected s
  /\ FeetechServo.enableTorque id s = notConnected s
  /\ FeetechServo.disableTorque id s = notConnected s
  /\ FeetechServo.setID id newId s = notConnected s
  /\ FeetechServo.setBaudRate id baudRate s = notConnected s
  /\ FeetechServo.factoryReset id s = notConnected s
  /\ FeetechServo.reboot id s = notConnected s
  /\ FeetechServo.createSyncWrite register width s = notConnected s
  /\ FeetechServo.createSyncRead register width s = notConnected s
  /\ FeetechServo.syncWritePosition positions s = notConnected s
  /\ FeetechServo.syncReadPosition ids s = notConnected s
  /\ FeetechServo.readByte id register s = notConnected s
  /\ FeetechServo.writeByte id register value s = notConnected s
  /\ FeetechServo.readWord id register s = notConnected s
  /\ FeetechServo.writeWord id register value s = notConnected s
  /\ FeetechServo.readData id register width s = notConnected s
  /\ FeetechServo.writeData id register data s = notConnected s.
Proof.
  intros H.
  assert (He : FeetechServo.ensureConnected s = notConnected s).
  { unfold FeetechServo.ensureConnected, notConnected. now rewrite H. }
  unfold FeetechServo.ping, FeetechServo.scan, FeetechServo.readPosition,
    FeetechServo.writePosition, FeetechServo.enableTorque, FeetechServo.disableTorque,
    FeetechServo.setID, FeetechServo.setBaudRate, FeetechServo.factoryReset,
    FeetechServo.reboot, FeetechServo.createSyncWrite, FeetechServo.createSyncRead,
    FeetechServo.syncWritePosition, FeetechServo.syncReadPosition,
    FeetechServo.readByte, FeetechServo.writeByte, FeetechServo.readWord,
    FeetechServo.writeWord, FeetechServo.readData, FeetechServo.writeData.
  unfold bind. rewrite He. unfold notConnected, throwServoError.
  repeat split.
Qed.

Lemma facade_requires_connection_witness :
  let s := FeetechServo.mk (mkPort [0x01] false [Data [0x02]] []) true [] "scs_series" 1000 in
  FeetechServo.ping 5 s = notConnected s
  /\ FeetechServo.scan 0 253 s = notConnected s.
Proof.
  cbv zeta.
  pose proof (facade_requires_connection
                (FeetechServo.mk (mkPort [0x01] false [Data [0x02]] []) true []
                                 "scs_series" 1000)
                5 6 115200 100 0 253 42 2 1 None [] [] [] eq_refl) as H.
  split; [apply H | apply H].
Defined.

(* ------------------------------------------------------------------ *)
(** ** The facade: positions *)

(** A word made of two bytes is the low byte plus 256 times the high one. *)
Lemma makeWord_add (lo hi : Z) : 0 <= lo < 256 -> makeWord lo hi = lo + 256 * hi.
Proof.
  intros Hlo. unfold makeWord.
  assert (Hland : Z.land (Z.shiftl hi 8) lo = 0).
  { apply Z.bits_inj'. intros n Hn. rewrite Z.land_spec, Z.bits_0.
    destruct (Z.lt_ge_cases n 8) as [H8|H8].
    - rewrite Z.shiftl_spec, Z.testbit_neg_r by lia. reflexivity.
    - rewrite <- (Z.mod_small lo (2 ^ 8)) by (change (2 ^ 8) with 256; lia).
      rewrite Z.mod_pow2_bits_high by lia. apply andb_false_r. }
  pose proof (Z.add_lor_land (Z.shiftl hi 8) lo) as H.
  rewrite Hland in H. rewrite Z.shiftl_mul_pow2 in * by lia.
  change (2 ^ 8) with 256 in *. lia.
Qed.

Lemma writeWord_packet (id address v : Z) :
  PacketHandler.createWritePacket id address
    [toUint8 (getLowByte v); toUint8 (getHighByte v)]
  = PacketHandler.createPacket id WRITE (Some [toUint8 address; v mod 256; v / 256 mod 256]).
Proof.
  rewrite createWritePacket_params, getLowByte_mod, getHighByte_mod.
  rewrite (toUint8_small (v mod 256)), (toUint8_small (v / 256 mod 256))
    by (apply Z.mod_pos_bound; lia).
  reflexivity.
Qed.

(** [writeData] when the status frame of the device arrives as one chunk,
    and when nothing arrives. *)
Lemma writeData_chunk (timeout id address : Z) (data parameters : Uint8Array)
      (line : list Arrival) (st : PortState) :
  0 <= id < 256 -> len parameters <= 253 ->
  isOpen st = true ->
  incoming st = Data (statusFrame id 0 parameters) :: line ->
  ProtocolHandler.writeData timeout id address data st
  = (Ok tt, mkPort [] true line
                   (written st ++ [PacketHandler.createWritePacket id address data])).
Proof.
  intros Hid Hp Hopen Hline.
  unfold ProtocolHandler.writeData, bind.
  rewrite (sendAndReceive_chunk timeout id (statusFrame id 0 parameters)
             (ResponsePacket.mk id 0 parameters (len parameters + 2) 0
                (PacketHandler.calculateChecksum ([id; len parameters + 2; 0] ++ parameters)))
             st line);
    [| now apply statusFrame_parse | apply statusFrame_len | assumption | assumption].
  now rewrite verifyResponse_clean.
Qed.

Lemma writeData_silent (timeout id address : Z) (data : Uint8Array) (st : PortState) :
  isOpen st = true -> len (lineData (incoming st)) < 2 ->
  ProtocolHandler.writeData timeout id address data st
  = (throwServoError "Wait for data timeout" TIMEOUT None,
     mkPort (lineData (incoming st)) true (afterPause (incoming st))
            (written st ++ [PacketHandler.createWritePacket id address data])).
Proof.
  intros Hopen Hline. unfold ProtocolHandler.writeData, bind.
  now rewrite sendAndReceive_silent.
Qed.

Lemma connected_open (s : FeetechServo.t) :
  FeetechServo.getConnectionStatus s = true -> isOpen (FeetechServo.portHandler s) = true.
Proof.
  unfold FeetechServo.getConnectionStatus. intros H.
  now apply andb_true_iff in H.
Qed.

(** [writePosition] of the facade.  The position is clamped to 0..4095 and
    the speed to 0..1023 before they go on the wire, low byte first.
    Without a speed one WRITE goes to register 42.  With a speed the WRITE to
    register 46 goes first and the one to register 42 follows its
    acknowledgement; when the speed is not acknowledged the call fails with
    TIMEOUT and the position is never sent. *)
Theorem writePosition_clamps_and_orders
        (s : FeetechServo.t) (id position speed : Z) (line : list Arrival) :
  FeetechServo.getConnectionStatus s = true ->
  lookup (FeetechServo.defaultModel s) MODEL_CONTROL_TABLE = Some SCS_SERIES_CONTROL_TABLE ->
  0 <= id < 256 ->
  let p := Z.max 0 (Z.min 4095 position) in
  let q := Z.max 0 (Z.min 1023 speed) in
  let positionPkt := PacketHandler.createPacket id WRITE (Some [42; p mod 256; p / 256]) in
  let speedPkt := PacketHandler.createPacket id WRITE (Some [46; q mod 256; q / 256]) in
  let ack := Data (statusFrame id 0 []) in
  let w := written (FeetechServo.portHandler s) in
  (incoming (FeetechServo.portHandler s) = ack :: line ->
   FeetechServo.writePosition id position None s
   = (Ok tt, FeetechServo.withPort s (mkPort [] true line (w ++ [positionPkt]))))
  /\ (incoming (FeetechServo.portHandler s) = ack :: ack :: line ->
      FeetechServo.writePosition id position (Some speed) s
      = (Ok tt, FeetechServo.withPort s (mkPort [] true line (w ++ [speedPkt; positionPkt]))))
  /\ (incoming (FeetechServo.portHandler s) = Silence :: line ->
      exists e,
        FeetechServo.writePosition id position (Some speed) s
        = (Throw (ServoErr e),
           FeetechServo.withPort s (mkPort [] true line (w ++ [speedPkt])))
        /\ code e = TIMEOUT).
Proof.
  intros Hconn Hmodel Hid. cbv zeta.
  pose proof (connected_open s Hconn) as Hopen.
  set (p := Z.max 0 (Z.min 4095 position)).
  set (q := Z.max 0 (Z.min 1023 speed)).
  assert (Hpr : 0 <= p <= 4095) by (unfold p; lia).
  assert (Hqr : 0 <= q <= 1023) by (unfold q; lia).
  assert (Hp : p / 256 mod 256 = p / 256).
  { apply Z.mod_small. split; [apply Z.div_pos; lia|].
    apply Z.div_lt_upper_bound; lia. }
  assert (Hq : q / 256 mod 256 = q / 256).
  { apply Z.mod_small. split; [apply Z.div_pos; lia|].
    apply Z.div_lt_upper_bound; lia. }
  assert (Hclamp : clampPosition position (FeetechServo.getModelByServoId s id) = p)
    by apply clampPosition_bounds.
  assert (Hspeed : clampSpeed speed = q) by reflexivity.
  unfold FeetechServo.writePosition.
  split; [|split]; intros Hline; unfold bind at 1; rewrite (ensureConnected_ok s Hconn);
    cbv beta zeta; rewrite Hclamp; try rewrite Hspeed;
    unfold FeetechServo.onPort, ProtocolHandler.writePosition.
  - unfold bind at 1. unfold ret at 1. unfold bind at 1.
    rewrite (entryOrThrow_known _ "Goal_Position" (mkEntry 42 2) _ Hmodel eq_refl).
    cbn [address]. unfold ProtocolHandler.writeWord.
    rewrite (writeData_chunk (FeetechServo.timeout s) id 42 _ [] line
               (FeetechServo.portHandler s) Hid ltac:(vm_compute; discriminate) Hopen Hline).
    rewrite writeWord_packet. fold p. rewrite Hp. reflexivity.
  - unfold bind at 1. unfold bind at 1.
    rewrite (entryOrThrow_known _ "Goal_Speed" (mkEntry 46 2) _ Hmodel eq_refl).
    cbn [address]. unfold ProtocolHandler.writeWord.
    rewrite (writeData_chunk (FeetechServo.timeout s) id 46 _ [] (Data (statusFrame id 0 []) :: line)
               (FeetechServo.portHandler s) Hid ltac:(vm_compute; discriminate) Hopen Hline).
    unfold bind at 1.
    rewrite (entryOrThrow_known _ "Goal_Position" (mkEntry 42 2) _ Hmodel eq_refl).
    cbn [address].
    rewrite (writeData_chunk (FeetechServo.timeout s) id 42 _ [] line);
      [| exact Hid | vm_compute; discriminate | reflexivity | reflexivity].
    cbn [written]. rewrite !writeWord_packet. fold p q. rewrite Hp, Hq.
    rewrite <- app_assoc. reflexivity.
  - unfold bind at 1. unfold bind at 1.
    rewrite (entryOrThrow_known _ "Goal_Speed" (mkEntry 46 2) _ Hmodel eq_refl).
    cbn [address]. unfold ProtocolHandler.writeWord.
    rewrite writeData_silent by (try assumption; rewrite Hline; vm_compute; reflexivity).
    rewrite Hline. cbn [lineData afterPause].
    rewrite writeWord_packet. fold q. rewrite Hq.
    eexists. split; reflexivity.
Qed.

Lemma writePosition_clamps_and_orders_witness :
  let s := FeetechServo.mk
             (mkPort [0x07] true [Data (statusFrame 5 0 []); Data (statusFrame 5 0 [])] [])
             true [] "sts3215" 1000 in
  FeetechServo.writePosition 5 5000 (Some 2000) s
  = (Ok tt,
     FeetechServo.withPort s
       (mkPort [] true []
               [PacketHandler.createPacket 5 WRITE (Some [46; 255; 3]);
                PacketHandler.createPacket 5 WRITE (Some [42; 255; 15])])).
Proof.
  cbv zeta.
  destruct (writePosition_clamps_and_orders
              (FeetechServo.mk
                 (mkPort [0x07] true [Data (statusFrame 5 0 []); Data (statusFrame 5 0 [])] [])
                 true [] "sts3215" 1000)
              5 5000 2000 [] eq_refl eq_refl ltac:(lia)) as (_ & H & _).
  apply H. reflexivity.
Defined.

(** [readPosition] of the facade asks for the two bytes at register 56 and
    returns the low byte plus 256 times the high byte of the reply. *)
Theorem readPosition_reply
        (s : FeetechServo.t) (id lo hi : Z) (line : list Arrival) :
  FeetechServo.getConnectionStatus s = true ->
  lookup (FeetechServo.defaultModel s) MODEL_CONTROL_TABLE = Some SCS_SERIES_CONTROL_TABLE ->
  0 <= id < 256 -> 0 <= lo < 256 ->
  incoming (FeetechServo.portHandler s) = Data (statusFrame id 0 [lo; hi]) :: line ->
  FeetechServo.readPosition id s
  = (Ok (lo + 256 * hi),
     FeetechServo.withPort s
       (mkPort [] true line
               (written (FeetechServo.portHandler s)
                  ++ [PacketHandler.createPacket id READ (Some [56; 2])]))).
Proof.
  intros Hconn Hmodel Hid Hlo Hline.
  pose proof (connected_open s Hconn) as Hopen.
  unfold FeetechServo.readPosition. unfold bind at 1.
  rewrite (ensureConnected_ok s Hconn).
  unfold FeetechServo.onPort, ProtocolHandler.readPosition. unfold bind at 1.
  rewrite (entryOrThrow_known _ "Present_Position" (mkEntry 56 2) _ Hmodel eq_refl).
  cbn [address]. unfold ProtocolHandler.readWord, bind.
  rewrite (readData_chunk (FeetechServo.timeout s) id 56 2 [lo; hi] line
             (FeetechServo.portHandler s) Hid ltac:(vm_compute; discriminate)
             ltac:(vm_compute; discriminate) Hopen Hline).
  unfold ret. change (slice 0 2 [lo; hi]) with [lo; hi].
  change (at_ [lo; hi] 0) with lo. change (at_ [lo; hi] 1) with hi.
  rewrite makeWord_add by exact Hlo. reflexivity.
Qed.

Lemma readPosition_reply_witness :
  let s := FeetechServo.mk (mkPort [] true [Data (statusFrame 5 0 [0x34; 0x02])] [])
                           true [] "scs_series" 1000 in
  FeetechServo.readPosition 5 s
  = (Ok (0x34 + 256 * 0x02),
     FeetechServo.withPort s
       (mkPort [] true [] [PacketHandler.createPacket 5 READ (Some [56; 2])])).
Proof.
  apply (readPosition_reply
           (FeetechServo.mk (mkPort [] true [Data (statusFrame 5 0 [0x34; 0x02])] [])
                            true [] "scs_series" 1000)
           5 0x34 0x02 []); [reflexivity | reflexivity | lia | lia | reflexivity].
Defined.

(** A new id outside 0..253 is refused before anything is sent: by the
    protocol handler with INVALID_PARAMETER, and by the facade, which tests
    it first, with a plain error.  For a new id within 0..253 the facade
    sends one WRITE of that byte to register 5. *)
Theorem setID_validates_new_id
        (s : FeetechServo.t) (st : PortState) (model : string) (timeout id newId : Z)
        (line : list Arrival) :
  FeetechServo.getConnectionStatus s = true ->
  lookup (FeetechServo.defaultModel s) MODEL_CONTROL_TABLE = Some SCS_SERIES_CONTROL_TABLE ->
  0 <= id < 256 ->
  incoming (FeetechServo.portHandler s) = Data (statusFrame id 0 []) :: line ->
  if (newId <? 0) || (253 <? newId)
  then (exists e, ProtocolHandler.setID model timeout id newId st = (Throw (ServoErr e), st)
                  /\ code e = INVALID_PARAMETER)
       /\ FeetechServo.setID id newId s
          = (Throw (PlainError ("Invalid servo ID: " ++ decimal newId
                                  ++ ". Must be between 0 and 253.")%string), s)
  else FeetechServo.setID id newId s
       = (Ok tt,
          FeetechServo.withPort s
            (mkPort [] true line
                    (written (FeetechServo.portHandler s)
                       ++ [PacketHandler.createPacket id WRITE (Some [5; newId])]))).
Proof.
  intros Hconn Hmodel Hid Hline.
  pose proof (connected_open s Hconn) as Hopen.
  assert (Hfacade :
    FeetechServo.setID id newId s
    = match validateServoId newId with
      | Ok _ => FeetechServo.onPort
                  (ProtocolHandler.setID (FeetechServo.defaultModel s)
                                         (FeetechServo.timeout s) id newId) s
      | Throw e => (Throw e, s)
      | Unfinished => (Unfinished, s)
      end).
  { unfold FeetechServo.setID. unfold bind at 1. rewrite (ensureConnected_ok s Hconn).
    unfold bind, call. destruct (validateServoId newId); reflexivity. }
  rewrite Hfacade. unfold validateServoId, ProtocolHandler.setID.
  destruct ((newId <? 0) || (253 <? newId)) eqn:E.
  - split; [|reflexivity]. eexists. split; reflexivity.
  - apply orb_false_iff in E. destruct E as [E0 E1].
    apply Z.ltb_ge in E0. apply Z.ltb_ge in E1.
    unfold FeetechServo.onPort.
    unfold bind at 1.
    rewrite (entryOrThrow_known _ "ID" (mkEntry 5 1) _ Hmodel eq_refl).
    cbn [address]. unfold ProtocolHandler.writeByte.
    rewrite (writeData_chunk (FeetechServo.timeout s) id 5 _ [] line
               (FeetechServo.portHandler s) Hid ltac:(vm_compute; discriminate) Hopen Hline).
    rewrite createWritePacket_params.
    change 0xFF with (Z.ones 8). rewrite Z.land_ones by lia.
    change (2 ^ 8) with 256. rewrite (Z.mod_small newId 256) by lia.
    rewrite (toUint8_small newId) by lia. reflexivity.
Qed.

Lemma setID_validates_new_id_witness :
  let s := FeetechServo.mk (mkPort [] true [Data (statusFrame 1 0 [])] [])
                           true [] "scs_series" 1000 in
  FeetechServo.setID 1 254 s
  = (Throw (PlainError ("Invalid servo ID: " ++ decimal 254
                          ++ ". Must be between 0 and 253.")%string), s).
Proof.
  cbv zeta.
  apply (setID_validates_new_id
           (FeetechServo.mk (mkPort [] true [Data (statusFrame 1 0 [])] [])
                            true [] "scs_series" 1000)
           (mkPort [] true [] []) "scs_series" 1000 1 254 []
           eq_refl eq_refl ltac:(lia) eq_refl).
Defined.

(* ------------------------------------------------------------------ *)
(** ** The facade: scan *)

Lemma ping_finishes (timeout id : Z) : finishes (ProtocolHandler.ping timeout id).
Proof.
  unfold ProtocolHandler.ping.
  apply finishes_bind; [apply sendAndReceive_finishes|]. intros _.
  apply finishes_tryCatch; [|intros; apply finishes_ret].
  apply finishes_bind; [apply readData_finishes|]. intros modelData.
  apply finishes_tryCatch; [|intros; apply finishes_ret].
  apply finishes_bind; [apply readData_finishes|]. intros fwData. apply finishes_ret.
Qed.

Lemma ping_result_id (timeout id : Z) (st st' : PortState) (result : PingResult) :
  ProtocolHandler.ping timeout id st = (Ok result, st') -> ping_id result = id.
Proof.
  intros Hping.
  destruct (ProtocolHandler.sendAndReceive timeout (PacketHandler.createPingPacket id) id st)
    as [[response|e|] st1] eqn:Hack.
  - destruct (ping_after_ack timeout id st st1 response Hack) as (r & s' & Hrun & Hid).
    congruence.
  - unfold ProtocolHandler.ping in Hping. unfold bind at 1 in Hping.
    rewrite Hack in Hping. discriminate.
  - unfold ProtocolHandler.ping in Hping. unfold bind at 1 in Hping.
    rewrite Hack in Hping. discriminate.
Qed.

(** One round of the loop of [scan]: a result is appended or the failure is
    swallowed. *)
Lemma scan_round (id : Z) (found : list PingResult) (s : FeetechServo.t) :
  exists found' s',
    tryCatch (result <- FeetechServo.ping id ;; ret (found ++ [result]))
             (fun _ => ret found) s
    = (Ok (found ++ found'), s')
    /\ (found' = [] \/ exists result, found' = [result] /\ ping_id result = id).
Proof.
  unfold tryCatch, bind at 1.
  destruct (FeetechServo.ping id s) as [[result|e|] s1] eqn:Hping.
  - exists [result], s1. split; [reflexivity|]. right. exists result. split; [reflexivity|].
    unfold FeetechServo.ping, bind in Hping.
    destruct (FeetechServo.ensureConnected s) as [[[]|e|] s0]; try discriminate.
    unfold FeetechServo.onPort in Hping.
    destruct (ProtocolHandler.ping (FeetechServo.timeout s0) id (FeetechServo.portHandler s0))
      as [r p] eqn:Hp.
    injection Hping as -> _. now apply ping_result_id in Hp.
  - exists [], s1. rewrite app_nil_r. split; [reflexivity | now left].
  - exfalso. unfold FeetechServo.ping, bind in Hping.
    unfold FeetechServo.ensureConnected in Hping.
    destruct (negb (FeetechServo.getConnectionStatus s)); [discriminate|].
    unfold FeetechServo.onPort in Hping.
    pose proof (ping_finishes (FeetechServo.timeout s) id (FeetechServo.portHandler s)) as Hf.
    destruct (ProtocolHandler.ping (FeetechServo.timeout s) id (FeetechServo.portHandler s))
      as [r p].
    injection Hping as -> _. now apply Hf.
Qed.

Lemma scanLoop_returns (count : nat) :
  forall id found s,
    exists more s',
      FeetechServo.scanLoop count id found s = (Ok (found ++ more), s')
      /\ Forall (fun result => id <= ping_id result < id + Z.of_nat count) more
      /\ StronglySorted Z.lt (map ping_id more).
Proof.
  induction count as [|count IH]; intros id found s.
  - exists [], s. rewrite app_nil_r. repeat split; constructor.
  - cbn [FeetechServo.scanLoop]. unfold bind at 1.
    destruct (scan_round id found s) as (found' & s1 & Hround & Hfound').
    rewrite Hround.
    destruct (IH (id + 1) (found ++ found') s1) as (more & s' & Hloop & Hrange & Hsorted).
    exists (found' ++ more), s'. rewrite Hloop, app_assoc. split; [reflexivity|].
    assert (Hmore : Forall (fun result => id < ping_id result < id + Z.of_nat (S count)) more).
    { eapply Forall_impl; [|exact Hrange]. cbv beta. intros r Hr. lia. }
    destruct Hfound' as [->|(result & -> & Hid)]; cbn [app].
    + split; [|exact Hsorted]. eapply Forall_impl; [|exact Hmore]. cbv beta. lia.
    + split.
      * constructor; [lia|]. eapply Forall_impl; [|exact Hmore]. cbv beta. lia.
      * cbn [map]. constructor; [exact Hsorted|].
        rewrite Forall_map. eapply Forall_impl; [|exact Hmore]. cbv beta. lia.
Qed.

(** [scan] on a connected facade throws nothing, whatever the line
    delivers: a ping that fails only leaves its id out.  The results it
    returns are for ids of the range asked for, each at most once, in
    ascending order. *)
Theorem scan_never_throws (startId endId : Z) (s : FeetechServo.t) :
  FeetechServo.getConnectionStatus s = true ->
  (forall e, fst (FeetechServo.scan startId endId s) <> Throw e)
  /\ (forall found,
        fst (FeetechServo.scan startId endId s) = Ok found ->
        Forall (fun result => startId <= ping_id result <= endId) found
        /\ StronglySorted Z.lt (map ping_id found)).
Proof.
  intros Hconn. unfold FeetechServo.scan. unfold bind at 1 2.
  rewrite (ensureConnected_ok s Hconn).
  destruct (scanLoop_returns (Z.to_nat (endId - startId + 1)) startId [] s)
    as (more & s' & Hloop & Hrange & Hsorted).
  rewrite Hloop. cbn [fst app]. split; [intros e; discriminate|].
  intros found Hfound. injection Hfound as <-. split; [|exact Hsorted].
  eapply Forall_impl; [|exact Hrange]. cbv beta. intros r Hr. lia.
Qed.

Lemma scan_never_throws_witness :
  let s := FeetechServo.mk (mkPort [] true [Silence; Data (statusFrame 2 0 [])] [])
                           true [] "scs_series" 1000 in
  (forall e, fst (FeetechServo.scan 1 3 s) <> Throw e)
  /\ (forall found,
        fst (FeetechServo.scan 1 3 s) = Ok found ->
        Forall (fun result => 1 <= ping_id result <= 3) found
        /\ StronglySorted Z.lt (map ping_id found)).
Proof.
  apply (scan_never_throws 1 3
           (FeetechServo.mk (mkPort [] true [Silence; Data (statusFrame 2 0 [])] [])
                            true [] "scs_series" 1000)).
  reflexivity.
Defined.

Lemma connected_withPort (s : FeetechServo.t) (buffer : Uint8Array) (line : list Arrival)
      (w : list Uint8Array) :
  FeetechServo.getConnectionStatus s = true ->
  FeetechServo.getConnectionStatus (FeetechServo.withPort s (mkPort buffer true line w)) = true.
Proof.
  unfold FeetechServo.getConnectionStatus, FeetechServo.withPort.
  cbn [FeetechServo.isConnected FeetechServo.portHandler isOpen].
  intros H. apply andb_true_iff in H. destruct H as [-> _]. reflexivity.
Qed.

(** One round of the loop of [scan] on the bus described by [present]. *)
Lemma scan_round_bus (present : Z -> option (Z * Z * Z)) (id : Z)
      (found : list PingResult) (line : list Arrival) (s : FeetechServo.t) :
  FeetechServo.getConnectionStatus s = true ->
  0 <= id < 256 ->
  incoming (FeetechServo.portHandler s) = pingReplies present id ++ line ->
  tryCatch (result <- FeetechServo.ping id ;; ret (found ++ [result]))
           (fun _ => ret found) s
  = (Ok (found ++ pingFound present id),
     FeetechServo.withPort s
       (mkPort [] true line
               (written (FeetechServo.portHandler s) ++ pingRequests present id))).
Proof.
  intros Hconn Hid Hline.
  pose proof (connected_open s Hconn) as Hopen.
  unfold tryCatch, bind at 1. unfold FeetechServo.ping. unfold bind at 1.
  rewrite (ensureConnected_ok s Hconn). unfold FeetechServo.onPort.
  unfold pingReplies, pingFound, pingRequests in *.
  destruct (present id) as [[[lo hi] fw]|].
  - rewrite (ping_present (FeetechServo.timeout s) id lo hi fw line
               (FeetechServo.portHandler s) Hid Hopen Hline).
    reflexivity.
  - rewrite (ping_absent (FeetechServo.timeout s) id (FeetechServo.portHandler s) Hopen)
      by (rewrite Hline; vm_compute; reflexivity).
    rewrite Hline. cbn [app lineData afterPause]. unfold throwServoError, ret.
    now rewrite app_nil_r.
Qed.

Lemma scanLoop_bus (present : Z -> option (Z * Z * Z)) (line : list Arrival) (count : nat) :
  forall id found s,
    FeetechServo.getConnectionStatus s = true ->
    0 <= id -> id + Z.of_nat count <= 256 ->
    incoming (FeetechServo.portHandler s)
    = flat_map (pingReplies present) (idsFrom id count) ++ line ->
    FeetechServo.scanLoop count id found s
    = (Ok (found ++ flat_map (pingFound present) (idsFrom id count)),
       match count with
       | O => s
       | S _ =>
           FeetechServo.withPort s
             (mkPort [] true line
                     (written (FeetechServo.portHandler s)
                        ++ flat_map (pingRequests present) (idsFrom id count)))
       end).
Proof.
  induction count as [|count IH]; intros id found s Hconn Hid Hcount Hline.
  - cbn [FeetechServo.scanLoop idsFrom flat_map]. unfold ret. now rewrite app_nil_r.
  - cbn [FeetechServo.scanLoop idsFrom flat_map] in *. unfold bind at 1.
    rewrite <- app_assoc in Hline.
    rewrite (scan_round_bus present id found _ s Hconn ltac:(lia) Hline).
    set (s1 := FeetechServo.withPort s _).
    rewrite (IH (id + 1) (found ++ pingFound present id) s1);
      [| now apply connected_withPort | lia | lia | reflexivity].
    rewrite <- app_assoc. f_equal.
    destruct count as [|count'].
    + cbn [idsFrom flat_map]. subst s1. now rewrite app_nil_r.
    + subst s1. unfold FeetechServo.withPort.
      cbn [FeetechServo.isConnected FeetechServo.portHandler FeetechServo.motors
           FeetechServo.defaultModel FeetechServo.timeout written].
      now rewrite <- app_assoc.
Qed.

(** [scan] finds the devices that are there.  On a bus where each id of the
    range either answers its ping and the two reads that follow, or stays
    silent, the result lists exactly the ids that answer, in ascending
    order, each with its model number and firmware version; an id that
    answers is sent three requests, a silent id one. *)
Theorem scan_finds_devices
        (present : Z -> option (Z * Z * Z)) (startId endId : Z) (line : list Arrival)
        (s : FeetechServo.t) :
  FeetechServo.getConnectionStatus s = true ->
  0 <= startId <= endId -> endId < 256 ->
  incoming (FeetechServo.portHandler s)
  = flat_map (pingReplies present) (idRange startId endId) ++ line ->
  FeetechServo.scan startId endId s
  = (Ok (flat_map (pingFound present) (idRange startId endId)),
     FeetechServo.withPort s
       (mkPort [] true line
               (written (FeetechServo.portHandler s)
                  ++ flat_map (pingRequests present) (idRange startId endId)))).
Proof.
  intros Hconn Hstart Hend Hline. unfold FeetechServo.scan. unfold bind at 1.
  rewrite (ensureConnected_ok s Hconn). unfold idRange in *.
  rewrite (scanLoop_bus present line (Z.to_nat (endId - startId + 1)) startId [] s Hconn
             ltac:(lia) ltac:(lia) Hline).
  destruct (Z.to_nat (endId - startId + 1)) eqn:E; [lia|]. reflexivity.
Qed.

Lemma scan_finds_devices_witness :
  let present := fun id => if id =? 2 then Some (0x09, 0x03, 0x0A) else None in
  let s := FeetechServo.mk
             (mkPort [0x55] true
                     [Silence; Data (statusFrame 2 0 []); Data (statusFrame 2 0 [0x09; 0x03]);
                      Data (statusFrame 2 0 [0x0A]); Silence]
                     [])
             true [] "scs_series" 1000 in
  FeetechServo.scan 1 3 s
  = (Ok [mkPing 2 0x0309 0x0A],
     FeetechServo.withPort s
       (mkPort [] true []
               [PacketHandler.createPingPacket 1;
                PacketHandler.createPingPacket 2;
                PacketHandler.createReadPacket 2 3 2;
                PacketHandler.createReadPacket 2 2 1;
                PacketHandler.createPingPacket 3])).
Proof.
  cbv zeta.
  apply (scan_finds_devices
           (fun id => if id =? 2 then Some (0x09, 0x03, 0x0A) else None) 1 3 []
           (FeetechServo.mk
              (mkPort [0x55] true
                      [Silence; Data (statusFrame 2 0 []); Data (statusFrame 2 0 [0x09; 0x03]);
                       Data (statusFrame 2 0 [0x0A]); Silence]
                      [])
              true [] "scs_series" 1000));
    [reflexivity | lia | lia | reflexivity].
Defined.

(* ------------------------------------------------------------------ *)
(** ** Group read: the request, the refusals, the result map *)

Lemma createSyncReadPacket_params (address length : Z) (ids : list Z) :
  PacketHandler.createSyncReadPacket address length ids
  = PacketHandler.createPacket BROADCAST_ID SYNC_READ
      (Some ([toUint8 address; toUint8 length] ++ map toUint8 ids)).
Proof.
  unfold PacketHandler.createSyncReadPacket. f_equal. f_equal.
  replace (2 + len ids) with (len [0; 0] + len (map toUint8 ids))
    by (unfold len; rewrite length_map; simpl List.length; lia).
  rewrite newUint8Array_add by apply len_nonneg.
  replace (newUint8Array (len (map toUint8 ids)))
    with (repeat 0 (List.length (map toUint8 ids)))
    by (unfold newUint8Array, len; now rewrite Nat2Z.id).
  cbn [List.length repeat app]. unfold setIndex, setNumbers. cbn [putIndex].
  pose proof (setArray_app (map toUint8 ids) [toUint8 address; toUint8 length]
                (repeat 0 (List.length (map toUint8 ids))) []
                (repeat_length 0 (List.length (map toUint8 ids)))) as H.
  rewrite !app_nil_r in H. exact H.
Qed.

Lemma readResponse_port (expectedId : Z) (g : GroupSyncRead.t) :
  GroupSyncRead.readResponse expectedId g
  = (fst (Receive.receive (GroupSyncRead.timeout g) expectedId (GroupSyncRead.portHandler g)),
     GroupSyncRead.withPort g
       (snd (Receive.receive (GroupSyncRead.timeout g) expectedId
                             (GroupSyncRead.portHandler g)))).
Proof.
  unfold GroupSyncRead.readResponse, GroupSyncRead.onPort.
  now destruct (Receive.receive _ _ _).
Qed.

Lemma mapSet_Forall {A : Type} (Q : Z * A -> Prop) (k : Z) (v : A) (m : list (Z * A)) :
  Forall Q m -> Q (k, v) -> Forall Q (mapSet k v m).
Proof.
  intros Hm Hq. induction Hm as [|[k' v'] m Hx Hm IH]; cbn [mapSet].
  - repeat constructor. exact Hq.
  - destruct (Z.eqb_spec k' k) as [->|Hne]; constructor; assumption.
Qed.

Lemma mapGet_In {A : Type} (k : Z) (v : A) (m : list (Z * A)) :
  mapGet k m = Some v -> In (k, v) m.
Proof.
  induction m as [|[k' v'] m IH]; cbn [mapGet]; [discriminate|].
  destruct (Z.eqb_spec k' k) as [->|Hne].
  - intros H. injection H as ->. now left.
  - intros H. right. now apply IH.
Qed.

Lemma stored_width (width : Z) (parameters : Uint8Array) :
  0 <= width -> width <= len parameters -> len (slice 0 width parameters) = width.
Proof.
  intros H0 H. rewrite slice_0 by assumption.
  unfold len in *. rewrite length_firstn. lia.
Qed.

Ltac readResponses_step g' :=
  match goal with
  | Hrun : GroupSyncRead.readResponses _ _ = (Ok tt, g') |- _ => rewrite Hrun
  end;
  repeat match goal with
         | H : _ = _ |- _ =>
             progress cbn [GroupSyncRead.address GroupSyncRead.dataLength
                           GroupSyncRead.timeout GroupSyncRead.idList GroupSyncRead.dataMap
                           GroupSyncRead.portHandler GroupSyncRead.withPort
                           GroupSyncRead.withDataMap] in H
         | H : _ <= _ -> _ |- _ =>
             progress cbn [GroupSyncRead.address GroupSyncRead.dataLength
                           GroupSyncRead.timeout GroupSyncRead.idList GroupSyncRead.dataMap
                           GroupSyncRead.portHandler GroupSyncRead.withPort
                           GroupSyncRead.withDataMap] in H
         end;
  exists g';
  split; [reflexivity|]; split; [assumption|]; split; [assumption|];
  split; [assumption|]; split; [assumption|]; split; [congruence|];
  split; [congruence|].

(** The loop over the ids on a line of the model: a read that fails is
    skipped, so the loop runs to its end.  It writes nothing, and what it
    stores is, for an id of the loop, the first [dataLength] bytes of a
    reply. *)
Lemma readResponses_returns (ids : list Z) :
  forall g,
    exists g',
      GroupSyncRead.readResponses ids g = (Ok tt, g')
      /\ GroupSyncRead.address g' = GroupSyncRead.address g
      /\ GroupSyncRead.dataLength g' = GroupSyncRead.dataLength g
      /\ GroupSyncRead.timeout g' = GroupSyncRead.timeout g
      /\ GroupSyncRead.idList g' = GroupSyncRead.idList g
      /\ written (GroupSyncRead.portHandler g') = written (GroupSyncRead.portHandler g)
      /\ isOpen (GroupSyncRead.portHandler g') = isOpen (GroupSyncRead.portHandler g)
      /\ (0 <= GroupSyncRead.dataLength g ->
          forall Q : Z * Uint8Array -> Prop,
            Forall Q (GroupSyncRead.dataMap g) ->
            (forall id data, In id ids -> len data = GroupSyncRead.dataLength g ->
                             Q (id, data)) ->
            Forall Q (GroupSyncRead.dataMap g')).
Proof.
  induction ids as [|id ids IH]; intros g.
  - exists g. cbn [GroupSyncRead.readResponses]. unfold ret.
    repeat split; try reflexivity. intros _ Q HQ _. exact HQ.
  - cbn [GroupSyncRead.readResponses]. unfold bind at 1. unfold tryCatch, bind at 1.
    rewrite readResponse_port.
    pose proof (receive_finishes (GroupSyncRead.timeout g) id (GroupSyncRead.portHandler g))
      as Hfin.
    destruct (silent_receive (GroupSyncRead.timeout g) id (GroupSyncRead.portHandler g))
      as [Hwr Hopen].
    destruct (Receive.receive (GroupSyncRead.timeout g) id (GroupSyncRead.portHandler g))
      as [[response|e|] p]; cbn [fst snd] in *; [| |now elim Hfin].
    + unfold bind, gets.
      cbn [GroupSyncRead.dataLength GroupSyncRead.withPort].
      destruct (negb (len (ResponsePacket.parameters response) <? GroupSyncRead.dataLength g))
        eqn:Ewidth.
      * unfold modify.
        destruct (IH (GroupSyncRead.withDataMap (GroupSyncRead.withPort g p)
                        (mapSet id (slice 0 (GroupSyncRead.dataLength g)
                                          (ResponsePacket.parameters response))
                                (GroupSyncRead.dataMap (GroupSyncRead.withPort g p)))))
          as (g' & Hrun & Ha & Hd & Ht & Hi & Hw & Ho & HQ).
        readResponses_step g'.
        intros Hwidth Q Hm Hnew. apply HQ; [exact Hwidth| |].
        -- apply mapSet_Forall; [exact Hm|]. apply Hnew; [now left|].
           apply stored_width; [exact Hwidth|].
           apply negb_true_iff, Z.ltb_ge in Ewidth. lia.
        -- intros id' data Hin. apply Hnew. now right.
      * unfold ret.
        destruct (IH (GroupSyncRead.withPort g p))
          as (g' & Hrun & Ha & Hd & Ht & Hi & Hw & Ho & HQ).
        readResponses_step g'.
        intros Hwidth Q Hm Hnew. apply HQ; [exact Hwidth|exact Hm|].
        intros id' data Hin. apply Hnew. now right.
    + unfold ret.
      destruct (IH (GroupSyncRead.withPort g p))
        as (g' & Hrun & Ha & Hd & Ht & Hi & Hw & Ho & HQ).
      readResponses_step g'.
      intros Hwidth Q Hm Hnew. apply HQ; [exact Hwidth|exact Hm|].
      intros id' data Hin. apply Hnew. now right.
Qed.

Lemma txRxPacket_runs (g : GroupSyncRead.t) :
  GroupSyncRead.idList g <> [] ->
  isOpen (GroupSyncRead.portHandler g) = true ->
  GroupSyncRead.txRxPacket g
  = GroupSyncRead.readResponses (GroupSyncRead.idList g)
      (GroupSyncRead.mk
         (mkPort [] true (incoming (GroupSyncRead.portHandler g))
                 (written (GroupSyncRead.portHandler g)
                    ++ [PacketHandler.createSyncReadPacket
                          (GroupSyncRead.address g) (GroupSyncRead.dataLength g)
                          (GroupSyncRead.idList g)]))
         (GroupSyncRead.address g) (GroupSyncRead.dataLength g) (GroupSyncRead.timeout g)
         (GroupSyncRead.idList g) []).
Proof.
  intros Hids Hopen. unfold GroupSyncRead.txRxPacket, bind, gets, modify.
  destruct (len (GroupSyncRead.idList g) =? 0) eqn:E.
  { apply Z.eqb_eq in E. unfold len in E.
    destruct (GroupSyncRead.idList g); [congruence | simpl in E; lia]. }
  unfold GroupSyncRead.onPort, WebSerialPortHandler.flush, WebSerialPortHandler.write.
  cbn [GroupSyncRead.portHandler GroupSyncRead.withPort GroupSyncRead.withDataMap
       GroupSyncRead.address GroupSyncRead.dataLength GroupSyncRead.timeout
       GroupSyncRead.idList GroupSyncRead.dataMap isOpen readBuffer incoming written].
  rewrite Hopen. cbn [negb]. reflexivity.
Qed.

(** How [txRxPacket] fails.  Without ids it throws INVALID_PARAMETER and
    leaves the object as it is, results of an earlier run included.  With
    ids on a closed port it fails with CONNECTION_LOST when it comes to write
    the request: by then the earlier results are discarded and the buffer is
    emptied; nothing is written.  And the loop over the ids throws nothing,
    whatever the line delivers: every failure of a read is caught, so no
    exception of the receive path leaves [txRxPacket]. *)
Theorem txRxPacket_completion (g : GroupSyncRead.t) :
  (forall ids e, fst (GroupSyncRead.readResponses ids g) <> Throw e)
  /\ match GroupSyncRead.idList g with
     | [] => exists e, GroupSyncRead.txRxPacket g = (Throw (ServoErr e), g)
                       /\ code e = INVALID_PARAMETER
     | _ :: _ =>
         isOpen (GroupSyncRead.portHandler g) = false ->
         exists e g',
           GroupSyncRead.txRxPacket g = (Throw (ServoErr e), g')
           /\ code e = CONNECTION_LOST
           /\ GroupSyncRead.dataMap g' = []
           /\ GroupSyncRead.idList g' = GroupSyncRead.idList g
           /\ readBuffer (GroupSyncRead.portHandler g') = []
           /\ written (GroupSyncRead.portHandler g')
              = written (GroupSyncRead.portHandler g)
           /\ incoming (GroupSyncRead.portHandler g')
              = incoming (GroupSyncRead.portHandler g)
     end.
Proof.
  split.
  { intros ids e. destruct (readResponses_returns ids g) as (g' & Hrun & _).
    rewrite Hrun. discriminate. }
  destruct (GroupSyncRead.idList g) as [|id ids] eqn:Hids.
  - unfold GroupSyncRead.txRxPacket, bind, gets. rewrite Hids.
    cbn [len List.length Z.of_nat Z.eqb]. eexists. split; reflexivity.
  - intros Hopen.
    unfold GroupSyncRead.txRxPacket, bind, gets, modify. rewrite Hids.
    change (len (id :: ids) =? 0) with false. cbv iota.
    unfold GroupSyncRead.onPort, WebSerialPortHandler.flush, WebSerialPortHandler.write.
    cbn [GroupSyncRead.portHandler GroupSyncRead.withPort GroupSyncRead.withDataMap
         GroupSyncRead.address GroupSyncRead.dataLength GroupSyncRead.timeout
         GroupSyncRead.idList GroupSyncRead.dataMap isOpen readBuffer incoming written].
    rewrite Hopen. cbn [negb].
    eexists. eexists. split; [reflexivity|]. repeat split. exact Hids.
Qed.

(** What a run of [txRxPacket] that returns normally leaves behind, for a
    width [dataLength] that is not negative.  One request went out: the
    SYNC_READ broadcast with the address, the width and the ids in the order
    of their addition.  The result map holds entries for ids of the group
    only, each with data of exactly [dataLength] bytes, so [isAvailable]
    holds for an id exactly when [getData] has data for it. *)
Theorem txRxPacket_postcondition (g g' : GroupSyncRead.t) :
  0 <= GroupSyncRead.dataLength g ->
  GroupSyncRead.txRxPacket g = (Ok tt, g') ->
  GroupSyncRead.idList g' = GroupSyncRead.idList g
  /\ written (GroupSyncRead.portHandler g')
     = written (GroupSyncRead.portHandler g)
         ++ [PacketHandler.createPacket BROADCAST_ID SYNC_READ
               (Some ([toUint8 (GroupSyncRead.address g);
                       toUint8 (GroupSyncRead.dataLength g)]
                        ++ map toUint8 (GroupSyncRead.idList g)))]
  /\ (forall id data,
        fst (GroupSyncRead.getData id g') = Ok (Some data) ->
        In id (GroupSyncRead.idList g)
        /\ len data = GroupSyncRead.dataLength g)
  /\ (forall id,
        fst (GroupSyncRead.isAvailable id g')
        = Ok (match fst (GroupSyncRead.getData id g') with
              | Ok (Some _) => true
              | _ => false
              end)).
Proof.
  intros Hwidth Hret.
  assert (Hids : GroupSyncRead.idList g <> []).
  { intros Hnil. unfold GroupSyncRead.txRxPacket, bind, gets in Hret.
    rewrite Hnil in Hret. cbn [len List.length Z.of_nat Z.eqb] in Hret. discriminate. }
  assert (Hopen : isOpen (GroupSyncRead.portHandler g) = true).
  { destruct (isOpen (GroupSyncRead.portHandler g)) eqn:Hopen; [reflexivity|].
    exfalso. unfold GroupSyncRead.txRxPacket, bind, gets, modify in Hret.
    destruct (len (GroupSyncRead.idList g) =? 0); [discriminate|].
    unfold GroupSyncRead.onPort, WebSerialPortHandler.flush, WebSerialPortHandler.write
      in Hret.
    cbn [GroupSyncRead.portHandler GroupSyncRead.withPort GroupSyncRead.withDataMap
         GroupSyncRead.address GroupSyncRead.dataLength GroupSyncRead.timeout
         GroupSyncRead.idList GroupSyncRead.dataMap isOpen readBuffer incoming written]
      in Hret.
    rewrite Hopen in Hret. cbn [negb] in Hret. discriminate. }
  rewrite txRxPacket_runs in Hret by assumption.
  destruct (readResponses_returns (GroupSyncRead.idList g)
              (GroupSyncRead.mk
                 (mkPort [] true (incoming (GroupSyncRead.portHandler g))
                         (written (GroupSyncRead.portHandler g)
                            ++ [PacketHandler.createSyncReadPacket
                                  (GroupSyncRead.address g) (GroupSyncRead.dataLength g)
                                  (GroupSyncRead.idList g)]))
                 (GroupSyncRead.address g) (GroupSyncRead.dataLength g)
                 (GroupSyncRead.timeout g) (GroupSyncRead.idList g) []))
    as (g'' & Hrun & Ha & Hd & Ht & Hi & Hw & Ho & HQ).
  rewrite Hrun in Hret. injection Hret as ->.
  cbn [GroupSyncRead.address GroupSyncRead.dataLength GroupSyncRead.timeout
       GroupSyncRead.idList GroupSyncRead.dataMap GroupSyncRead.portHandler
       written isOpen] in *.
  split; [exact Hi|].
  split; [now rewrite Hw, createSyncReadPacket_params|].
  specialize (HQ Hwidth
                 (fun entry => In (fst entry) (GroupSyncRead.idList g)
                               /\ len (snd entry) = GroupSyncRead.dataLength g)
                 (Forall_nil _) ltac:(intros id data Hin Hlen; now split)).
  rewrite Forall_forall in HQ.
  assert (Hentry : forall id data,
             mapGet id (GroupSyncRead.dataMap g') = Some data ->
             In id (GroupSyncRead.idList g)
             /\ len data = GroupSyncRead.dataLength g).
  { intros id data Hget. apply mapGet_In in Hget. exact (HQ _ Hget). }
  split.
  - intros id data Hget. unfold GroupSyncRead.getData, gets in Hget. cbn [fst] in Hget.
    injection Hget as Hget. now apply Hentry.
  - intros id. unfold GroupSyncRead.isAvailable, GroupSyncRead.getData, gets. cbn [fst].
    destruct (mapGet id (GroupSyncRead.dataMap g')) as [data|] eqn:Hget; [|reflexivity].
    destruct (Hentry id data Hget) as [_ Hlen]. rewrite Hd.
    replace (len data <? GroupSyncRead.dataLength g) with false
      by (symmetry; apply Z.ltb_ge; lia).
    reflexivity.
Qed.

Lemma txRxPacket_postcondition_witness :
  let g := groupRead123 [Data (reply1 ++ reply3)] in
  let g' := snd (GroupSyncRead.txRxPacket g) in
  GroupSyncRead.idList g' = GroupSyncRead.idList g
  /\ written (GroupSyncRead.portHandler g')
     = written (GroupSyncRead.portHandler g)
         ++ [PacketHandler.createPacket BROADCAST_ID SYNC_READ
               (Some ([toUint8 (GroupSyncRead.address g);
                       toUint8 (GroupSyncRead.dataLength g)]
                        ++ map toUint8 (GroupSyncRead.idList g)))]
  /\ (forall id data,
        fst (GroupSyncRead.getData id g') = Ok (Some data) ->
        In id (GroupSyncRead.idList g)
        /\ len data = GroupSyncRead.dataLength g)
  /\ (forall id,
        fst (GroupSyncRead.isAvailable id g')
        = Ok (match fst (GroupSyncRead.getData id g') with
              | Ok (Some _) => true
              | _ => false
              end)).
Proof.
  apply (txRxPacket_postcondition
           (groupRead123 [Data (reply1 ++ reply3)])
           (snd (GroupSyncRead.txRxPacket (groupRead123 [Data (reply1 ++ reply3)]))));
    [vm_compute; discriminate | vm_compute; reflexivity].
Defined.

Lemma mapSetAll_fresh (adds m : list (Z * Uint8Array)) :
  NoDup (map fst (m ++ adds)) -> mapSetAll adds m = m ++ adds.
Proof.
  revert m. induction adds as [|[k v] adds IH]; intros m Hnd.
  - cbn [mapSetAll fold_left]. now rewrite app_nil_r.
  - unfold mapSetAll. cbn [fold_left fst snd]. fold (mapSetAll adds (mapSet k v m)).
    rewrite mapSet_absent.
    + rewrite IH; rewrite <- app_assoc; [reflexivity | exact Hnd].
    + rewrite map_app in Hnd. cbn [map fst] in Hnd.
      apply NoDup_remove_2 in Hnd. intros Hin. apply Hnd.
      apply in_or_app. now left.
Qed.

(** The loop over the ids when every device answers, in the order of the
    ids, without error bits and with at least [dataLength] bytes. *)
Lemma readResponses_all (answers : list (Z * Uint8Array)) :
  forall (g : GroupSyncRead.t) (rest : Uint8Array),
    isOpen (GroupSyncRead.portHandler g) = true ->
    pending (GroupSyncRead.portHandler g) = syncReplies answers ++ rest ->
    Forall (fun answer => 0 <= fst answer < 256
                          /\ GroupSyncRead.dataLength g <= len (snd answer) <= 253)
           answers ->
    exists g',
      GroupSyncRead.readResponses (map fst answers) g = (Ok tt, g')
      /\ GroupSyncRead.dataMap g'
         = mapSetAll (storedAnswers (GroupSyncRead.dataLength g) answers)
                     (GroupSyncRead.dataMap g)
      /\ pending (GroupSyncRead.portHandler g') = rest
      /\ written (GroupSyncRead.portHandler g') = written (GroupSyncRead.portHandler g).
Proof.
  induction answers as [|[id data] answers IH]; intros g rest Hopen Hpend Hall.
  - exists g. cbn [map GroupSyncRead.readResponses]. unfold ret.
    repeat split. exact Hpend.
  - apply Forall_cons_iff in Hall. destruct Hall as [[Hid Hlen] Hall]. cbn [fst snd] in *.
    cbn [map fst GroupSyncRead.readResponses]. unfold bind at 1. unfold tryCatch, bind at 1.
    rewrite readResponse_port.
    unfold syncReplies in Hpend. cbn [flat_map fst snd] in Hpend.
    fold (syncReplies answers) in Hpend. rewrite <- app_assoc in Hpend.
    destruct (receive_extracts (GroupSyncRead.timeout g) id (GroupSyncRead.portHandler g)
                [] (statusFrame id 0 data) (syncReplies answers ++ rest) Hopen Hpend)
      as (st' & Hrecv & Hpend' & Hopen' & Hwr').
    + intros i Hi. simpl in Hi. lia.
    + reflexivity.
    + reflexivity.
    + rewrite statusFrame_len. pose proof (len_nonneg data). lia.
    + rewrite statusFrame_len. reflexivity.
    + rewrite Hrecv, statusFrame_parse, verifyResponse_clean by lia.
      cbn [fst snd]. unfold bind, gets.
      cbn [GroupSyncRead.dataLength GroupSyncRead.withPort ResponsePacket.parameters].
      replace (len data <? GroupSyncRead.dataLength g) with false
        by (symmetry; apply Z.ltb_ge; lia).
      cbn [negb]. unfold modify.
      destruct (IH (GroupSyncRead.withDataMap (GroupSyncRead.withPort g st')
                      (mapSet id (slice 0 (GroupSyncRead.dataLength g) data)
                              (GroupSyncRead.dataMap (GroupSyncRead.withPort g st'))))
                   rest Hopen' Hpend' Hall)
        as (g' & Hrun & Hmap & Hrest & Hwr).
      exists g'. rewrite Hrun. split; [reflexivity|].
      split; [exact Hmap|]. split; [exact Hrest|].
      rewrite Hwr. exact Hwr'.
Qed.

Lemma txRxPacket_answers
      (g : GroupSyncRead.t) (answers : list (Z * Uint8Array)) (rest : Uint8Array) :
  answers <> [] ->
  GroupSyncRead.idList g = map fst answers ->
  NoDup (GroupSyncRead.idList g) ->
  Forall (fun answer => 0 <= fst answer < 256
                        /\ GroupSyncRead.dataLength g <= len (snd answer) <= 253)
         answers ->
  isOpen (GroupSyncRead.portHandler g) = true ->
  lineData (incoming (GroupSyncRead.portHandler g)) = syncReplies answers ++ rest ->
  exists g',
    GroupSyncRead.txRxPacket g = (Ok tt, g')
    /\ GroupSyncRead.dataMap g' = storedAnswers (GroupSyncRead.dataLength g) answers
    /\ pending (GroupSyncRead.portHandler g') = rest
    /\ written (GroupSyncRead.portHandler g')
       = written (GroupSyncRead.portHandler g)
           ++ [PacketHandler.createSyncReadPacket
                 (GroupSyncRead.address g) (GroupSyncRead.dataLength g)
                 (GroupSyncRead.idList g)].
Proof.
  intros Hne Hids Hnd Hall Hopen Hline.
  rewrite txRxPacket_runs;
    [| rewrite Hids; destruct answers; [congruence | discriminate] | assumption].
  rewrite Hids.
  destruct (readResponses_all answers
              (GroupSyncRead.mk
                 (mkPort [] true (incoming (GroupSyncRead.portHandler g))
                         (written (GroupSyncRead.portHandler g)
                            ++ [PacketHandler.createSyncReadPacket
                                  (GroupSyncRead.address g) (GroupSyncRead.dataLength g)
                                  (map fst answers)]))
                 (GroupSyncRead.address g) (GroupSyncRead.dataLength g)
                 (GroupSyncRead.timeout g) (map fst answers) [])
              rest eq_refl Hline Hall)
    as (g' & Hrun & Hmap & Hrest & Hwr).
  exists g'. split; [exact Hrun|]. split; [|split; [exact Hrest | exact Hwr]].
  rewrite Hmap. cbn [GroupSyncRead.dataMap GroupSyncRead.dataLength].
  rewrite mapSetAll_fresh; [reflexivity|].
  cbn [app]. unfold storedAnswers. rewrite map_map. cbn [fst].
  rewrite Hids in Hnd. exact Hnd.
Qed.

(** A sync read that every device answers, for a width [dataLength] that is
    not negative.  When the devices of the group answer in the order of the
    ids, without error bits and each with at least [dataLength] bytes, the
    result map holds for each id the first [dataLength] bytes of its reply,
    in the order of the ids, and what follows the last reply on the line is
    left unread. *)
Theorem txRxPacket_collects_all
        (g : GroupSyncRead.t) (answers : list (Z * Uint8Array)) (rest : Uint8Array) :
  0 <= GroupSyncRead.dataLength g ->
  answers <> [] ->
  GroupSyncRead.idList g = map fst answers ->
  NoDup (GroupSyncRead.idList g) ->
  Forall (fun answer => 0 <= fst answer < 256
                        /\ GroupSyncRead.dataLength g <= len (snd answer) <= 253)
         answers ->
  isOpen (GroupSyncRead.portHandler g) = true ->
  lineData (incoming (GroupSyncRead.portHandler g)) = syncReplies answers ++ rest ->
  exists g',
    GroupSyncRead.txRxPacket g = (Ok tt, g')
    /\ GroupSyncRead.dataMap g' = storedAnswers (GroupSyncRead.dataLength g) answers
    /\ pending (GroupSyncRead.portHandler g') = rest.
Proof.
  intros Hwidth Hne Hids Hnd Hall Hopen Hline.
  destruct (txRxPacket_answers g answers rest Hne Hids Hnd Hall Hopen Hline)
    as (g' & Hrun & Hmap & Hrest & _).
  exists g'. repeat split; assumption.
Qed.

Lemma txRxPacket_collects_all_witness :
  let g := groupRead123 [Data reply1; Data (statusFrame 2 0 [0x00; 0x08; 0x01] ++ reply3)] in
  exists g',
    GroupSyncRead.txRxPacket g = (Ok tt, g')
    /\ GroupSyncRead.dataMap g'
       = storedAnswers (GroupSyncRead.dataLength g)
           [(1, [0x07; 0x08]); (2, [0x00; 0x08; 0x01]); (3, [0x09; 0x0A])]
    /\ pending (GroupSyncRead.portHandler g') = [].
Proof.
  apply (txRxPacket_collects_all
           (groupRead123 [Data reply1; Data (statusFrame 2 0 [0x00; 0x08; 0x01] ++ reply3)])
           [(1, [0x07; 0x08]); (2, [0x00; 0x08; 0x01]); (3, [0x09; 0x0A])] []).
  - vm_compute. discriminate.
  - discriminate.
  - reflexivity.
  - vm_compute. repeat constructor; simpl; intuition discriminate.
  - repeat constructor; vm_compute; discriminate.
  - reflexivity.
  - vm_compute. reflexivity.
Defined.

Lemma NoDup_filter_keys {A : Type} (f : Z * A -> bool) (l : list (Z * A)) :
  NoDup (map fst l) -> NoDup (map fst (filter f l)).
Proof.
  induction l as [|x l IH]; intros Hnd; cbn [filter map]; [constructor|].
  cbn [map] in Hnd. apply NoDup_cons_iff in Hnd. destruct Hnd as [Hnot Hnd].
  destruct (f x); [|now apply IH].
  cbn [map]. constructor; [|now apply IH].
  intros Hin. apply Hnot. apply in_map_iff in Hin. destruct Hin as (y & Hy & Hin).
  apply filter_In in Hin. apply in_map_iff. exists y. split; [exact Hy | apply Hin].
Qed.

(** The loop over the ids when every device answers, some with error bits
    or with too little data. *)
Lemma readResponses_faulty (answers : list (Z * (Z * Uint8Array))) :
  forall (g : GroupSyncRead.t) (rest : Uint8Array),
    isOpen (GroupSyncRead.portHandler g) = true ->
    pending (GroupSyncRead.portHandler g) = syncRepliesWithErrors answers ++ rest ->
    Forall (fun answer => 0 <= fst answer < 256 /\ len (snd (snd answer)) <= 253) answers ->
    exists g',
      GroupSyncRead.readResponses (map fst answers) g = (Ok tt, g')
      /\ GroupSyncRead.dataMap g'
         = mapSetAll (usableAnswers (GroupSyncRead.dataLength g) answers)
                     (GroupSyncRead.dataMap g)
      /\ pending (GroupSyncRead.portHandler g') = rest.
Proof.
  induction answers as [|[id [error data]] answers IH]; intros g rest Hopen Hpend Hall.
  - exists g. cbn [map GroupSyncRead.readResponses]. unfold ret.
    repeat split. exact Hpend.
  - apply Forall_cons_iff in Hall. destruct Hall as [[Hid Hlen] Hall]. cbn [fst snd] in *.
    cbn [map fst GroupSyncRead.readResponses]. unfold bind at 1. unfold tryCatch, bind at 1.
    rewrite readResponse_port.
    unfold syncRepliesWithErrors in Hpend. cbn [flat_map fst snd] in Hpend.
    fold (syncRepliesWithErrors answers) in Hpend. rewrite <- app_assoc in Hpend.
    destruct (receive_extracts (GroupSyncRead.timeout g) id (GroupSyncRead.portHandler g)
                [] (statusFrame id error data) (syncRepliesWithErrors answers ++ rest)
                Hopen Hpend)
      as (st' & Hrecv & Hpend' & Hopen' & Hwr').
    + intros i Hi. simpl in Hi. lia.
    + reflexivity.
    + reflexivity.
    + rewrite statusFrame_len. pose proof (len_nonneg data). lia.
    + rewrite statusFrame_len. reflexivity.
    + rewrite Hrecv, statusFrame_parse by lia. cbn [fst snd].
      unfold verifyResponse. cbn [ResponsePacket.id]. rewrite Z.eqb_refl. cbn [negb].
      unfold usableAnswers, usable. cbn [filter fst snd].
      pose proof (checkError_cases
                    (ResponsePacket.mk id 0 data (len data + 2) error
                       (PacketHandler.calculateChecksum ([id; len data + 2; error] ++ data))))
        as Hcheck.
      cbn [ResponsePacket.error ResponsePacket.id] in Hcheck.
      destruct (Z.land error 127 =? 0).
      * rewrite Hcheck. unfold bind, gets.
        cbn [GroupSyncRead.dataLength GroupSyncRead.withPort ResponsePacket.parameters andb].
        destruct (negb (len data <? GroupSyncRead.dataLength g)).
        -- unfold modify.
           destruct (IH (GroupSyncRead.withDataMap (GroupSyncRead.withPort g st')
                           (mapSet id (slice 0 (GroupSyncRead.dataLength g) data)
                                   (GroupSyncRead.dataMap (GroupSyncRead.withPort g st'))))
                        rest Hopen' Hpend' Hall)
             as (g' & Hrun & Hmap & Hrest).
           exists g'. rewrite Hrun. split; [reflexivity|]. split; [exact Hmap | exact Hrest].
        -- unfold ret.
           destruct (IH (GroupSyncRead.withPort g st') rest Hopen' Hpend' Hall)
             as (g' & Hrun & Hmap & Hrest).
           exists g'. rewrite Hrun. split; [reflexivity|]. split; [exact Hmap | exact Hrest].
      * destruct Hcheck as (e & -> & _). cbn [andb]. unfold ret.
        destruct (IH (GroupSyncRead.withPort g st') rest Hopen' Hpend' Hall)
          as (g' & Hrun & Hmap & Hrest).
        exists g'. rewrite Hrun. split; [reflexivity|]. split; [exact Hmap | exact Hrest].
Qed.

(** A sync read with faulty replies, for a width [dataLength] that is not
    negative.  When every device of the group answers, in the order of the
    ids, a reply with one of the error bits 0..6 set, or with fewer than
    [dataLength] bytes, is consumed and left out; the replies of the devices
    that follow it are still stored under their ids.  (It is a reply that
    does not come at all that costs the later ones.) *)
Theorem txRxPacket_skips_faulty_replies
        (g : GroupSyncRead.t) (answers : list (Z * (Z * Uint8Array))) (rest : Uint8Array) :
  0 <= GroupSyncRead.dataLength g ->
  answers <> [] ->
  GroupSyncRead.idList g = map fst answers ->
  NoDup (GroupSyncRead.idList g) ->
  Forall (fun answer => 0 <= fst answer < 256 /\ len (snd (snd answer)) <= 253) answers ->
  isOpen (GroupSyncRead.portHandler g) = true ->
  lineData (incoming (GroupSyncRead.portHandler g)) = syncRepliesWithErrors answers ++ rest ->
  exists g',
    GroupSyncRead.txRxPacket g = (Ok tt, g')
    /\ GroupSyncRead.dataMap g' = usableAnswers (GroupSyncRead.dataLength g) answers
    /\ pending (GroupSyncRead.portHandler g') = rest.
Proof.
  intros Hwidth Hne Hids Hnd Hall Hopen Hline.
  rewrite txRxPacket_runs;
    [| rewrite Hids; destruct answers; [congruence | discriminate] | assumption].
  rewrite Hids.
  destruct (readResponses_faulty answers
              (GroupSyncRead.mk
                 (mkPort [] true (incoming (GroupSyncRead.portHandler g))
                         (written (GroupSyncRead.portHandler g)
                            ++ [PacketHandler.createSyncReadPacket
                                  (GroupSyncRead.address g) (GroupSyncRead.dataLength g)
                                  (map fst answers)]))
                 (GroupSyncRead.address g) (GroupSyncRead.dataLength g)
                 (GroupSyncRead.timeout g) (map fst answers) [])
              rest eq_refl Hline Hall)
    as (g' & Hrun & Hmap & Hrest).
  exists g'. split; [exact Hrun|]. split; [|exact Hrest].
  rewrite Hmap. cbn [GroupSyncRead.dataMap GroupSyncRead.dataLength].
  rewrite mapSetAll_fresh; [reflexivity|].
  cbn [app]. unfold usableAnswers. rewrite map_map. cbn [fst].
  apply NoDup_filter_keys. rewrite Hids in Hnd. exact Hnd.
Qed.

Lemma txRxPacket_skips_faulty_replies_witness :
  let g := groupRead123 [Data (reply1 ++ statusFrame 2 0x04 [0x05; 0x06]); Data reply3] in
  exists g',
    GroupSyncRead.txRxPacket g = (Ok tt, g')
    /\ GroupSyncRead.dataMap g'
       = usableAnswers (GroupSyncRead.dataLength g)
           [(1, (0, [0x07; 0x08])); (2, (0x04, [0x05; 0x06])); (3, (0, [0x09; 0x0A]))]
    /\ pending (GroupSyncRead.portHandler g') = [].
Proof.
  apply (txRxPacket_skips_faulty_replies
           (groupRead123 [Data (reply1 ++ statusFrame 2 0x04 [0x05; 0x06]); Data reply3])
           [(1, (0, [0x07; 0x08])); (2, (0x04, [0x05; 0x06])); (3, (0, [0x09; 0x0A]))] []).
  - vm_compute. discriminate.
  - discriminate.
  - reflexivity.
  - vm_compute. repeat constructor; simpl; intuition discriminate.
  - repeat constructor; vm_compute; discriminate.
  - reflexivity.
  - vm_compute. reflexivity.
Defined.

(* ------------------------------------------------------------------ *)
(** ** Group objects: the id set and the parameter map *)

Lemma mapGet_mapSet_same {A : Type} (k : Z) (v : A) (m : list (Z * A)) :
  mapGet k (mapSet k v m) = Some v.
Proof.
  induction m as [|[k' v'] m IH]; cbn [mapSet mapGet].
  - now rewrite Z.eqb_refl.
  - destruct (Z.eqb_spec k' k) as [->|Hne]; cbn [mapGet].
    + now rewrite Z.eqb_refl.
    + destruct (Z.eqb_spec k' k); [contradiction | exact IH].
Qed.

Lemma mapGet_mapSet_other {A : Type} (k k' : Z) (v : A) (m : list (Z * A)) :
  k' <> k -> mapGet k' (mapSet k v m) = mapGet k' m.
Proof.
  intros Hne. induction m as [|[k0 v0] m IH]; cbn [mapSet mapGet].
  - destruct (Z.eqb_spec k k'); [congruence | reflexivity].
  - destruct (Z.eqb_spec k0 k) as [->|Hk]; cbn [mapGet].
    + destruct (Z.eqb_spec k k'); [congruence | reflexivity].
    + now rewrite IH.
Qed.

Lemma mapGet_mapDelete_same {A : Type} (k : Z) (m : list (Z * A)) :
  mapGet k (mapDelete k m) = None.
Proof.
  unfold mapDelete. induction m as [|[k' v'] m IH]; cbn [filter fst mapGet]; [reflexivity|].
  destruct (Z.eqb_spec k' k) as [->|Hne]; cbn [negb mapGet]; [exact IH|].
  destruct (Z.eqb_spec k' k); [contradiction | exact IH].
Qed.

Lemma mapGet_mapDelete_other {A : Type} (k k' : Z) (m : list (Z * A)) :
  k' <> k -> mapGet k' (mapDelete k m) = mapGet k' m.
Proof.
  intros Hne. unfold mapDelete.
  induction m as [|[k0 v0] m IH]; cbn [filter fst mapGet]; [reflexivity|].
  destruct (Z.eqb_spec k0 k) as [->|Hk]; cbn [negb mapGet].
  - destruct (Z.eqb_spec k k'); [congruence | exact IH].
  - now rewrite IH.
Qed.

Lemma existsb_setAdd (id x : Z) (s : list Z) :
  existsb (fun y => y =? x) (setAdd id s)
  = (id =? x) || existsb (fun y => y =? x) s.
Proof.
  induction s as [|y s IH]; cbn [setAdd existsb].
  - reflexivity.
  - destruct (Z.eqb_spec y id) as [->|Hne]; cbn [existsb].
    + destruct (id =? x); reflexivity.
    + rewrite IH. destruct (y =? x), (id =? x); reflexivity.
Qed.

Lemma existsb_setDelete (id x : Z) (s : list Z) :
  existsb (fun y => y =? x) (setDelete id s)
  = negb (id =? x) && existsb (fun y => y =? x) s.
Proof.
  unfold setDelete. induction s as [|y s IH]; cbn [filter existsb].
  - now rewrite andb_false_r.
  - destruct (Z.eqb_spec y id) as [->|Hne]; cbn [negb existsb].
    + rewrite IH. destruct (id =? x); reflexivity.
    + rewrite IH. destruct (Z.eqb_spec y x) as [->|Hx]; cbn [orb].
      * destruct (Z.eqb_spec id x); [congruence | reflexivity].
      * reflexivity.
Qed.

Lemma setAdd_present (id : Z) (s : list Z) :
  existsb (fun y => y =? id) s = true -> setAdd id s = s.
Proof.
  induction s as [|y s IH]; cbn [setAdd existsb]; [discriminate|].
  destruct (Z.eqb_spec y id) as [->|Hne]; [reflexivity|].
  cbn [orb]. intros H. now rewrite IH.
Qed.

Lemma setAdd_absent (id : Z) (s : list Z) :
  existsb (fun y => y =? id) s = false -> setAdd id s = s ++ [id].
Proof.
  induction s as [|y s IH]; cbn [setAdd existsb app]; [reflexivity|].
  destruct (Z.eqb_spec y id) as [->|Hne]; [discriminate|].
  cbn [orb]. intros H. now rewrite IH.
Qed.

(** The ids of a group read behave as a set kept in insertion order.
    [addParam] makes the id a member, at the end if it is new, and changes
    nothing if it is not; it touches no result.  [removeParam] takes the id
    out and drops the result cached for it; other ids keep their membership
    and their results. *)
Theorem groupSyncRead_id_set (g : GroupSyncRead.t) (id other : Z) :
  let added := snd (GroupSyncRead.addParam id g) in
  let removed := snd (GroupSyncRead.removeParam id g) in
  fst (GroupSyncRead.hasParam id added) = Ok true
  /\ GroupSyncRead.idList added
     = (if existsb (fun x => x =? id) (GroupSyncRead.idList g)
        then GroupSyncRead.idList g
        else GroupSyncRead.idList g ++ [id])
  /\ GroupSyncRead.dataMap added = GroupSyncRead.dataMap g
  /\ snd (GroupSyncRead.addParam id added) = added
  /\ fst (GroupSyncRead.hasParam id removed) = Ok false
  /\ fst (GroupSyncRead.getData id removed) = Ok None
  /\ fst (GroupSyncRead.isAvailable id removed) = Ok false
  /\ (other <> id ->
      fst (GroupSyncRead.hasParam other added) = fst (GroupSyncRead.hasParam other g)
      /\ fst (GroupSyncRead.hasParam other removed) = fst (GroupSyncRead.hasParam other g)
      /\ fst (GroupSyncRead.getData other removed) = fst (GroupSyncRead.getData other g)).
Proof.
  cbv zeta.
  unfold GroupSyncRead.addParam, GroupSyncRead.removeParam, GroupSyncRead.hasParam,
    GroupSyncRead.getData, GroupSyncRead.isAvailable, bind, modify, gets.
  cbn [fst snd GroupSyncRead.idList GroupSyncRead.dataMap GroupSyncRead.withIdList
       GroupSyncRead.withDataMap GroupSyncRead.portHandler GroupSyncRead.address
       GroupSyncRead.dataLength GroupSyncRead.timeout].
  rewrite !existsb_setAdd, !existsb_setDelete, !mapGet_mapDelete_same, Z.eqb_refl.
  cbn [orb negb andb].
  split; [reflexivity|]. split.
  { destruct (existsb (fun x => x =? id) (GroupSyncRead.idList g)) eqn:E;
      [now apply setAdd_present | now apply setAdd_absent]. }
  split; [reflexivity|]. split.
  { unfold GroupSyncRead.withIdList.
    cbn [GroupSyncRead.idList GroupSyncRead.dataMap GroupSyncRead.portHandler
         GroupSyncRead.address GroupSyncRead.dataLength GroupSyncRead.timeout].
    f_equal. apply setAdd_present. rewrite existsb_setAdd, Z.eqb_refl. reflexivity. }
  split; [reflexivity|]. split; [reflexivity|]. split; [reflexivity|].
  intros Hne. rewrite mapGet_mapDelete_other by exact Hne.
  destruct (Z.eqb_spec id other); [congruence|]. repeat split.
Qed.

(** The parameters of a group write behave as a map.  After an [addParam]
    that passes the length test, [getParam] returns the data added for the
    id; [removeParam] takes the entry out; other ids are not affected by
    either.  [txPacket] keeps the parameters whether it succeeds or not, so
    the next [txPacket] sends them again. *)
Theorem groupSyncWrite_param_map (g : GroupSyncWrite.t) (id other : Z) (data : Uint8Array) :
  len data = GroupSyncWrite.dataLength g ->
  let added := snd (GroupSyncWrite.addParam id data g) in
  let removed := snd (GroupSyncWrite.removeParam id g) in
  fst (GroupSyncWrite.getParam id added) = Ok (Some data)
  /\ fst (GroupSyncWrite.hasParam id added) = Ok true
  /\ fst (GroupSyncWrite.getParam id removed) = Ok None
  /\ fst (GroupSyncWrite.hasParam id removed) = Ok false
  /\ (other <> id ->
      fst (GroupSyncWrite.getParam other added) = fst (GroupSyncWrite.getParam other g)
      /\ fst (GroupSyncWrite.getParam other removed)
         = fst (GroupSyncWrite.getParam other g))
  /\ GroupSyncWrite.dataMap (snd (GroupSyncWrite.txPacket g)) = GroupSyncWrite.dataMap g
  /\ fst (GroupSyncWrite.getParamCount (snd (GroupSyncWrite.clearParam g))) = Ok 0.
Proof.
  intros Hlen. cbv zeta. rewrite (addParam_ok id data g Hlen).
  unfold GroupSyncWrite.removeParam, GroupSyncWrite.hasParam, GroupSyncWrite.getParam,
    GroupSyncWrite.getParamCount, GroupSyncWrite.clearParam, modify, gets, mapHas.
  cbn [fst snd GroupSyncWrite.dataMap GroupSyncWrite.withDataMap].
  rewrite mapGet_mapSet_same, mapGet_mapDelete_same.
  split; [reflexivity|]. split; [reflexivity|]. split; [reflexivity|].
  split; [reflexivity|]. split.
  { intros Hne. now rewrite mapGet_mapSet_other, mapGet_mapDelete_other by exact Hne. }
  split; [|reflexivity].
  unfold GroupSyncWrite.txPacket, bind, gets.
  destruct (len (GroupSyncWrite.dataMap g) =? 0); [reflexivity|].
  unfold GroupSyncWrite.onPort, WebSerialPortHandler.flush, WebSerialPortHandler.write.
  cbn [GroupSyncWrite.portHandler GroupSyncWrite.withPort isOpen].
  destruct (negb (isOpen (GroupSyncWrite.portHandler g))); reflexivity.
Qed.

Lemma groupSyncWrite_param_map_witness :
  let g := GroupSyncWrite.mk (mkPort [] true [] []) 42 2 [(1, [0x00; 0x08])] in
  let added := snd (GroupSyncWrite.addParam 2 [0xFF; 0x0F] g) in
  fst (GroupSyncWrite.getParam 2 added) = Ok (Some [0xFF; 0x0F])
  /\ fst (GroupSyncWrite.hasParam 2 added) = Ok true.
Proof.
  cbv zeta.
  pose proof (groupSyncWrite_param_map
                (GroupSyncWrite.mk (mkPort [] true [] []) 42 2 [(1, [0x00; 0x08])])
                2 1 [0xFF; 0x0F] eq_refl) as H.
  cbv zeta in H. split; apply H.
Defined.

(* ------------------------------------------------------------------ *)
(** ** The facade: group write and group read of positions *)

Lemma withPort_same (s : FeetechServo.t) :
  FeetechServo.withPort s (FeetechServo.portHandler s) = s.
Proof. now destruct s. Qed.

Lemma facade_entry (s : FeetechServo.t) (dataName : string) (entry : ControlTableEntry) :
  lookup (FeetechServo.defaultModel s) MODEL_CONTROL_TABLE = Some SCS_SERIES_CONTROL_TABLE ->
  lookup dataName SCS_SERIES_CONTROL_TABLE = Some entry ->
  FeetechServo.entryOrThrow dataName s = (Ok entry, s).
Proof.
  intros Hmodel Hname.
  unfold FeetechServo.entryOrThrow, bind, call, getControlTableEntry.
  rewrite Hmodel, Hname. reflexivity.
Qed.

Lemma addPositions_addParams (s : FeetechServo.t) (positions : list (Z * Z)) :
  FeetechServo.addPositions s positions = addParams (positionData positions).
Proof.
  induction positions as [|[id position] positions IH]; [reflexivity|].
  cbn [FeetechServo.addPositions positionData map addParams fst snd].
  fold (positionData positions). rewrite IH, clampPosition_bounds.
  set (p := Z.max 0 (Z.min 4095 position)).
  assert (Hpr : 0 <= p <= 4095) by (unfold p; lia).
  rewrite getLowByte_mod, getHighByte_mod.
  rewrite (toUint8_small (p mod 256)), (toUint8_small (p / 256 mod 256))
    by (apply Z.mod_pos_bound; lia).
  rewrite (Z.mod_small (p / 256) 256); [reflexivity|].
  split; [apply Z.div_pos; lia | apply Z.div_lt_upper_bound; lia].
Qed.

Lemma positionData_width (positions : list (Z * Z)) (id : Z) (data : Uint8Array) :
  In (id, data) (positionData positions) -> len data = 2.
Proof.
  unfold positionData. rewrite in_map_iff. intros ([id' position] & H & _).
  injection H as _ <-. reflexivity.
Qed.

(** [syncWritePosition] sends one SYNC_WRITE broadcast to register 42 with
    width 2: for each id, in the order of first occurrence, the position
    given last for it, clamped to 0..4095, low byte first.  It waits for no
    reply.  With no positions it throws INVALID_PARAMETER and touches
    nothing. *)
Theorem syncWritePosition_packet (s : FeetechServo.t) (positions : list (Z * Z)) :
  FeetechServo.getConnectionStatus s = true ->
  lookup (FeetechServo.defaultModel s) MODEL_CONTROL_TABLE = Some SCS_SERIES_CONTROL_TABLE ->
  match positions with
  | [] => exists e, FeetechServo.syncWritePosition positions s = (Throw (ServoErr e), s)
                    /\ code e = INVALID_PARAMETER
  | _ :: _ =>
      let adds := positionData positions in
      let entries := map (fun id => (id, lastAdded id adds []))
                         (firstOccurrences [] (map fst adds)) in
      FeetechServo.syncWritePosition positions s
      = (Ok tt,
         FeetechServo.withPort s
           (mkPort [] true (incoming (FeetechServo.portHandler s))
                   (written (FeetechServo.portHandler s)
                      ++ [PacketHandler.createPacket BROADCAST_ID SYNC_WRITE
                            (Some ([42; 2] ++ entryBytes entries))])))
  end.
Proof.
  intros Hconn Hmodel.
  pose proof (connected_open s Hconn) as Hopen.
  assert (Hrun :
    FeetechServo.syncWritePosition positions s
    = FeetechServo.onSyncWrite (GroupSyncWrite.mk (FeetechServo.portHandler s) 42 2 [])
        (addParams (positionData positions) ;; GroupSyncWrite.txPacket) s).
  { unfold FeetechServo.syncWritePosition. unfold bind at 1.
    rewrite (ensureConnected_ok s Hconn). unfold bind at 1.
    rewrite (facade_entry s "Goal_Position" (mkEntry 42 2) Hmodel eq_refl).
    unfold bind at 1. unfold FeetechServo.createSyncWrite. unfold bind at 1.
    rewrite (ensureConnected_ok s Hconn). unfold gets. cbn [address size].
    now rewrite addPositions_addParams. }
  assert (Hadd :
    FeetechServo.onSyncWrite (GroupSyncWrite.mk (FeetechServo.portHandler s) 42 2 [])
      (addParams (positionData positions) ;; GroupSyncWrite.txPacket) s
    = (fst (GroupSyncWrite.txPacket
              (GroupSyncWrite.mk (FeetechServo.portHandler s) 42 2
                 (mapSetAll (positionData positions) []))),
       FeetechServo.withPort s
         (GroupSyncWrite.portHandler
            (snd (GroupSyncWrite.txPacket
                    (GroupSyncWrite.mk (FeetechServo.portHandler s) 42 2
                       (mapSetAll (positionData positions) []))))))).
  { unfold FeetechServo.onSyncWrite.
    cbn [GroupSyncWrite.withPort GroupSyncWrite.address GroupSyncWrite.dataLength
         GroupSyncWrite.dataMap].
    unfold bind at 1.
    rewrite addParams_run
      by (intros id data Hin; cbn [GroupSyncWrite.dataLength];
          now apply positionData_width in Hin).
    cbn [GroupSyncWrite.withDataMap GroupSyncWrite.portHandler GroupSyncWrite.address
         GroupSyncWrite.dataLength GroupSyncWrite.dataMap].
    now destruct (GroupSyncWrite.txPacket _). }
  rewrite Hrun, Hadd.
  rewrite (mapSetAll_entries (positionData positions) [] ltac:(constructor)).
  cbn [map app].
  destruct positions as [|[id position] positions].
  - cbn [positionData map firstOccurrences].
    unfold GroupSyncWrite.txPacket, bind, gets. cbn [GroupSyncWrite.dataMap].
    change (len (@nil (Z * Uint8Array)) =? 0) with true. cbv iota.
    unfold throwNew, throw. cbn [fst snd GroupSyncWrite.portHandler].
    rewrite withPort_same. eexists. split; reflexivity.
  - cbv zeta.
    set (entries := map _ (firstOccurrences [] _)).
    rewrite (txPacket_sends (GroupSyncWrite.mk (FeetechServo.portHandler s) 42 2 entries)).
    + cbn [fst snd GroupSyncWrite.portHandler GroupSyncWrite.withPort GroupSyncWrite.address
           GroupSyncWrite.dataLength GroupSyncWrite.dataMap].
      reflexivity.
    + cbn [GroupSyncWrite.dataMap]. subst entries.
      cbn [positionData map fst firstOccurrences existsb]. discriminate.
    + exact Hopen.
Qed.

Lemma syncWritePosition_packet_witness :
  let s := FeetechServo.mk (mkPort [0x09] true [Data [0x01]] []) true [] "scs_series" 1000 in
  FeetechServo.syncWritePosition [(1, 512); (2, 5000); (1, -3)] s
  = (Ok tt,
     FeetechServo.withPort s
       (mkPort [] true [Data [0x01]]
               [PacketHandler.createPacket BROADCAST_ID SYNC_WRITE
                  (Some [42; 2; 1; 0; 0; 2; 255; 15])])).
Proof.
  cbv zeta.
  apply (syncWritePosition_packet
           (FeetechServo.mk (mkPort [0x09] true [Data [0x01]] []) true [] "scs_series" 1000)
           [(1, 512); (2, 5000); (1, -3)] eq_refl eq_refl).
Defined.

Lemma mapSet_fresh {A : Type} (k : Z) (v : A) (m : list (Z * A)) :
  ~ In k (map fst m) -> mapSet k v m = m ++ [(k, v)].
Proof.
  induction m as [|[k' v'] m IH]; intros Hnot; cbn [mapSet app]; [reflexivity|].
  cbn [map fst In] in Hnot.
  destruct (Z.eqb_spec k' k) as [->|Hne]; [tauto|].
  rewrite IH by tauto. reflexivity.
Qed.

Lemma mapGet_NoDup_In {A : Type} (k : Z) (v : A) (m : list (Z * A)) :
  NoDup (map fst m) -> In (k, v) m -> mapGet k m = Some v.
Proof.
  induction m as [|[k' v'] m IH]; intros Hnd Hin; [contradiction|].
  cbn [map fst] in Hnd. apply NoDup_cons_iff in Hnd. destruct Hnd as [Hnot Hnd].
  cbn [mapGet]. destruct Hin as [Heq|Hin].
  - injection Heq as -> ->. now rewrite Z.eqb_refl.
  - destruct (Z.eqb_spec k' k) as [->|Hne]; [|now apply IH].
    elim Hnot. change k with (fst (k, v)). now apply in_map.
Qed.

Lemma setAdd_all_fresh (ids : list Z) :
  forall set, NoDup (set ++ ids) ->
              fold_left (fun set id => setAdd id set) ids set = set ++ ids.
Proof.
  induction ids as [|id ids IH]; intros set Hnd; cbn [fold_left].
  - now rewrite app_nil_r.
  - rewrite setAdd_absent.
    + rewrite IH; rewrite <- app_assoc; [reflexivity | exact Hnd].
    + apply NoDup_remove_2 in Hnd.
      destruct (existsb (fun y => y =? id) set) eqn:E; [|reflexivity].
      apply existsb_exists in E. destruct E as (y & Hy & Heq).
      apply Z.eqb_eq in Heq. subst y. elim Hnd. apply in_or_app. now left.
Qed.

Lemma addIds_run (ids : list Z) :
  forall g,
    FeetechServo.addIds ids g
    = (Ok tt, GroupSyncRead.withIdList g
                (fold_left (fun set id => setAdd id set) ids (GroupSyncRead.idList g))).
Proof.
  induction ids as [|id ids IH]; intros g.
  - cbn [FeetechServo.addIds fold_left]. unfold ret. now destruct g.
  - cbn [FeetechServo.addIds fold_left]. unfold bind, GroupSyncRead.addParam, modify.
    rewrite IH. reflexivity.
Qed.

Lemma at_stored (data : Uint8Array) (i : Z) :
  0 <= i < 2 -> 2 <= len data -> at_ (slice 0 2 data) i = at_ data i.
Proof.
  intros Hi Hlen. rewrite slice_0 by lia. change (Z.to_nat 2) with 2%nat.
  destruct data as [|a [|b data]]; try (unfold len in Hlen; simpl in Hlen; lia).
  assert (Hcases : i = 0 \/ i = 1) by lia.
  destruct Hcases as [-> | ->]; reflexivity.
Qed.

(** The second loop of [syncReadPosition] over ids whose replies are stored. *)
Lemma collectPositions_answers (todo : list (Z * Uint8Array)) :
  forall (done : list (Z * Uint8Array)) (g : GroupSyncRead.t),
    NoDup (map fst (done ++ todo)) ->
    (forall answer, In answer todo ->
                    mapGet (fst answer) (GroupSyncRead.dataMap g)
                    = Some (slice 0 2 (snd answer))) ->
    Forall (fun answer => 2 <= len (snd answer)) todo ->
    FeetechServo.collectPositions (map fst todo) (answeredPositions done) g
    = (Ok (answeredPositions (done ++ todo)), g).
Proof.
  induction todo as [|[id data] todo IH]; intros done g Hnd Hget Hlen.
  - cbn [map FeetechServo.collectPositions]. unfold ret. now rewrite app_nil_r.
  - cbn [map fst FeetechServo.collectPositions]. unfold bind at 1.
    unfold GroupSyncRead.getData, gets.
    pose proof (Hget (id, data) (or_introl eq_refl)) as Hhere. cbn [fst snd] in Hhere.
    rewrite Hhere.
    apply Forall_cons_iff in Hlen. destruct Hlen as [Hdata Hlen]. cbn [snd] in Hdata.
    rewrite (stored_width 2 data ltac:(lia) Hdata). change (2 <? 2) with false. cbn [negb].
    rewrite !at_stored by lia.
    rewrite mapSet_fresh.
    + assert (Hacc : answeredPositions done ++ [(id, makeWord (at_ data 0) (at_ data 1))]
                     = answeredPositions (done ++ [(id, data)])).
      { unfold answeredPositions. now rewrite map_app. }
      rewrite Hacc.
      rewrite (IH (done ++ [(id, data)]) g).
      * now rewrite <- app_assoc.
      * now rewrite <- app_assoc.
      * intros answer Hin. apply Hget. now right.
      * exact Hlen.
    + unfold answeredPositions. rewrite map_map. cbn [fst].
      rewrite map_app in Hnd. cbn [map fst] in Hnd.
      apply NoDup_remove_2 in Hnd. intros Hin. apply Hnd.
      apply in_or_app. left. exact Hin.
Qed.

(** [syncReadPosition] when every device answers.  One SYNC_READ broadcast
    for register 56 with width 2 goes out; when the devices answer in the
    order of the ids, without error bits and with at least two data bytes
    each, the result maps each id to the word of the first two bytes of its
    reply, low byte first.  With no ids it throws INVALID_PARAMETER and
    touches nothing. *)
Theorem syncReadPosition_all_answer
        (s : FeetechServo.t) (answers : list (Z * Uint8Array)) (rest : Uint8Array) :
  FeetechServo.getConnectionStatus s = true ->
  lookup (FeetechServo.defaultModel s) MODEL_CONTROL_TABLE = Some SCS_SERIES_CONTROL_TABLE ->
  NoDup (map fst answers) ->
  Forall (fun answer => 0 <= fst answer < 256 /\ 2 <= len (snd answer) <= 253) answers ->
  lineData (incoming (FeetechServo.portHandler s)) = syncReplies answers ++ rest ->
  match answers with
  | [] => exists e, FeetechServo.syncReadPosition (map fst answers) s
                    = (Throw (ServoErr e), s)
                    /\ code e = INVALID_PARAMETER
  | _ :: _ =>
      exists s',
        FeetechServo.syncReadPosition (map fst answers) s
        = (Ok (answeredPositions answers), s')
        /\ pending (FeetechServo.portHandler s') = rest
        /\ written (FeetechServo.portHandler s')
           = written (FeetechServo.portHandler s)
               ++ [PacketHandler.createPacket BROADCAST_ID SYNC_READ
                     (Some ([56; 2] ++ map toUint8 (map fst answers)))]
  end.
Proof.
  intros Hconn Hmodel Hnd Hall Hline.
  pose proof (connected_open s Hconn) as Hopen.
  set (g0 := GroupSyncRead.mk (FeetechServo.portHandler s) 56 2 DEFAULT_TIMEOUT
                              (map fst answers) []).
  assert (Hrun :
    FeetechServo.syncReadPosition (map fst answers) s
    = (let '(r, g') := (GroupSyncRead.txRxPacket ;;
                        FeetechServo.collectPositions (map fst answers) []) g0 in
       (r, FeetechServo.withPort s (GroupSyncRead.portHandler g')))).
  { unfold FeetechServo.syncReadPosition. unfold bind at 1.
    rewrite (ensureConnected_ok s Hconn). unfold bind at 1.
    rewrite (facade_entry s "Present_Position" (mkEntry 56 2) Hmodel eq_refl).
    unfold bind at 1. unfold FeetechServo.createSyncRead. unfold bind at 1.
    rewrite (ensureConnected_ok s Hconn). unfold gets. cbn [address size].
    unfold FeetechServo.onSyncRead. unfold bind at 1. rewrite addIds_run.
    cbn [GroupSyncRead.withPort GroupSyncRead.withIdList GroupSyncRead.idList
         GroupSyncRead.address GroupSyncRead.dataLength GroupSyncRead.timeout
         GroupSyncRead.dataMap GroupSyncRead.portHandler].
    rewrite (setAdd_all_fresh (map fst answers) [] Hnd). reflexivity. }
  rewrite Hrun. clear Hrun. unfold bind.
  destruct answers as [|answer answers].
  - subst g0. unfold GroupSyncRead.txRxPacket, bind, gets. cbn [map GroupSyncRead.idList].
    change (len (@nil Z) =? 0) with true. cbv iota. unfold throwNew, throw.
    cbn [GroupSyncRead.portHandler]. rewrite withPort_same.
    eexists. split; reflexivity.
  - destruct (txRxPacket_answers g0 (answer :: answers) rest)
      as (g' & Htx & Hmap & Hrest & Hwr); subst g0;
      cbn [GroupSyncRead.idList GroupSyncRead.dataLength GroupSyncRead.portHandler
           GroupSyncRead.address] in *;
      try assumption; try reflexivity; try discriminate.
    rewrite Htx.
    pose proof (collectPositions_answers (answer :: answers) [] g' Hnd) as Hcol.
    cbn [app] in Hcol. change (answeredPositions []) with (@nil (Z * Z)) in Hcol.
    rewrite Hcol.
    + exists (FeetechServo.withPort s (GroupSyncRead.portHandler g')).
      split; [reflexivity|]. cbn [FeetechServo.withPort FeetechServo.portHandler].
      split; [exact Hrest|]. now rewrite Hwr, createSyncReadPacket_params.
    + intros a Hin. rewrite Hmap. destruct a as [id data]. cbn [fst snd].
      apply mapGet_NoDup_In.
      * unfold storedAnswers. rewrite map_map. cbn [fst]. exact Hnd.
      * unfold storedAnswers. apply in_map_iff. exists (id, data). now split.
    + eapply Forall_impl; [|exact Hall]. cbv beta. intros a Ha. lia.
Qed.

Lemma syncReadPosition_all_answer_witness :
  let s := FeetechServo.mk
             (mkPort [0x55] true
                     [Data (statusFrame 1 0 [0x07; 0x08] ++ statusFrame 3 0 [0x09; 0x0A])] [])
             true [] "scs_series" 1000 in
  exists s',
    FeetechServo.syncReadPosition [1; 3] s = (Ok [(1, 0x0807); (3, 0x0A09)], s')
    /\ pending (FeetechServo.portHandler s') = []
    /\ written (FeetechServo.portHandler s')
       = written (FeetechServo.portHandler s)
           ++ [PacketHandler.createPacket BROADCAST_ID SYNC_READ (Some [56; 2; 1; 3])].
Proof.
  cbv zeta.
  apply (syncReadPosition_all_answer
           (FeetechServo.mk
              (mkPort [0x55] true
                      [Data (statusFrame 1 0 [0x07; 0x08] ++ statusFrame 3 0 [0x09; 0x0A])] [])
              true [] "scs_series" 1000)
           [(1, [0x07; 0x08]); (3, [0x09; 0x0A])] []).
  - reflexivity.
  - reflexivity.
  - repeat constructor; simpl; intuition discriminate.
  - repeat constructor; vm_compute; discriminate.
  - vm_compute. reflexivity.
Defined.

(* ------------------------------------------------------------------ *)
(** ** The facade: baud rate *)

(** [setBaudRate] of the facade.  A rate of the table is written as its
    register value, one byte, to register 6.  Any other rate is refused
    with INVALID_PARAMETER, the plain error of the table lookup being
    replaced, and nothing is sent. *)
Theorem setBaudRate_outcome
        (s : FeetechServo.t) (id baudRate : Z) (line : list Arrival) :
  FeetechServo.getConnectionStatus s = true ->
  lookup (FeetechServo.defaultModel s) MODEL_CONTROL_TABLE = Some SCS_SERIES_CONTROL_TABLE ->
  0 <= id < 256 ->
  incoming (FeetechServo.portHandler s) = Data (statusFrame id 0 []) :: line ->
  match getBaudRateValue baudRate with
  | Ok reg =>
      FeetechServo.setBaudRate id baudRate s
      = (Ok tt,
         FeetechServo.withPort s
           (mkPort [] true line
                   (written (FeetechServo.portHandler s)
                      ++ [PacketHandler.createPacket id WRITE (Some [6; reg])])))
      /\ getActualBaudRate reg = baudRate
  | _ =>
      exists e, FeetechServo.setBaudRate id baudRate s = (Throw (ServoErr e), s)
                /\ code e = INVALID_PARAMETER
  end.
Proof.
  intros Hconn Hmodel Hid Hline.
  pose proof (connected_open s Hconn) as Hopen.
  assert (Hrun :
    FeetechServo.setBaudRate id baudRate s
    = (fst (ProtocolHandler.setBaudRate (FeetechServo.defaultModel s)
              (FeetechServo.timeout s) id baudRate (FeetechServo.portHandler s)),
       FeetechServo.withPort s
         (snd (ProtocolHandler.setBaudRate (FeetechServo.defaultModel s)
                 (FeetechServo.timeout s) id baudRate (FeetechServo.portHandler s))))).
  { unfold FeetechServo.setBaudRate. unfold bind at 1.
    rewrite (ensureConnected_ok s Hconn). unfold FeetechServo.onPort.
    now destruct (ProtocolHandler.setBaudRate _ _ _ _ _). }
  rewrite Hrun. clear Hrun.
  unfold ProtocolHandler.setBaudRate. unfold bind at 1 3. unfold tryCatch, call.
  destruct (getBaudRateValue baudRate) as [reg|e|] eqn:Hbaud.
  - destruct (getBaudRateValue_register baudRate reg Hbaud) as [Hreg Hact].
    split; [|exact Hact].
    unfold bind.
    rewrite (entryOrThrow_known _ "Baud_Rate" (mkEntry 6 1) _ Hmodel eq_refl).
    cbn [address]. unfold ProtocolHandler.writeByte.
    rewrite (writeData_chunk (FeetechServo.timeout s) id 6 _ [] line
               (FeetechServo.portHandler s) Hid ltac:(vm_compute; discriminate) Hopen Hline).
    rewrite createWritePacket_params. cbn [fst snd].
    change 0xFF with (Z.ones 8). rewrite Z.land_ones by lia.
    change (2 ^ 8) with 256. rewrite (Z.mod_small reg 256) by lia.
    rewrite (toUint8_small reg) by lia. reflexivity.
  - unfold throwNew, throw. cbn [fst snd]. rewrite withPort_same.
    eexists. split; reflexivity.
  - unfold getBaudRateValue in Hbaud.
    destruct (findBaud baudRate SCS_SERIES_BAUD_TABLE); discriminate.
Qed.

Lemma setBaudRate_outcome_witness :
  let s := FeetechServo.mk (mkPort [] true [Data (statusFrame 1 0 [])] [])
                           true [] "scs_series" 1000 in
  FeetechServo.setBaudRate 1 115200 s
  = (Ok tt,
     FeetechServo.withPort s
       (mkPort [] true [] [PacketHandler.createPacket 1 WRITE (Some [6; 4])]))
  /\ getActualBaudRate 4 = 115200.
Proof.
  cbv zeta.
  apply (setBaudRate_outcome
           (FeetechServo.mk (mkPort [] true [Data (statusFrame 1 0 [])] [])
                            true [] "scs_series" 1000)
           1 115200 [] eq_refl eq_refl ltac:(lia) eq_refl).
Defined.

(* ------------------------------------------------------------------ *)
(** ** The broadcast id as the target of a single-device operation *)

(** What a transaction makes of a well-formed status frame that follows the
    request on the line. *)
Lemma sendAndReceive_status_frame
      (timeout expectedId id error : Z) (parameters rest : Uint8Array)
      (packet : Uint8Array) (st : PortState) :
  0 <= id < 256 -> len parameters <= 253 ->
  isOpen st = true ->
  lineData (incoming st) = statusFrame id error parameters ++ rest ->
  if negb (id =? expectedId)
  then exists e,
         fst (ProtocolHandler.sendAndReceive timeout packet expectedId st)
         = Throw (ServoErr e)
         /\ code e = INVALID_RESPONSE
  else if Z.land error 0x7F =? 0
  then exists response,
         fst (ProtocolHandler.sendAndReceive timeout packet expectedId st) = Ok response
         /\ ResponsePacket.id response = expectedId
         /\ ResponsePacket.parameters response = parameters
  else exists e,
         fst (ProtocolHandler.sendAndReceive timeout packet expectedId st)
         = Throw (ServoErr e)
         /\ code e = HARDWARE_ERROR /\ deviceId e = Some expectedId.
Proof.
  intros Hid Hp Hopen Hline.
  pose proof (statusFrame_parse id error parameters Hid Hp) as Hparse.
  set (response := ResponsePacket.mk id 0 parameters (len parameters + 2) error _) in Hparse.
  destruct (sendAndReceive_extracts timeout expectedId [] (statusFrame id error parameters)
              rest response st packet) as (st' & Hrun & _).
  - intros i Hi. simpl in Hi. lia.
  - exact Hparse.
  - rewrite statusFrame_len. reflexivity.
  - exact Hopen.
  - exact Hline.
  - rewrite Hrun. cbn [fst].
    unfold verifyResponse. cbn [ResponsePacket.id response].
    destruct (negb (id =? expectedId)) eqn:Eid.
    + eexists. split; reflexivity.
    + apply negb_false_iff, Z.eqb_eq in Eid. subst expectedId.
      pose proof (checkError_cases response) as Hc.
      cbn [ResponsePacket.error ResponsePacket.id response] in Hc.
      destruct (Z.land error 127 =? 0).
      * rewrite Hc. exists response. repeat split.
      * destruct Hc as (e & -> & Hcode & Hdev). exists e. repeat split; assumption.
Qed.

Lemma readData_oneTransaction (timeout id address length : Z) (st : PortState) :
  oneTransaction timeout id (ProtocolHandler.readData timeout id address length) st
                 (PacketHandler.createReadPacket id address length)
                 (readReply id length).
Proof.
  unfold oneTransaction, ProtocolHandler.readData, bind, afterTransaction, readReply.
  destruct (ProtocolHandler.sendAndReceive timeout
              (PacketHandler.createReadPacket id address length) id st)
    as [[response|e|] st1]; cbn [fst snd]; try reflexivity.
  destruct (len (ResponsePacket.parameters response) <? length); reflexivity.
Qed.

Lemma writeData_oneTransaction (timeout id address : Z) (data : Uint8Array)
      (st : PortState) :
  oneTransaction timeout id (ProtocolHandler.writeData timeout id address data) st
                 (PacketHandler.createWritePacket id address data)
                 (fun _ => Ok tt).
Proof.
  unfold oneTransaction, ProtocolHandler.writeData, bind, afterTransaction.
  destruct (ProtocolHandler.sendAndReceive timeout
              (PacketHandler.createWritePacket id address data) id st)
    as [[response|e|] st1]; reflexivity.
Qed.

Lemma readByte_oneTransaction (timeout id address : Z) (st : PortState) :
  oneTransaction timeout id (ProtocolHandler.readByte timeout id address) st
                 (PacketHandler.createReadPacket id address 1)
                 (fun response => mapResult (fun d => at_ d 0) (readReply id 1 response)).
Proof.
  unfold oneTransaction, ProtocolHandler.readByte. unfold bind at 1.
  rewrite (readData_oneTransaction timeout id address 1 st).
  unfold afterTransaction.
  destruct (ProtocolHandler.sendAndReceive timeout
              (PacketHandler.createReadPacket id address 1) id st)
    as [[response|e|] st1]; cbn [fst snd]; try reflexivity.
  destruct (readReply id 1 response); reflexivity.
Qed.

Lemma readWord_oneTransaction (timeout id address : Z) (st : PortState) :
  oneTransaction timeout id (ProtocolHandler.readWord timeout id address) st
                 (PacketHandler.createReadPacket id address 2)
                 (fun response =>
                    mapResult (fun d => makeWord (at_ d 0) (at_ d 1))
                              (readReply id 2 response)).
Proof.
  unfold oneTransaction, ProtocolHandler.readWord. unfold bind at 1.
  rewrite (readData_oneTransaction timeout id address 2 st).
  unfold afterTransaction.
  destruct (ProtocolHandler.sendAndReceive timeout
              (PacketHandler.createReadPacket id address 2) id st)
    as [[response|e|] st1]; cbn [fst snd]; try reflexivity.
  destruct (readReply id 2 response); reflexivity.
Qed.

Lemma writeByte_oneTransaction (timeout id address value : Z) (st : PortState) :
  oneTransaction timeout id (ProtocolHandler.writeByte timeout id address value) st
                 (PacketHandler.createPacket id WRITE
                    (Some [toUint8 address; toUint8 (Z.land value 0xFF)]))
                 (fun _ => Ok tt).
Proof.
  unfold ProtocolHandler.writeByte. rewrite <- createWritePacket_params.
  apply writeData_oneTransaction.
Qed.

Lemma writeWord_oneTransaction (timeout id address value : Z) (st : PortState) :
  oneTransaction timeout id (ProtocolHandler.writeWord timeout id address value) st
                 (PacketHandler.createPacket id WRITE
                    (Some [toUint8 address; toUint8 (getLowByte value);
                           toUint8 (getHighByte value)]))
                 (fun _ => Ok tt).
Proof.
  unfold ProtocolHandler.writeWord. rewrite <- createWritePacket_params.
  apply writeData_oneTransaction.
Qed.

Lemma plain_oneTransaction (timeout id : Z) (request : Uint8Array) (st : PortState) :
  oneTransaction timeout id
                 (_ <- ProtocolHandler.sendAndReceive timeout request id ;; ret tt) st
                 request (fun _ => Ok tt).
Proof.
  unfold oneTransaction, bind, afterTransaction.
  destruct (ProtocolHandler.sendAndReceive timeout request id st)
    as [[response|e|] st1]; reflexivity.
Qed.

(** A step that returns without touching the port, before the transaction. *)
Lemma bound_oneTransaction {A B : Type} (timeout id : Z) (m : M PortState A)
      (k : A -> M PortState B) (st : PortState) (a : A) (request : Uint8Array)
      (reply : ResponsePacket.t -> Result B) :
  m st = (Ok a, st) ->
  oneTransaction timeout id (k a) st request reply ->
  oneTransaction timeout id (bind m k) st request reply.
Proof. unfold oneTransaction, bind. intros -> H. exact H. Qed.

(** [C4], as amended.  No single-device operation checks its target against
    the broadcast id.  Called with the target 0xFE on an open port, each of
    ping, readData, writeData, readByte, readWord, writeByte, writeWord,
    setTorque, setID, setBaudRate, factoryReset and reboot performs its
    transaction like for any other id.
    - The request addressed to 0xFE goes to the writer (for the operations
      other than ping it is the only packet written).
    - The transaction that expects the id 0xFE fails with TIMEOUT when
      nothing answers, with INVALID_RESPONSE when the frame that arrives
      bears another id, with HARDWARE_ERROR when a frame bearing 0xFE reports
      one of the error bits 0..6, and returns the frame bearing 0xFE
      otherwise.
    - [ping] fails exactly as its first transaction fails; once that has
      returned it throws nothing, and when the three replies bearing 0xFE
      arrive it returns the result for the id 0xFE.
    - Each of the other operations is that one transaction: it fails as the
      transaction fails and returns when the transaction returns; the reads
      alone then also ask for as many parameter bytes as were requested.
      So each of them fails with TIMEOUT, INVALID_RESPONSE or HARDWARE_ERROR
      in the cases above, and on a frame bearing 0xFE without error bits the
      writes, the resets and setTorque, setID, setBaudRate return, and a read
      returns the bytes it asked for.
    (For setTorque, setID and setBaudRate: with a model of the control
    table, a new id in 0..253 and a baud rate of the table.) *)
Theorem broadcast_id_not_rejected
        (timeout : Z) (model : string) (st : PortState)
        (register length value newId baudRate reg : Z)
        (data : Uint8Array) (enabled : bool) :
  isOpen st = true ->
  lookup model MODEL_CONTROL_TABLE = Some SCS_SERIES_CONTROL_TABLE ->
  0 <= newId <= 253 ->
  findBaud baudRate SCS_SERIES_BAUD_TABLE = Some reg ->
  (forall instruction parameters,
      at_ (PacketHandler.createPacket BROADCAST_ID instruction parameters) 2 = 0xFE)
  /\ (exists more,
         transmits (ProtocolHandler.ping timeout BROADCAST_ID) st
                   (PacketHandler.createPacket BROADCAST_ID PING None :: more))
  /\ transmits (ProtocolHandler.readData timeout BROADCAST_ID register length) st
       [PacketHandler.createPacket BROADCAST_ID READ
          (Some [toUint8 register; toUint8 length])]
  /\ transmits (ProtocolHandler.writeData timeout BROADCAST_ID register data) st
       [PacketHandler.createPacket BROADCAST_ID WRITE (Some (toUint8 register :: data))]
  /\ transmits (ProtocolHandler.readByte timeout BROADCAST_ID register) st
       [PacketHandler.createPacket BROADCAST_ID READ (Some [toUint8 register; 1])]
  /\ transmits (ProtocolHandler.readWord timeout BROADCAST_ID register) st
       [PacketHandler.createPacket BROADCAST_ID READ (Some [toUint8 register; 2])]
  /\ transmits (ProtocolHandler.writeByte timeout BROADCAST_ID register value) st
       [PacketHandler.createPacket BROADCAST_ID WRITE
          (Some [toUint8 register; toUint8 (Z.land value 0xFF)])]
  /\ transmits (ProtocolHandler.writeWord timeout BROADCAST_ID register value) st
       [PacketHandler.createPacket BROADCAST_ID WRITE
          (Some [toUint8 register; toUint8 (getLowByte value);
                 toUint8 (getHighByte value)])]
  /\ transmits (ProtocolHandler.setTorque model timeout BROADCAST_ID enabled) st
       [PacketHandler.createPacket BROADCAST_ID WRITE
          (Some [40; if enabled then 1 else 0])]
  /\ transmits (ProtocolHandler.setID model timeout BROADCAST_ID newId) st
       [PacketHandler.createPacket BROADCAST_ID WRITE
          (Some [5; toUint8 (Z.land newId 0xFF)])]
  /\ transmits (ProtocolHandler.setBaudRate model timeout BROADCAST_ID baudRate) st
       [PacketHandler.createPacket BROADCAST_ID WRITE
          (Some [6; toUint8 (Z.land reg 0xFF)])]
  /\ transmits (ProtocolHandler.factoryReset timeout BROADCAST_ID) st
       [PacketHandler.createPacket BROADCAST_ID FACTORY_RESET None]
  /\ transmits (ProtocolHandler.reboot timeout BROADCAST_ID) st
       [PacketHandler.createPacket BROADCAST_ID REBOOT None]
  (* the transaction that expects the id 0xFE *)
  /\ (forall packet,
         len (lineData (incoming st)) < 2 ->
         exists e,
           fst (ProtocolHandler.sendAndReceive timeout packet BROADCAST_ID st)
           = Throw (ServoErr e)
           /\ code e = TIMEOUT)
  /\ (forall packet id error parameters rest,
         0 <= id < 256 -> len parameters <= 253 ->
         lineData (incoming st) = statusFrame id error parameters ++ rest ->
         if negb (id =? BROADCAST_ID)
         then exists e,
                fst (ProtocolHandler.sendAndReceive timeout packet BROADCAST_ID st)
                = Throw (ServoErr e)
                /\ code e = INVALID_RESPONSE
         else if Z.land error 0x7F =? 0
         then exists response,
                fst (ProtocolHandler.sendAndReceive timeout packet BROADCAST_ID st)
                = Ok response
                /\ ResponsePacket.id response = BROADCAST_ID
                /\ ResponsePacket.parameters response = parameters
         else exists e,
                fst (ProtocolHandler.sendAndReceive timeout packet BROADCAST_ID st)
                = Throw (ServoErr e)
                /\ code e = HARDWARE_ERROR /\ deviceId e = Some BROADCAST_ID)
  (* ping *)
  /\ match fst (ProtocolHandler.sendAndReceive timeout
                  (PacketHandler.createPacket BROADCAST_ID PING None) BROADCAST_ID st) with
     | Ok _ =>
         (forall e, fst (ProtocolHandler.ping timeout BROADCAST_ID st) <> Throw e)
         /\ (forall result,
               fst (ProtocolHandler.ping timeout BROADCAST_ID st) = Ok result ->
               ping_id result = BROADCAST_ID)
     | Throw e => fst (ProtocolHandler.ping timeout BROADCAST_ID st) = Throw e
     | Unfinished => fst (ProtocolHandler.ping timeout BROADCAST_ID st) = Unfinished
     end
  /\ (forall lo hi fw line,
         incoming st = Data (statusFrame BROADCAST_ID 0 [])
                         :: Data (statusFrame BROADCAST_ID 0 [lo; hi])
                         :: Data (statusFrame BROADCAST_ID 0 [fw]) :: line ->
         fst (ProtocolHandler.ping timeout BROADCAST_ID st)
         = Ok (mkPing BROADCAST_ID (makeWord lo hi) fw))
  (* the other operations: one transaction each *)
  /\ oneTransaction timeout BROADCAST_ID
       (ProtocolHandler.readData timeout BROADCAST_ID register length) st
       (PacketHandler.createPacket BROADCAST_ID READ
          (Some [toUint8 register; toUint8 length]))
       (readReply BROADCAST_ID length)
  /\ oneTransaction timeout BROADCAST_ID
       (ProtocolHandler.writeData timeout BROADCAST_ID register data) st
       (PacketHandler.createPacket BROADCAST_ID WRITE (Some (toUint8 register :: data)))
       (fun _ => Ok tt)
  /\ oneTransaction timeout BROADCAST_ID
       (ProtocolHandler.readByte timeout BROADCAST_ID register) st
       (PacketHandler.createPacket BROADCAST_ID READ (Some [toUint8 register; 1]))
       (fun response => mapResult (fun d => at_ d 0) (readReply BROADCAST_ID 1 response))
  /\ oneTransaction timeout BROADCAST_ID
       (ProtocolHandler.readWord timeout BROADCAST_ID register) st
       (PacketHandler.createPacket BROADCAST_ID READ (Some [toUint8 register; 2]))
       (fun response =>
          mapResult (fun d => makeWord (at_ d 0) (at_ d 1))
                    (readReply BROADCAST_ID 2 response))
  /\ oneTransaction timeout BROADCAST_ID
       (ProtocolHandler.writeByte timeout BROADCAST_ID register value) st
       (PacketHandler.createPacket BROADCAST_ID WRITE
          (Some [toUint8 register; toUint8 (Z.land value 0xFF)]))
       (fun _ => Ok tt)
  /\ oneTransaction timeout BROADCAST_ID
       (ProtocolHandler.writeWord timeout BROADCAST_ID register value) st
       (PacketHandler.createPacket BROADCAST_ID WRITE
          (Some [toUint8 register; toUint8 (getLowByte value);
                 toUint8 (getHighByte value)]))
       (fun _ => Ok tt)
  /\ oneTransaction timeout BROADCAST_ID
       (ProtocolHandler.setTorque model timeout BROADCAST_ID enabled) st
       (PacketHandler.createPacket BROADCAST_ID WRITE
          (Some [40; if enabled then 1 else 0]))
       (fun _ => Ok tt)
  /\ oneTransaction timeout BROADCAST_ID
       (ProtocolHandler.setID model timeout BROADCAST_ID newId) st
       (PacketHandler.createPacket BROADCAST_ID WRITE
          (Some [5; toUint8 (Z.land newId 0xFF)]))
       (fun _ => Ok tt)
  /\ oneTransaction timeout BROADCAST_ID
       (ProtocolHandler.setBaudRate model timeout BROADCAST_ID baudRate) st
       (PacketHandler.createPacket BROADCAST_ID WRITE
          (Some [6; toUint8 (Z.land reg 0xFF)]))
       (fun _ => Ok tt)
  /\ oneTransaction timeout BROADCAST_ID
       (ProtocolHandler.factoryReset timeout BROADCAST_ID) st
       (PacketHandler.createPacket BROADCAST_ID FACTORY_RESET None)
       (fun _ => Ok tt)
  /\ oneTransaction timeout BROADCAST_ID
       (ProtocolHandler.reboot timeout BROADCAST_ID) st
       (PacketHandler.createPacket BROADCAST_ID REBOOT None)
       (fun _ => Ok tt)
  (* hence the outcome of each of them *)
  /\ (forall (A : Type) (op : M PortState A) (request : Uint8Array)
             (reply : ResponsePacket.t -> Result A),
         oneTransaction timeout BROADCAST_ID op st request reply ->
         (len (lineData (incoming st)) < 2 ->
          exists e, fst (op st) = Throw (ServoErr e) /\ code e = TIMEOUT)
         /\ (forall id error parameters rest,
               0 <= id < 256 -> len parameters <= 253 ->
               lineData (incoming st) = statusFrame id error parameters ++ rest ->
               if negb (id =? BROADCAST_ID)
               then exists e, fst (op st) = Throw (ServoErr e)
                              /\ code e = INVALID_RESPONSE
               else if Z.land error 0x7F =? 0
               then exists response,
                      fst (op st) = reply response
                      /\ ResponsePacket.id response = BROADCAST_ID
                      /\ ResponsePacket.parameters response = parameters
               else exists e, fst (op st) = Throw (ServoErr e)
                              /\ code e = HARDWARE_ERROR
                              /\ deviceId e = Some BROADCAST_ID)).
Proof.
  intros Hopen Hmodel HnewId Hbaud.
  split; [intros; apply createPacket_id_byte|].
  split; [now apply ping_transmits|].
  split; [now apply readData_transmits|].
  split; [rewrite <- createWritePacket_params; now apply writeData_transmits|].
  split.
  { unfold ProtocolHandler.readByte.
    apply transmits_bind_silent; [now apply readData_transmits|].
    intros d. apply silent_ret. }
  split.
  { unfold ProtocolHandler.readWord.
    apply transmits_bind_silent; [now apply readData_transmits|].
    intros d. apply silent_ret. }
  split.
  { unfold ProtocolHandler.writeByte. rewrite <- createWritePacket_params.
    now apply writeData_transmits. }
  split.
  { unfold ProtocolHandler.writeWord. rewrite <- createWritePacket_params.
    now apply writeData_transmits. }
  split.
  { unfold transmits, ProtocolHandler.setTorque, bind.
    rewrite (entryOrThrow_known model "Torque_Enable" (mkEntry 40 1) st Hmodel eq_refl).
    cbn [address]. unfold ProtocolHandler.writeByte.
    change 40 with (toUint8 40) at 2. rewrite <- createWritePacket_params.
    destruct enabled; now apply writeData_transmits. }
  split.
  { unfold ProtocolHandler.setID.
    replace ((newId <? 0) || (253 <? newId)) with false
      by (symmetry; apply orb_false_iff; split; apply Z.ltb_ge; lia).
    unfold transmits, bind.
    rewrite (entryOrThrow_known model "ID" (mkEntry 5 1) st Hmodel eq_refl).
    cbn [address]. unfold ProtocolHandler.writeByte.
    change 5 with (toUint8 5) at 2. rewrite <- createWritePacket_params.
    now apply writeData_transmits. }
  split.
  { unfold transmits, ProtocolHandler.setBaudRate, bind, tryCatch, call, getBaudRateValue.
    rewrite Hbaud.
    rewrite (entryOrThrow_known model "Baud_Rate" (mkEntry 6 1) st Hmodel eq_refl).
    cbn [address]. unfold ProtocolHandler.writeByte.
    change 6 with (toUint8 6) at 2. rewrite <- createWritePacket_params.
    now apply writeData_transmits. }
  split.
  { unfold ProtocolHandler.factoryReset.
    apply transmits_bind_silent; [now apply sendAndReceive_transmits|].
    intros _. apply silent_ret. }
  split.
  { unfold ProtocolHandler.reboot.
    apply transmits_bind_silent; [now apply sendAndReceive_transmits|].
    intros _. apply silent_ret. }
  split.
  { intros packet Hline. rewrite sendAndReceive_silent by assumption.
    eexists. split; reflexivity. }
  split.
  { intros packet id error parameters rest Hid Hp Hline.
    exact (sendAndReceive_status_frame timeout BROADCAST_ID id error parameters rest
             packet st Hid Hp Hopen Hline). }
  split.
  { change (PacketHandler.createPacket BROADCAST_ID PING None)
      with (PacketHandler.createPingPacket BROADCAST_ID).
    destruct (ProtocolHandler.sendAndReceive timeout
                (PacketHandler.createPingPacket BROADCAST_ID) BROADCAST_ID st)
      as [[response|e|] st1] eqn:Hack; cbn [fst].
    - exact (ping_after_first timeout BROADCAST_ID st st1 response Hack).
    - now rewrite (ping_first_fails timeout BROADCAST_ID st st1 e Hack).
    - now rewrite (ping_first_unfinished timeout BROADCAST_ID st st1 Hack). }
  split.
  { intros lo hi fw line Hline.
    rewrite (ping_present timeout BROADCAST_ID lo hi fw line st
               ltac:(unfold BROADCAST_ID; lia) Hopen Hline).
    reflexivity. }
  split; [apply readData_oneTransaction|].
  split; [rewrite <- createWritePacket_params; apply writeData_oneTransaction|].
  split; [apply readByte_oneTransaction|].
  split; [apply readWord_oneTransaction|].
  split; [apply writeByte_oneTransaction|].
  split; [apply writeWord_oneTransaction|].
  split.
  { unfold ProtocolHandler.setTorque.
    apply (bound_oneTransaction timeout BROADCAST_ID _ _ st (mkEntry 40 1));
      [exact (entryOrThrow_known model "Torque_Enable" (mkEntry 40 1) st Hmodel eq_refl)|].
    destruct enabled;
      [exact (writeByte_oneTransaction timeout BROADCAST_ID 40 TORQUE_ENABLE st)
      |exact (writeByte_oneTransaction timeout BROADCAST_ID 40 TORQUE_DISABLE st)]. }
  split.
  { unfold ProtocolHandler.setID.
    replace ((newId <? 0) || (253 <? newId)) with false
      by (symmetry; apply orb_false_iff; split; apply Z.ltb_ge; lia).
    apply (bound_oneTransaction timeout BROADCAST_ID _ _ st (mkEntry 5 1));
      [exact (entryOrThrow_known model "ID" (mkEntry 5 1) st Hmodel eq_refl)|].
    exact (writeByte_oneTransaction timeout BROADCAST_ID 5 newId st). }
  split.
  { unfold ProtocolHandler.setBaudRate.
    apply (bound_oneTransaction timeout BROADCAST_ID _ _ st reg).
    { unfold tryCatch, call, getBaudRateValue. now rewrite Hbaud. }
    apply (bound_oneTransaction timeout BROADCAST_ID _ _ st (mkEntry 6 1));
      [exact (entryOrThrow_known model "Baud_Rate" (mkEntry 6 1) st Hmodel eq_refl)|].
    exact (writeByte_oneTransaction timeout BROADCAST_ID 6 reg st). }
  split; [apply plain_oneTransaction|].
  split; [apply plain_oneTransaction|].
  intros A op request reply Hone. unfold oneTransaction in Hone. rewrite Hone. cbn [fst].
  split.
  - intros Hline. rewrite sendAndReceive_silent by assumption.
    eexists. split; reflexivity.
  - intros id error parameters rest Hid Hp Hline.
    pose proof (sendAndReceive_status_frame timeout BROADCAST_ID id error parameters rest
                  request st Hid Hp Hopen Hline) as Hframe.
    destruct (negb (id =? BROADCAST_ID)).
    + destruct Hframe as (e & -> & Hcode). exists e. split; [reflexivity | exact Hcode].
    + destruct (Z.land error 127 =? 0).
      * destruct Hframe as (response & -> & Hrid & Hrp). exists response.
        split; [reflexivity|]. split; assumption.
      * destruct Hframe as (e & -> & Hcode & Hdev). exists e.
        split; [reflexivity|]. split; assumption.
Qed.

Lemma broadcast_id_not_rejected_witness :
  let st := mkPort [] true [] [] in
  exists more,
    transmits (ProtocolHandler.ping 1000 BROADCAST_ID) st
              (PacketHandler.createPacket BROADCAST_ID PING None :: more).
Proof.
  cbv zeta.
  destruct (broadcast_id_not_rejected 1000 "scs_series" (mkPort [] true [] [])
              56 2 1 7 115200 4 [0x00; 0x08] true
              eq_refl eq_refl ltac:(lia) eq_refl) as (_ & Hping & _).
  exact Hping.
Defined.

(** [C4], as stated, fails: a ping to the broadcast id on a line that
    delivers a frame bearing the id 0xFE is not rejected.  The request is
    written, the reply is accepted and the ping succeeds. *)
Lemma ping_broadcast_id_accepted :
  let st := mkPort [] true [Data [0xFF; 0xFF; 0xFE; 0x02; 0x00; 0xFF]] [] in
  exists st',
    ProtocolHandler.ping 1000 BROADCAST_ID st = (Ok (mkPing BROADCAST_ID 0 0), st')
    /\ written st' = [ [0xFF; 0xFF; 0xFE; 0x02; 0x01; 0xFE];
                       [0xFF; 0xFF; 0xFE; 0x04; 0x02; 0x03; 0x02; 0xF6] ].
Proof.
  cbv zeta.
  exists (snd (ProtocolHandler.ping 1000 BROADCAST_ID
                 (mkPort [] true [Data [0xFF; 0xFF; 0xFE; 0x02; 0x00; 0xFF]] []))).
  split; vm_compute; reflexivity.
Qed.
